(** * MindMirror: the AI analysis gateway and the reflection routes

    A shallow embedding of [server/gemini.js] (both variants kept in the
    repository: the audio-capable gateway with retry, and the text-only
    gateway built on [callGemini]) and of the Express routes
    [/analyze-daily], [/analyze-weekly] and [DELETE /reflection/:id].

    Conventions.
    - A JavaScript string is a [string]; each character stands for one code
      unit, so the model covers code units below 256.
    - A JavaScript number that the code only uses as an integer (attempt
      counters, delays in milliseconds) is a [Z]; the values stay far below
      2^53, where the arithmetic of doubles is exact.
    - An [async] function is a state-passing function that returns an
      [Outcome]: [Returned v] for a resolved promise, [Threw e] for a
      rejected one. *)

From Stdlib Require Import ZArith String Ascii List Bool Lia.
From stdpp Require Import gmap strings.
Import ListNotations.

Local Open Scope string_scope.
Local Open Scope list_scope.
Local Open Scope Z_scope.

(** ** JavaScript strings *)

Module JsString.

(** The code units below 256 that [\s] and [String.prototype.trim] treat
    as white space: TAB, LF, VT, FF, CR, SPACE and NO-BREAK SPACE. *)
Definition isWhiteSpace (c : ascii) : bool :=
  existsb (Ascii.eqb c)
    ["009"; "010"; "011"; "012"; "013"; " "; "160"]%char.

(** [s.startsWith(p)] *)
Fixpoint startsWith (p s : string) : bool :=
  match p, s with
  | EmptyString, _ => true
  | String a p', String b s' => Ascii.eqb a b && startsWith p' s'
  | String _ _, EmptyString => false
  end.

(** [s.slice(p.length)] when [s] starts with [p] *)
Fixpoint stripPrefix (p s : string) : option string :=
  match p, s with
  | EmptyString, _ => Some s
  | String a p', String b s' =>
      if Ascii.eqb a b then stripPrefix p' s' else None
  | String _ _, EmptyString => None
  end.

(** [hay.includes(needle)] *)
Fixpoint includes (needle hay : string) : bool :=
  startsWith needle hay ||
  match hay with
  | EmptyString => false
  | String _ hay' => includes needle hay'
  end.

(** [s.trimStart()] *)
Fixpoint trimStart (s : string) : string :=
  match s with
  | String c s' => if isWhiteSpace c then trimStart s' else s
  | EmptyString => EmptyString
  end.

(** [s.trimEnd()]: a character is dropped when it is white space and
    everything after it has been dropped. *)
Fixpoint trimEnd (s : string) : string :=
  match s with
  | EmptyString => EmptyString
  | String c s' =>
      match trimEnd s' with
      | EmptyString => if isWhiteSpace c then EmptyString else String c EmptyString
      | r => String c r
      end
  end.

(** [s.trim()] *)
Definition trim (s : string) : string := trimEnd (trimStart s).

(** [s.substring(0, n)] for [0 <= n] *)
Fixpoint take (n : nat) (s : string) : string :=
  match n, s with
  | S n', String c s' => String c (take n' s')
  | _, _ => EmptyString
  end.

(** [s.split(sep)] for a separator of one character. *)
Fixpoint split (sep : ascii) (s : string) : list string :=
  match s with
  | EmptyString => [EmptyString]
  | String c s' =>
      if Ascii.eqb c sep then EmptyString :: split sep s'
      else match split sep s' with
           | piece :: rest => String c piece :: rest
           | [] => [String c EmptyString]
           end
  end.

End JsString.

(** ** Promises, thrown values and the console *)

(** What a [catch] clause can receive: [undefined], or a value whose
    [message] property is a string or is absent. *)
Inductive Thrown : Type :=
| ThrowUndefined
| ThrowError (message : option string).

Inductive Outcome (A : Type) : Type :=
| Returned (v : A)
| Threw (e : Thrown).
Arguments Returned {A} v.
Arguments Threw {A} e.

(** One line written with [console.log] or [console.error]. *)
Inductive LogEntry : Type :=
| LogRetry (delay attempt maxRetries : Z)
| LogLine (label : string) (payload : option string)
| LogBody (label : string) (userId date textInput : option string).

(** The TypeError raised by [error.message] when [error] is [undefined]. *)
Definition typeErrorNoMessage : Thrown :=
  ThrowError (Some "Cannot read properties of undefined (reading 'message')").

(** ** Asynchronous tasks

    An [async] function over a state [W]: it ends with a value or with a
    thrown value, and leaves a new state. *)

Definition Task (W A : Type) : Type := W -> Outcome A * W.

Definition ret {W A} (v : A) : Task W A := fun w => (Returned v, w).

Definition throw {W A} (e : Thrown) : Task W A := fun w => (Threw e, w).

Definition bind {W A B} (m : Task W A) (k : A -> Task W B) : Task W B :=
  fun w =>
    match m w with
    | (Returned v, w') => k v w'
    | (Threw e, w') => (Threw e, w')
    end.

(** [try { body } catch (error) { handler }] *)
Definition tryCatch {W A} (body : Task W A) (handler : Thrown -> Task W A) : Task W A :=
  fun w =>
    match body w with
    | (Returned v, w') => (Returned v, w')
    | (Threw e, w') => handler e w'
    end.

(** A synchronous expression that returns or throws. *)
Definition ofOutcome {W A} (o : Outcome A) : Task W A := fun w => (o, w).

Notation "'let*' x ':=' m 'in' k" := (bind m (fun x => k))
  (at level 10, x pattern, m at level 100, k at level 200).

(** ** The backoff retrier ([retryWithBackoff], gemini.js) *)

Module Retrier.
Import JsString.

(** The state the retrier runs in: the state [inner] of whatever the
    operation [fn] acts on, the delays passed to [sleep] (oldest first)
    and the console. *)
Record World (S : Type) : Type := mkWorld {
  inner : S;
  slept : list Z;
  console : list LogEntry
}.
Arguments mkWorld {S} _ _ _.
Arguments inner {S} _.
Arguments slept {S} _.
Arguments console {S} _.

Definition setInner {S} (s : S) (w : World S) : World S :=
  mkWorld s (slept w) (console w).

(** [await sleep(ms)] *)
Definition sleep {S} (ms : Z) (w : World S) : World S :=
  mkWorld (inner w) (slept w ++ [ms]) (console w).

Definition consoleWrite {S} (l : LogEntry) (w : World S) : World S :=
  mkWorld (inner w) (slept w) (console w ++ [l]).

(** [m?.includes('429') || m?.includes('Too Many Requests') ||
    m?.includes('RESOURCE_EXHAUSTED')] *)
Definition isRateLimited (message : option string) : bool :=
  match message with
  | Some m => includes "429" m || includes "Too Many Requests" m
              || includes "RESOURCE_EXHAUSTED" m
  | None => false
  end.

Section Loop.
Context {S T : Type}.
Variable fn : S -> Outcome T * S.
Variables maxRetries initialDelay : Z.

(** The [for] loop. [fuel] is the number of iterations left,
    [maxRetries - attempt]; the loop is left with [throw lastError]
    when it reaches zero. *)
Fixpoint retryLoop (fuel : nat) (attempt : Z) (lastError : Thrown)
    (w : World S) : Outcome T * World S :=
  match fuel with
  | O => (Threw lastError, w)
  | Datatypes.S fuel' =>
      match fn (inner w) with
      | (Returned v, s') => (Returned v, setInner s' w)
      | (Threw error, s') =>
          let w1 := setInner s' w in
          match error with
          | ThrowUndefined => (Threw typeErrorNoMessage, w1)
          | ThrowError message =>
              let rateLimited := isRateLimited message in
              if rateLimited && (attempt <? maxRetries - 1) then
                let delay := initialDelay * 2 ^ attempt in
                let w2 := consoleWrite (LogRetry delay (attempt + 1) maxRetries) w1 in
                retryLoop fuel' (attempt + 1) error (sleep delay w2)
              else if negb rateLimited then (Threw error, w1)
              else retryLoop fuel' (attempt + 1) error w1
          end
      end
  end.

Definition retryWithBackoff (w : World S) : Outcome T * World S :=
  retryLoop (Z.to_nat maxRetries) 0 ThrowUndefined w.
End Loop.

(** The delays the formula [initialDelay * 2^attempt] gives for the
    attempts [0 .. n-1]. *)
Definition backoffDelays (initialDelay : Z) (n : nat) : list Z :=
  map (fun k => initialDelay * 2 ^ Z.of_nat k) (seq 0 n).

(** The delays of the attempts [a .. a+k-1]. *)
Definition delaysFrom (initialDelay a : Z) (k : nat) : list Z :=
  map (fun i => initialDelay * 2 ^ (a + Z.of_nat i)) (seq 0 k).

(** The lines the retrier logs before the sleeps of the attempts
    [a .. a+k-1]. *)
Definition retryLogsFrom (initialDelay maxRetries a : Z) (k : nat) : list LogEntry :=
  map (fun i => LogRetry (initialDelay * 2 ^ (a + Z.of_nat i))
                         (a + Z.of_nat i + 1) maxRetries)
      (seq 0 k).

(** The state of the operation after [n] calls. *)
Definition afterCalls {S T} (fn : S -> Outcome T * S) (n : nat) (s : S) : S :=
  Nat.iter n (fun s => snd (fn s)) s.

(** From the state [s], every call of the operation rejects with a
    rate-limit signal. *)
Definition rateLimitedAtEveryCall {S T} (fn : S -> Outcome T * S) (s : S) : Prop :=
  forall n, exists m s',
    fn (afterCalls fn n s) = (Threw (ThrowError m), s')
    /\ isRateLimited m = true.

End Retrier.

(** ** JSON values *)

Module Json.
Import JsString.

(** A value produced by [JSON.parse]. A number keeps its lexeme; an
    object keeps its members in source order. *)
#[warnings="-register-all"]
Inductive json : Type :=
| JNull
| JBool (b : bool)
| JNumber (lexeme : string)
| JString (s : string)
| JArray (items : list json)
| JObject (members : list (string * json)).

(** The member named [key]; a later duplicate wins, as in [JSON.parse]. *)
Fixpoint member (key : string) (members : list (string * json)) : option json :=
  match members with
  | [] => None
  | (k, v) :: rest =>
      match member key rest with
      | Some v' => Some v'
      | None => if String.eqb k key then Some v else None
      end
  end.

Definition typeErrorNull (key : string) : Thrown :=
  ThrowError (Some ("Cannot read properties of null (reading '" +:+ key +:+ "')")).

(** [v.key] for the field names the routes read ([transcript],
    [primaryEmotion], ...): a TypeError on [null], the member on an
    object, [undefined] ([None]) on every other value. *)
Definition getProp (v : json) (key : string) : Outcome (option json) :=
  match v with
  | JNull => Threw (typeErrorNull key)
  | JObject members => Returned (member key members)
  | _ => Returned None
  end.

(** *** A reference [JSON.parse]

    The grammar of ECMA-404 over the alphabet of this model; an escape
    [\uXXXX] above 255 is outside that alphabet and is refused. *)

Definition isJsonWs (c : ascii) : bool :=
  existsb (Ascii.eqb c) [" "; "009"; "010"; "013"]%char.

Fixpoint skipWs (s : string) : string :=
  match s with
  | String c s' => if isJsonWs c then skipWs s' else s
  | EmptyString => EmptyString
  end.

Definition isDigit (c : ascii) : bool :=
  let n := nat_of_ascii c in (48 <=? n)%nat && (n <=? 57)%nat.

Definition hexValue (c : ascii) : option nat :=
  let n := nat_of_ascii c in
  if (48 <=? n)%nat && (n <=? 57)%nat then Some (n - 48)%nat
  else if (65 <=? n)%nat && (n <=? 70)%nat then Some (n - 55)%nat
  else if (97 <=? n)%nat && (n <=? 102)%nat then Some (n - 87)%nat
  else None.

(** The longest prefix of digits, and the rest. *)
Fixpoint spanDigits (s : string) : string * string :=
  match s with
  | String c s' =>
      if isDigit c then let (d, r) := spanDigits s' in (String c d, r)
      else (EmptyString, s)
  | EmptyString => (EmptyString, EmptyString)
  end.

(** [int frac? exp?] after an optional minus sign. *)
Definition parseNumber (s : string) : option (string * string) :=
  let (sign, s0) :=
    match s with
    | String "-"%char r => ("-", r)
    | _ => (EmptyString, s)
    end in
  let (int, s1) := spanDigits s0 in
  match int with
  | EmptyString => None
  | String "0"%char (String _ _) => None
  | _ =>
      let fracPart :=
        match s1 with
        | String "."%char r =>
            let (f, r') := spanDigits r in
            match f with
            | EmptyString => None
            | _ => Some ("." +:+ f, r')
            end
        | _ => Some (EmptyString, s1)
        end in
      match fracPart with
      | None => None
      | Some (frac, s2) =>
          let expPart :=
            match s2 with
            | String e r =>
                if Ascii.eqb e "e" || Ascii.eqb e "E" then
                  let (sg, r1) :=
                    match r with
                    | String "+"%char r' => ("+", r')
                    | String "-"%char r' => ("-", r')
                    | _ => (EmptyString, r)
                    end in
                  let (d, r2) := spanDigits r1 in
                  match d with
                  | EmptyString => None
                  | _ => Some (String e sg +:+ d, r2)
                  end
                else Some (EmptyString, s2)
            | EmptyString => Some (EmptyString, s2)
            end in
          match expPart with
          | None => None
          | Some (ex, s3) => Some (sign +:+ int +:+ frac +:+ ex, s3)
          end
      end
  end.

(** The characters of a string literal after its opening quote, up to
    and including the closing quote. *)
Fixpoint parseChars (s : string) : option (string * string) :=
  match s with
  | EmptyString => None
  | String c s' =>
      if Ascii.eqb c "034" then Some (EmptyString, s')
      else if Ascii.eqb c "\" then
        match s' with
        | String e r =>
            let plain (ch : ascii) (rest : string) :=
              match parseChars rest with
              | Some (t, rest') => Some (String ch t, rest')
              | None => None
              end in
            if Ascii.eqb e "034" then plain "034"%char r
            else if Ascii.eqb e "\" then plain "\"%char r
            else if Ascii.eqb e "/" then plain "/"%char r
            else if Ascii.eqb e "b" then plain "008"%char r
            else if Ascii.eqb e "f" then plain "012"%char r
            else if Ascii.eqb e "n" then plain "010"%char r
            else if Ascii.eqb e "r" then plain "013"%char r
            else if Ascii.eqb e "t" then plain "009"%char r
            else if Ascii.eqb e "u" then
              match r with
              | String h1 (String h2 (String h3 (String h4 r'))) =>
                  match hexValue h1, hexValue h2, hexValue h3, hexValue h4 with
                  | Some 0%nat, Some 0%nat, Some a, Some b =>
                      plain (ascii_of_nat (16 * a + b)) r'
                  | _, _, _, _ => None
                  end
              | _ => None
              end
            else None
        | EmptyString => None
        end
      else if (nat_of_ascii c <? 32)%nat then None
      else
        match parseChars s' with
        | Some (t, rest) => Some (String c t, rest)
        | None => None
        end
  end.

Fixpoint parseValue (fuel : nat) (s : string) : option (json * string) :=
  match fuel with
  | O => None
  | S fuel' =>
      match skipWs s with
      | String "n"%char _ =>
          option_map (fun r => (JNull, r)) (stripPrefix "null" (skipWs s))
      | String "t"%char _ =>
          option_map (fun r => (JBool true, r)) (stripPrefix "true" (skipWs s))
      | String "f"%char _ =>
          option_map (fun r => (JBool false, r)) (stripPrefix "false" (skipWs s))
      | String "034"%char r =>
          option_map (fun '(t, r') => (JString t, r')) (parseChars r)
      | String "["%char r =>
          match skipWs r with
          | String "]"%char r' => Some (JArray [], r')
          | _ => option_map (fun '(l, r') => (JArray l, r')) (parseElements fuel' r)
          end
      | String "{"%char r =>
          match skipWs r with
          | String "}"%char r' => Some (JObject [], r')
          | _ => option_map (fun '(l, r') => (JObject l, r')) (parseMembers fuel' r)
          end
      | _ => option_map (fun '(n, r) => (JNumber n, r)) (parseNumber (skipWs s))
      end
  end

(** [value (, value)* ]] *)
with parseElements (fuel : nat) (s : string) : option (list json * string) :=
  match fuel with
  | O => None
  | S fuel' =>
      match parseValue fuel' s with
      | Some (v, r) =>
          match skipWs r with
          | String "]"%char r' => Some ([v], r')
          | String ","%char r' =>
              option_map (fun '(l, r'') => (v :: l, r'')) (parseElements fuel' r')
          | _ => None
          end
      | None => None
      end
  end

(** [string : value (, string : value)* }] *)
with parseMembers (fuel : nat) (s : string) : option (list (string * json) * string) :=
  match fuel with
  | O => None
  | S fuel' =>
      match skipWs s with
      | String "034"%char r =>
          match parseChars r with
          | Some (k, r1) =>
              match skipWs r1 with
              | String ":"%char r2 =>
                  match parseValue fuel' r2 with
                  | Some (v, r3) =>
                      match skipWs r3 with
                      | String "}"%char r' => Some ([(k, v)], r')
                      | String ","%char r' =>
                          option_map (fun '(l, r'') => ((k, v) :: l, r''))
                                     (parseMembers fuel' r')
                      | _ => None
                      end
                  | None => None
                  end
              | _ => None
              end
          | None => None
          end
      | _ => None
      end
  end.

(** The whole text must be one value between optional white space. The
    wording of the SyntaxError belongs to the engine; the reference
    parser uses one fixed message. *)
Definition parse (text : string) : json + string :=
  match parseValue (2 * String.length text + 2) text with
  | Some (v, rest) =>
      match skipWs rest with
      | EmptyString => inl v
      | _ => inr "Unexpected token in JSON"
      end
  | None => inr "Unexpected token in JSON"
  end.

End Json.

(** ** The data model and the platform *)

Import Json.

(** A [Date], as its UTC calendar fields. *)
Record DateTime : Type := mkDateTime {
  year : Z; month : Z; day : Z;
  hours : Z; minutes : Z; seconds : Z; milliseconds : Z
}.

(** The fields of a document of the [reflections] collection
    ([doc.data()]). [None] is a field that is absent. The six analysis
    fields hold whatever the model's JSON held under that key. *)
Record ReflectionData : Type := mkReflectionData {
  userId : option string;
  date : option string;
  transcript : option json;
  primaryEmotion : option json;
  secondaryEmotion : option json;
  theme : option json;
  emotionalIntensity : option json;
  dailyInsight : option json;
  createdAt : option DateTime
}.

(** [{ id: doc.id, ...doc.data() }] *)
Record Reflection : Type := mkReflection {
  id : string;
  fields : ReflectionData
}.

(** What the code takes from the JavaScript engine: [JSON.parse], which
    gives a value or the message of its SyntaxError. *)
Class Platform : Type := {
  JSON_parse : string -> json + string
}.

(** The engine with the reference parser. *)
Definition referencePlatform : Platform := {| JSON_parse := Json.parse |}.

(** ** The model service ([model.generateContent]) *)

Module Model.

(** A prompt is identified by its template and by the values the
    template literal interpolates; the fixed wording of the templates is
    not reproduced. The weekly templates interpolate
    [JSON.stringify(summary, null, 2)]: the prompt holds [summary]. *)
Inductive Prompt : Type :=
| AudioPrompt
| TextPrompt (textInput : string)
| WeeklyPrompt (count : nat) (summary : json)
| TextOnlyPrompt (textInput : string)
| TextOnlyWeeklyPrompt (summary : json).

(** A part of a request; the audio bytes travel base64-encoded. *)
Inductive Part : Type :=
| InlineData (mimeType : string) (audio : string)
| Text (prompt : Prompt).

Definition Request : Type := list Part.

(** A resolved call: [result.response.text()] returns the text or
    throws. *)
Inductive Reply : Type :=
| ReplyText (text : string)
| ReplyNoText (e : Thrown).

(** The service: what its n-th call (from 0) does, and the requests it
    has received. *)
Record Transport : Type := mkTransport {
  behaviour : nat -> Outcome Reply;
  requests : list Request
}.

Definition generateContent (request : Request) : Task Transport Reply :=
  fun t =>
    (behaviour t (length (requests t)),
     mkTransport (behaviour t) (requests t ++ [request])).

(** What the next call of the service will do. *)
Definition nextReply (w : Retrier.World Transport) : Outcome Reply :=
  behaviour (Retrier.inner w) (length (requests (Retrier.inner w))).

(** The world once [request] has been sent. *)
Definition sent (request : Request) (w : Retrier.World Transport)
  : Retrier.World Transport :=
  Retrier.setInner
    (mkTransport (behaviour (Retrier.inner w))
                 (requests (Retrier.inner w) ++ [request])) w.

(** A service that rejects every call it will receive with a rate-limit
    signal. *)
Definition serviceBusy (t : Transport) : Prop :=
  forall n, exists m,
    behaviour t (length (requests t) + n) = Threw (ThrowError m)
    /\ Retrier.isRateLimited m = true.

Definition responseText {W} (result : Reply) : Task W string :=
  match result with
  | ReplyText text => ret text
  | ReplyNoText e => throw e
  end.

(** The object an analysis function resolves to:
    [{ success, data?, error?, isRateLimited? }]. *)
Record AnalysisResult : Type := mkResult {
  success : bool;
  data : option json;
  error : option string;
  isRateLimited : bool
}.

Definition succeeded (analysis : json) : AnalysisResult :=
  mkResult true (Some analysis) None false.

Definition failed (message : option string) : AnalysisResult :=
  mkResult false None message false.

(** The members [JSON.stringify] writes: those that are defined. *)
Fixpoint defined (l : list (string * option json)) : list (string * json) :=
  match l with
  | [] => []
  | (k, Some v) :: rest => (k, v) :: defined rest
  | (_, None) :: rest => defined rest
  end.

(** [JSON.parse(text)] *)
Definition jsonParse {engine : Platform} {W} (text : string) : Task W json :=
  match JSON_parse text with
  | inl v => ret v
  | inr message => throw (ThrowError (Some message))
  end.

End Model.

(** ** The response extractor: the fence patterns *)

Module Fence.
Import JsString.

Definition fence : string := "```".

(** The line feed that separates the fence markers from the document. *)
Definition newline : string := String "010"%char EmptyString.


(** [[\s\S]*?```]: the shortest run of characters followed by a fence. *)
Fixpoint lazyUntilFence (s : string) : option string :=
  if startsWith fence s then Some EmptyString
  else match s with
       | EmptyString => None
       | String c s' => option_map (String c) (lazyUntilFence s')
       end.

(** [\s*([\s\S]*?)```]: white space taken greedily, given back one
    character at a time when the rest does not match. *)
Fixpoint spacesThenCapture (s : string) : option string :=
  match s with
  | String c s' =>
      if isWhiteSpace c then
        match spacesThenCapture s' with
        | Some capture => Some capture
        | None => lazyUntilFence s
        end
      else lazyUntilFence s
  | EmptyString => lazyUntilFence s
  end.

(** The pattern anchored at the start of [s]: the opening fence, then
    [(?:json)?], which first tries [json] and then the empty string. *)
Definition matchHere (afterTag : string -> option string) (s : string) : option string :=
  match stripPrefix fence s with
  | None => None
  | Some r =>
      match match stripPrefix "json" r with
            | Some r' => afterTag r'
            | None => None
            end with
      | Some capture => Some capture
      | None => afterTag r
      end
  end.

(** [text.match(pattern)]: the leftmost position where the pattern
    matches; the result is capture group 1. *)
Fixpoint search (afterTag : string -> option string) (s : string) : option string :=
  match matchHere afterTag s with
  | Some capture => Some capture
  | None =>
      match s with
      | EmptyString => None
      | String _ s' => search afterTag s'
      end
  end.

(** [/```(?:json)?\s*([\s\S]*?)```/], the gateway with retry *)
Definition matchSpaced : string -> option string := search spacesThenCapture.

(** [/```(?:json)?([\s\S]*?)```/], [callGemini] *)
Definition matchPlain : string -> option string := search lazyUntilFence.

(** [let jsonStr = text; if (match) jsonStr = match[1];] *)
Definition unfenced (pattern : string -> option string) (text : string) : string :=
  match pattern text with
  | Some capture => capture
  | None => text
  end.

End Fence.

(** ** The gateway with retry (gemini.js, first variant) *)

Module GeminiAudio.
Import JsString Retrier Model Fence.

Definition World : Type := Retrier.World Transport.

Definition busyMessage : string :=
  "The AI service is temporarily busy. Please wait a moment and try again.".

(** [error.message?.includes('429') ||
    error.message?.includes('RESOURCE_EXHAUSTED')], the test of the
    [catch] clauses. *)
Definition quotaSignal (message : option string) : bool :=
  match message with
  | Some m => includes "429" m || includes "RESOURCE_EXHAUSTED" m
  | None => false
  end.

Definition rateLimitedResult : AnalysisResult :=
  mkResult false None (Some busyMessage) true.

(** The [catch (error)] clause shared by the three functions. *)
Definition onError (label : string) (error : Thrown) : Task World AnalysisResult :=
  fun w =>
    match error with
    | ThrowUndefined =>
        (Threw typeErrorNoMessage, consoleWrite (LogLine label None) w)
    | ThrowError message =>
        let w' := consoleWrite (LogLine label message) w in
        if quotaSignal message then (Returned rateLimitedResult, w')
        else (Returned (failed message), w')
    end.

Section WithPlatform.
Context {engine : Platform}.

(** The [try] block shared by the three functions: the call under
    [retryWithBackoff] with its default arguments, then the
    extraction. *)
Definition attempt (request : Request) : Task World AnalysisResult :=
  let* result := retryWithBackoff (generateContent request) 3 2000 in
  let* text := responseText result in
  let jsonStr := unfenced matchSpaced text in
  let* analysis := jsonParse (trim jsonStr) in
  ret (succeeded analysis).

Definition analyzeAudioReflection (audioBuffer mimeType : string)
  : Task World AnalysisResult :=
  tryCatch (attempt [InlineData mimeType audioBuffer; Text AudioPrompt])
           (onError "Gemini analysis error:").

Definition analyzeTextReflection (textInput : string) : Task World AnalysisResult :=
  tryCatch (attempt [Text (TextPrompt textInput)])
           (onError "Text analysis error:").

(** [r.transcript?.substring(0, 200)] *)
Definition excerpt (t : option json) : Outcome (option json) :=
  match t with
  | None | Some JNull => Returned None
  | Some (JString s) => Returned (Some (JString (take 200 s)))
  | Some _ => Threw (ThrowError (Some "r.transcript?.substring is not a function"))
  end.

Definition summarize (r : Reflection) : Outcome json :=
  match excerpt (transcript (fields r)) with
  | Threw e => Threw e
  | Returned t =>
      Returned (JObject (defined
        [("date", option_map JString (date (fields r)));
         ("primaryEmotion", primaryEmotion (fields r));
         ("secondaryEmotion", secondaryEmotion (fields r));
         ("theme", theme (fields r));
         ("intensity", emotionalIntensity (fields r));
         ("transcript", t)]))
  end.

(** [reflections.map(summarize)] *)
Fixpoint summarizeAll (reflections : list Reflection) : Outcome (list json) :=
  match reflections with
  | [] => Returned []
  | r :: rest =>
      match summarize r with
      | Threw e => Threw e
      | Returned j =>
          match summarizeAll rest with
          | Threw e => Threw e
          | Returned js => Returned (j :: js)
          end
      end
  end.

(** [reflections] is [None] when the argument is [null] or
    [undefined]. *)
Definition analyzeWeeklyPatterns (reflections : option (list Reflection))
  : Task World AnalysisResult :=
  match reflections with
  | None | Some [] => ret (failed (Some "No reflections to analyze"))
  | Some rs =>
      let* reflectionsSummary := ofOutcome (summarizeAll rs) in
      let prompt := WeeklyPrompt (length rs) (JArray reflectionsSummary) in
      tryCatch (attempt [Text prompt]) (onError "Weekly analysis error:")
  end.
End WithPlatform.

End GeminiAudio.

(** ** The text-only gateway (gemini.js, second variant) *)

Module GeminiText.
Import JsString Retrier Model Fence.

Definition World : Type := Retrier.World Transport.

(** [model.generateContent] acts on the service only. *)
Definition callModel (request : Request) : Task World Reply :=
  fun w =>
    let (result, t) := generateContent request (inner w) in
    (result, setInner t w).

Section WithPlatform.
Context {engine : Platform}.

Definition callGemini (prompt : Prompt) : Task World json :=
  let* result := callModel [Text prompt] in
  let* text := responseText result in
  fun w =>
    let w1 := consoleWrite (LogLine "RAW GEMINI RESPONSE:" (Some text)) w in
    let jsonStr := unfenced matchPlain text in
    tryCatch (jsonParse (trim jsonStr))
      (fun err w2 =>
         (Threw (ThrowError (Some "Invalid AI response format")),
          consoleWrite (LogLine "JSON PARSE ERROR:" (Some jsonStr)) w2))
      w1.

(** [catch (error)]: logs [error.message] and returns the failure. *)
Definition onError (label : string) (error : Thrown) : Task World AnalysisResult :=
  fun w =>
    match error with
    | ThrowUndefined => (Threw typeErrorNoMessage, w)
    | ThrowError message =>
        (Returned (failed message), consoleWrite (LogLine label message) w)
    end.

Definition analyzeTextReflection (textInput : string) : Task World AnalysisResult :=
  tryCatch
    (let* data := callGemini (TextOnlyPrompt textInput) in ret (succeeded data))
    (onError "TEXT ANALYSIS ERROR:").

Definition summarize (r : Reflection) : json :=
  JObject (defined
    [("date", option_map JString (date (fields r)));
     ("primaryEmotion", primaryEmotion (fields r));
     ("secondaryEmotion", secondaryEmotion (fields r));
     ("theme", theme (fields r));
     ("emotionalIntensity", emotionalIntensity (fields r))]).

Definition analyzeWeeklyPatterns (reflections : option (list Reflection))
  : Task World AnalysisResult :=
  match reflections with
  | None => ret (failed (Some "Not enough reflections for weekly analysis"))
  | Some rs =>
      if (length rs <? 3)%nat then
        ret (failed (Some "Not enough reflections for weekly analysis"))
      else
        let summary := map summarize rs in
        tryCatch
          (let* data := callGemini (TextOnlyWeeklyPrompt (JArray summary)) in
           ret (succeeded data))
          (onError "WEEKLY ANALYSIS ERROR:")
  end.
End WithPlatform.

End GeminiText.

(** ** Dates ([new Date().toISOString().split('T')[0]]) *)

Module IsoDate.
Import JsString.

Definition digit (n : Z) : ascii := ascii_of_nat (48 + Z.to_nat (n mod 10)).

(** [n] in decimal, on exactly [width] digits. *)
Fixpoint pad (width : nat) (n : Z) : string :=
  match width with
  | O => EmptyString
  | S w => pad w (n / 10) +:+ String (digit n) EmptyString
  end.

(** Four digits for the years 0 to 9999, a sign and six digits
    otherwise. *)
Definition yearString (y : Z) : string :=
  if (0 <=? y) && (y <=? 9999) then pad 4 y
  else (if y <? 0 then "-" else "+") +:+ pad 6 (Z.abs y).

Definition toISOString (d : DateTime) : string :=
  yearString (year d) +:+ "-" +:+ pad 2 (month d) +:+ "-" +:+ pad 2 (day d)
  +:+ "T" +:+ pad 2 (hours d) +:+ ":" +:+ pad 2 (minutes d) +:+ ":"
  +:+ pad 2 (seconds d) +:+ "." +:+ pad 3 (milliseconds d) +:+ "Z".

(** [d.toISOString().split('T')[0]] *)
Definition isoDay (d : DateTime) : string :=
  hd EmptyString (split "T" (toISOString d)).

(** [c] does not occur in [s]. *)
Fixpoint lacks (c : ascii) (s : string) : bool :=
  match s with
  | EmptyString => true
  | String x s' => negb (Ascii.eqb x c) && lacks c s'
  end.

(** The calendar date written [YYYY-MM-DD]. *)
Definition calendarDate (d : DateTime) : string :=
  pad 4 (year d) +:+ "-" +:+ pad 2 (month d) +:+ "-" +:+ pad 2 (day d).

End IsoDate.

(** ** The server: the model service, the store and the clock *)

Module Server.
Import Retrier Model.

(** The [reflections] collection is a map from document ids to fields.
    [dbFault n] is the message of the error with which the n-th store
    operation rejects, if it does (an outage, a document the store
    refuses); [autoId n] is the n-th identifier the store generates;
    [clock n] is what the n-th [new Date()] reads. *)
Record State : Type := mkState {
  ai : Retrier.World Transport;
  store : gmap string ReflectionData;
  dbFault : nat -> option string;
  dbOps : nat;
  autoId : nat -> string;
  idsDrawn : nat;
  clock : nat -> DateTime;
  ticks : nat
}.

Definition setAi (a : Retrier.World Transport) (st : State) : State :=
  mkState a (store st) (dbFault st) (dbOps st) (autoId st) (idsDrawn st)
          (clock st) (ticks st).

Definition setStore (m : gmap string ReflectionData) (st : State) : State :=
  mkState (ai st) m (dbFault st) (dbOps st) (autoId st) (idsDrawn st)
          (clock st) (ticks st).

(** A call of one of the analysis functions. *)
Definition liftAi {A} (m : Task (Retrier.World Transport) A) : Task State A :=
  fun st => let (r, a) := m (ai st) in (r, setAi a st).

(** [console.log] and [console.error] of the handlers. *)
Definition consoleEntry (entry : LogEntry) : Task State unit :=
  fun st => (Returned tt, setAi (consoleWrite entry (ai st)) st).

Definition consoleError (label : string) (payload : option string) : Task State unit :=
  consoleEntry (LogLine label payload).

(** [new Date()] *)
Definition newDate : Task State DateTime :=
  fun st =>
    (Returned (clock st (ticks st)),
     mkState (ai st) (store st) (dbFault st) (dbOps st) (autoId st)
             (idsDrawn st) (clock st) (S (ticks st))).

(** Every store operation starts here: it is counted, and it rejects
    when the store is at fault. *)
Definition dbOperation : Task State unit :=
  fun st =>
    let st' := mkState (ai st) (store st) (dbFault st) (S (dbOps st))
                       (autoId st) (idsDrawn st) (clock st) (ticks st) in
    match dbFault st (dbOps st) with
    | Some message => (Threw (ThrowError (Some message)), st')
    | None => (Returned tt, st')
    end.

(** [db.collection('reflections').doc(id).get()]; [None] when
    [doc.exists] is false. *)
Definition docGet (id : string) : Task State (option ReflectionData) :=
  let* _ := dbOperation in
  fun st => (Returned (store st !! id), st).

(** [db.collection('reflections').doc(id).delete()] *)
Definition docDelete (id : string) : Task State unit :=
  let* _ := dbOperation in
  fun st => (Returned tt, setStore (delete id (store st)) st).

(** [db.collection('reflections').add(data)]: creates the document
    under a generated id, and rejects when that id is taken. *)
Definition collectionAdd (data : ReflectionData) : Task State string :=
  let* _ := dbOperation in
  fun st =>
    let newId := autoId st (idsDrawn st) in
    let st' := mkState (ai st) (store st) (dbFault st) (dbOps st) (autoId st)
                       (S (idsDrawn st)) (clock st) (ticks st) in
    match store st !! newId with
    | Some _ => (Threw (ThrowError (Some "ALREADY_EXISTS: Document already exists")), st')
    | None => (Returned newId, setStore (<[newId := data]> (store st)) st')
    end.

(** The JSON bodies the routes send. *)
Inductive Body : Type :=
| ErrorJson (error : string) (details : option string)
| FailureJson (error : option string)
| CreatedJson (id : string) (data : ReflectionData)
| DeletedJson.

Record Response : Type := mkResponse {
  status : Z;
  body : Body
}.

(** [res.status(code).json(body)]; [res.json(body)] answers 200. *)
Definition respond (code : Z) (b : Body) : Task State Response :=
  ret (mkResponse code b).

(** A body field that is present and not the empty string. *)
Definition truthy (field : option string) : option string :=
  match field with
  | Some EmptyString => None
  | other => other
  end.

(** [analysis.data.key] *)
Definition dataField (analysis : AnalysisResult) (key : string) : Task State (option json) :=
  match data analysis with
  | Some d => ofOutcome (getProp d key)
  | None =>
      throw (ThrowError (Some ("Cannot read properties of undefined (reading '"
                               +:+ key +:+ "')")))
  end.

(** The object literal [reflectionData] of both [/analyze-daily]
    handlers. *)
Definition reflectionData (userId dateStr : string) (analysis : AnalysisResult)
  : Task State ReflectionData :=
  let* transcript := dataField analysis "transcript" in
  let* primaryEmotion := dataField analysis "primaryEmotion" in
  let* secondaryEmotion := dataField analysis "secondaryEmotion" in
  let* theme := dataField analysis "theme" in
  let* emotionalIntensity := dataField analysis "emotionalIntensity" in
  let* dailyInsight := dataField analysis "dailyInsight" in
  let* now := newDate in
  ret (mkReflectionData (Some userId) (Some dateStr) transcript primaryEmotion
         secondaryEmotion theme emotionalIntensity dailyInsight (Some now)).

(** The date a handler stores: the one of the request, or the day the
    clock shows. *)
Definition effectiveDate (date : option string) (st : State) : string :=
  match truthy date with
  | Some d => d
  | None => IsoDate.isoDay (clock st (ticks st))
  end.

(** [date || new Date().toISOString().split('T')[0]] *)
Definition dateOrToday (date : option string) : Task State string :=
  match truthy date with
  | Some d => ret d
  | None => let* now := newDate in ret (IsoDate.isoDay now)
  end.

(** From [if (!analysis.success)] to the end of the [try] block of both
    [/analyze-daily] handlers; [failure] is the body of the 500 answer. *)
Definition saveAnalysis (failure : AnalysisResult -> Body) (userId dateStr : string)
    (analysis : AnalysisResult) : Task State Response :=
  if negb (success analysis) then respond 500 (failure analysis)
  else
    let* reflection := reflectionData userId dateStr analysis in
    let* docId := collectionAdd reflection in
    respond 200 (CreatedJson docId reflection).

(** A task that leaves the [reflections] collection as it found it. *)
Definition keepsStore {A} (m : Task State A) : Prop :=
  forall st, store (snd (m st)) = store st.

(** A request to [/analyze-daily]: the body fields and [req.file]. *)
Record UploadedFile : Type := mkFile {
  buffer : string;
  mimetype : string
}.

Record DailyRequest : Type := mkDailyRequest {
  reqUserId : option string;
  reqDate : option string;
  reqTextInput : option string;
  reqFile : option UploadedFile
}.

End Server.

(** ** The routes of the audio-capable backend (routes/analysis.js, first variant) *)

Module RoutesAudio.
Import Model Server.

Section WithPlatform.
Context {engine : Platform}.

(** The analysis the [if (req.file) ... else if (textInput) ...] chain
    awaits; [None] when it reaches the final [else]. *)
Definition inputAnalysis (req : DailyRequest) : option (Task State AnalysisResult) :=
  match reqFile req with
  | Some file =>
      Some (liftAi (GeminiAudio.analyzeAudioReflection (buffer file) (mimetype file)))
  | None =>
      match truthy (reqTextInput req) with
      | Some textInput => Some (liftAi (GeminiAudio.analyzeTextReflection textInput))
      | None => None
      end
  end.

(** [catch (error)] of a handler: [details] is [error.message]. *)
Definition onRouteError (label failure : string) (error : Thrown) : Task State Response :=
  match error with
  | ThrowUndefined =>
      let* _ := consoleError label None in throw typeErrorNoMessage
  | ThrowError message =>
      let* _ := consoleError label message in
      respond 500 (ErrorJson failure message)
  end.

(** [POST /api/analyze-daily] *)
Definition analyzeDaily (req : DailyRequest) : Task State Response :=
  tryCatch
    (match truthy (reqUserId req) with
     | None => respond 400 (ErrorJson "User ID is required" None)
     | Some userId =>
         let* dateStr := dateOrToday (reqDate req) in
         match inputAnalysis req with
         | Some run =>
             let* analysis := run in
             saveAnalysis (fun a => ErrorJson "Analysis failed" (error a))
                          userId dateStr analysis
         | None => respond 400 (ErrorJson "Audio file or text input required" None)
         end
     end)
    (onRouteError "Analysis error:" "Failed to analyze reflection").

(** [DELETE /api/reflection/:id]; [requester] is [userId] of the body.
    [doc.data().userId !== userId] compares two strings, or finds both
    absent. *)
Definition deleteReflection (id : string) (requester : option string)
  : Task State Response :=
  tryCatch
    (let* doc := docGet id in
     match doc with
     | None => respond 404 (ErrorJson "Reflection not found" None)
     | Some fields =>
         if negb (bool_decide (userId fields = requester)) then
           respond 403 (ErrorJson "Unauthorized" None)
         else
           let* _ := docDelete id in
           respond 200 DeletedJson
     end)
    (onRouteError "Delete error:" "Failed to delete reflection").
End WithPlatform.

End RoutesAudio.

(** ** The routes of the text-only backend (routes/analysis.js, second variant) *)

Module RoutesText.
Import Model Server.

Section WithPlatform.
Context {engine : Platform}.

(** [console.log("REQ BODY:", req.body)] *)
Definition logBody (req : DailyRequest) : Task State unit :=
  consoleEntry (LogBody "REQ BODY:" (reqUserId req) (reqDate req) (reqTextInput req)).

(** The state once the body has been logged. *)
Definition received (req : DailyRequest) (st : State) : State :=
  snd (logBody req st).

(** [POST /api/analyze-daily]; the [catch] clause does not read the
    error. *)
Definition analyzeDaily (req : DailyRequest) : Task State Response :=
  tryCatch
    (let* _ := logBody req in
     match truthy (reqUserId req), truthy (reqTextInput req) with
     | Some userId, Some textInput =>
         let* dateStr := dateOrToday (reqDate req) in
         let* analysis := liftAi (GeminiText.analyzeTextReflection textInput) in
         saveAnalysis (fun a => FailureJson (error a)) userId dateStr analysis
     | _, _ => respond 400 (FailureJson (Some "userId and textInput are required"))
     end)
    (fun error =>
       let* _ := consoleError "DAILY ANALYSIS ROUTE ERROR:"
                   match error with ThrowError m => m | ThrowUndefined => None end in
       respond 500 (FailureJson (Some "Failed to analyze reflection"))).
End WithPlatform.

End RoutesText.

(** ** Ahead of the handler: the upload and the error middleware
    (routes/analysis.js, server.js) *)

Module Pipeline.
Import Model Server.

(** What the middleware ahead of the handler makes of a request to
    [/analyze-daily]: [express.json()], then [upload.single('audio')]
    with its [fileSize] limit of 10 MB. Either the handler runs, on the
    body and the file it reads, or an error was passed to [next]: [code]
    is [err.code] and [message] is [err.message]. Multer refuses a file
    above its limit with the code [LIMIT_FILE_SIZE]. *)
Inductive Parsed : Type :=
| Accepted (req : DailyRequest)
| Refused (code message : option string).

(** The error-handling middleware of server.js; [nodeEnv] is
    [process.env.NODE_ENV]. *)
Definition errorMiddleware (nodeEnv code message : option string)
  : Task State Response :=
  let* _ := consoleError "Unhandled error:" message in
  if bool_decide (code = Some "LIMIT_FILE_SIZE") then
    respond 400 (ErrorJson "File too large" (Some "Maximum file size is 10MB"))
  else
    respond 500
      (ErrorJson "Internal server error"
         (if bool_decide (nodeEnv = Some "development") then message else None)).

(** A task that leaves the model's world as it found it. *)
Definition keepsAi {A} (m : Task State A) : Prop :=
  forall st, ai (snd (m st)) = ai st.

Section WithPlatform.
Context {engine : Platform}.

(** [POST /api/analyze-daily] of the audio-capable backend, from the
    middleware on. *)
Definition postAnalyzeDaily (nodeEnv : option string) (p : Parsed)
  : Task State Response :=
  match p with
  | Accepted req => RoutesAudio.analyzeDaily req
  | Refused code message => errorMiddleware nodeEnv code message
  end.
End WithPlatform.

End Pipeline.

(** ** Scenarios

    Concrete operations, services and requests on which the definitions
    are run. *)

Module Scenario.
Import Retrier Model Server.

(** An operation that counts its calls and always meets the quota. *)
Definition alwaysBusy : nat -> Outcome string * nat :=
  fun calls => (Threw (ThrowError (Some "[429 Too Many Requests] quota")), S calls).

(** An operation that meets the quota twice, then answers. *)
Definition busyTwice : nat -> Outcome string * nat :=
  fun calls =>
    if (calls <? 2)%nat
    then (Threw (ThrowError (Some "RESOURCE_EXHAUSTED")), S calls)
    else (Returned "ok", S calls).

(** An operation that always meets the quota and numbers its errors
    by the call that raised them. *)
Definition busyNumbered : nat -> Outcome string * nat :=
  fun calls =>
    (Threw (ThrowError (Some ("429 at call " +:+ IsoDate.pad 1 (Z.of_nat calls)))),
     S calls).

(** An operation whose request is refused as malformed. *)
Definition malformed : nat -> Outcome string * nat :=
  fun calls => (Threw (ThrowError (Some "400 Bad Request")), S calls).

Definition idle : Retrier.World nat := mkWorld 0%nat [] [].

(** A service that answers every call with the same text, one that
    rejects every call with the same message, and a world in which
    nothing has happened yet. *)
Definition replying (text : string) : Transport :=
  mkTransport (fun _ => Returned (ReplyText text)) [].

Definition rejecting (message : string) : Transport :=
  mkTransport (fun _ => Threw (ThrowError (Some message))) [].

Definition fresh (t : Transport) : Retrier.World Transport := mkWorld t [] [].

(** An engine that reports a failure of [JSON.parse] as V8 does an
    unexpected token at offset 429: its messages name the position. *)
Definition namingPosition : Platform :=
  {| JSON_parse := fun s =>
       match Json.parse s with
       | inl v => inl v
       | inr _ => inr "Unexpected token o in JSON at position 429"
       end |}.

(** The JSON document of a daily analysis, and the value it denotes. *)
Definition quoted (s : string) : string :=
  String "034"%char (s +:+ String "034"%char EmptyString).

Definition sampleJson : string :=
  "{" +:+ quoted "transcript" +:+ ": " +:+ quoted "I felt calm today" +:+ ", "
  +:+ quoted "primaryEmotion" +:+ ": " +:+ quoted "calm" +:+ ", "
  +:+ quoted "secondaryEmotion" +:+ ": null, "
  +:+ quoted "theme" +:+ ": " +:+ quoted "self" +:+ ", "
  +:+ quoted "emotionalIntensity" +:+ ": " +:+ quoted "low" +:+ ", "
  +:+ quoted "dailyInsight" +:+ ": " +:+ quoted "You noticed a quiet day." +:+ "}".

(** Stored reflections of one user. *)
Definition storedReflection (docId day : string) : Reflection :=
  mkReflection docId
    (mkReflectionData (Some "user-a") (Some day)
       (Some (JString "I felt calm today")) (Some (JString "calm")) (Some JNull)
       (Some (JString "self")) (Some (JString "low"))
       (Some (JString "You noticed a quiet day."))
       (Some (mkDateTime 2024 5 17 8 30 0 0))).

Definition twoReflections : list Reflection :=
  [storedReflection "r1" "2024-05-16"; storedReflection "r2" "2024-05-17"].

Definition threeReflections : list Reflection :=
  storedReflection "r0" "2024-05-15" :: twoReflections.


(** A server whose store never fails, with a fixed clock. *)
Definition clockAt : DateTime := mkDateTime 2024 5 17 21 4 9 250.

Definition server (t : Transport) (docs : gmap string ReflectionData) : State :=
  mkState (fresh t) docs (fun _ => None) 0%nat
          (fun n => "auto-" +:+ IsoDate.pad 3 (Z.of_nat n)) 0%nat
          (fun _ => clockAt) 0%nat.

Definition oneDocument : gmap string ReflectionData :=
  {[ "r1" := fields (storedReflection "r1" "2024-05-16") ]}.

(** Requests to [/analyze-daily]: text only, text and audio, no input,
    no user. *)
Definition textRequest : DailyRequest :=
  mkDailyRequest (Some "user-a") None (Some "I felt calm today") None.

Definition textAndAudioRequest : DailyRequest :=
  mkDailyRequest (Some "user-a") None (Some "I felt calm today")
                 (Some (mkFile "RIFF" "audio/webm")).

Definition emptyRequest : DailyRequest :=
  mkDailyRequest (Some "user-a") None None None.

Definition anonymousRequest : DailyRequest :=
  mkDailyRequest None None (Some "I felt calm today") None.

(** What multer passes on for a file above its limit. *)
Definition oversized : Pipeline.Parsed :=
  Pipeline.Refused (Some "LIMIT_FILE_SIZE") (Some "File too large").

(** The record the handlers store for [sampleAnalysis] at [clockAt]. *)
Definition savedRecord : ReflectionData :=
  mkReflectionData (Some "user-a") (Some "2024-05-17")
    (Some (JString "I felt calm today")) (Some (JString "calm")) (Some JNull)
    (Some (JString "self")) (Some (JString "low"))
    (Some (JString "You noticed a quiet day.")) (Some clockAt).

End Scenario.

(** ** Reading the collection (routes/analysis.js, first and second variant) *)

Module Query.
Import Server.

(** The instant of a [Date], for comparisons. *)
Definition instant (d : DateTime) : list Z :=
  [year d; month d; day d; hours d; minutes d; seconds d; milliseconds d].

Fixpoint compareLex (a b : list Z) : comparison :=
  match a, b with
  | [], [] => Eq
  | [], _ :: _ => Lt
  | _ :: _, [] => Gt
  | x :: a', y :: b' =>
      match x ?= y with
      | Eq => compareLex a' b'
      | c => c
      end
  end.

(** The documents of the collection, each with its id. *)
Definition documents (st : State) : list Reflection :=
  map (fun entry => mkReflection (fst entry) (snd entry)) (map_to_list (store st)).

(** [where('userId', '==', u)] and [where('date', '==', d)] *)
Definition ownedBy (u : string) (r : Reflection) : bool :=
  bool_decide (userId (fields r) = Some u).

Definition datedOn (d : string) (r : Reflection) : bool :=
  bool_decide (date (fields r) = Some d).

(** [orderBy('createdAt', ...)] leaves out the documents without the
    field. *)
Definition hasCreatedAt (r : Reflection) : bool :=
  match createdAt (fields r) with
  | Some _ => true
  | None => false
  end.

(** [a] is not after [b] in the default order, by document id. *)
Definition byId (a b : Reflection) : bool :=
  match String.compare (id a) (id b) with
  | Gt => false
  | _ => true
  end.

(** [a] is not after [b] in [orderBy('createdAt', 'desc')]: the later
    instant first, and for equal instants the greater id first. *)
Definition newestFirst (a b : Reflection) : bool :=
  match createdAt (fields a), createdAt (fields b) with
  | Some x, Some y =>
      match compareLex (instant x) (instant y) with
      | Gt => true
      | Lt => false
      | Eq => byId b a
      end
  | Some _, None => true
  | None, Some _ => false
  | None, None => byId b a
  end.

Fixpoint insertInOrder (before : Reflection -> Reflection -> bool)
    (r : Reflection) (l : list Reflection) : list Reflection :=
  match l with
  | [] => [r]
  | x :: rest =>
      if before r x then r :: x :: rest else x :: insertInOrder before r rest
  end.

Definition inOrder (before : Reflection -> Reflection -> bool)
    (l : list Reflection) : list Reflection :=
  fold_right (insertInOrder before) [] l.

(** The documents that [where('userId', '==', u).orderBy('createdAt', ...)]
    ranges over. *)
Definition datedOf (u : string) (st : State) : list Reflection :=
  List.filter (fun r => ownedBy u r && hasCreatedAt r) (documents st).

(** What [where('userId', '==', u).orderBy('createdAt', 'desc').limit(n)]
    selects. *)
Definition recentOf (u : string) (n : nat) (st : State) : list Reflection :=
  firstn n (inOrder newestFirst (datedOf u st)).

(** The documents that [where('userId', '==', u).where('date', '==', d)]
    ranges over. *)
Definition ofDay (u d : string) (st : State) : list Reflection :=
  List.filter (fun r => ownedBy u r && datedOn d r) (documents st).

(** What [where('userId', '==', u).where('date', '==', d).limit(1)]
    selects. *)
Definition onDate (u d : string) (st : State) : list Reflection :=
  firstn 1 (inOrder byId (ofDay u d st)).

(** [query.get()]: one store operation. *)
Definition getRecent (u : string) (n : nat) : Task State (list Reflection) :=
  let* _ := dbOperation in
  fun st => (Returned (recentOf u n st), st).

Definition getOnDate (u d : string) : Task State (list Reflection) :=
  let* _ := dbOperation in
  fun st => (Returned (onDate u d st), st).

(** The JSON bodies of the reading routes. *)
Inductive Body : Type :=
| ErrorJson (error : string) (details : option string)
| FailureJson (error : option string)
| FoundJson (reflection : Reflection)
| NotEnoughJson (message : option string) (reflectionCount : option nat)
| WeeklyJson (reflectionCount : nat) (data : option json)
             (reflections : option (list json)).

Record Response : Type := mkResponse {
  status : Z;
  body : Body
}.

Definition respond (code : Z) (b : Body) : Task State Response :=
  ret (mkResponse code b).

(** [String(n)] for a length. *)
Fixpoint decimalDigits (fuel : nat) (n : Z) : string :=
  match fuel with
  | O => EmptyString
  | S fuel' =>
      if n <? 10 then String (IsoDate.digit n) EmptyString
      else decimalDigits fuel' (n / 10) +:+ String (IsoDate.digit n) EmptyString
  end.

Definition decimal (n : nat) : string := decimalDigits (S n) (Z.of_nat n).

End Query.

Module ReadsAudio.
Import Model Server.

Section WithPlatform.
Context {engine : Platform}.

(** [catch (error)] of the reading handlers. *)
Definition onRouteError (label failure : string) (error : Thrown)
  : Task State Query.Response :=
  match error with
  | ThrowUndefined =>
      let* _ := consoleError label None in throw typeErrorNoMessage
  | ThrowError message =>
      let* _ := consoleError label message in
      Query.respond 500 (Query.ErrorJson failure message)
  end.

(** [GET /api/reflection/:userId/:date] *)
Definition getReflection (userId date : string) : Task State Query.Response :=
  tryCatch
    (let* docs := Query.getOnDate userId date in
     match docs with
     | [] => Query.respond 404 (Query.ErrorJson "Reflection not found" None)
     | doc :: _ => Query.respond 200 (Query.FoundJson doc)
     end)
    (onRouteError "Fetch error:" "Failed to fetch reflection").

(** An entry of [reflections] in the weekly answer. *)
Definition brief (r : Reflection) : json :=
  JObject (defined
    [("date", option_map JString (date (fields r)));
     ("primaryEmotion", primaryEmotion (fields r));
     ("emotionalIntensity", emotionalIntensity (fields r));
     ("theme", theme (fields r))]).

(** [POST /api/analyze-weekly]; [requester] is [userId] of the body. *)
Definition analyzeWeekly (requester : option string) : Task State Query.Response :=
  tryCatch
    (match truthy requester with
     | None => Query.respond 400 (Query.ErrorJson "User ID is required" None)
     | Some userId =>
         let* reflections := Query.getRecent userId 7 in
         match reflections with
         | [] =>
             Query.respond 200
               (Query.NotEnoughJson (Some "Not enough reflections for weekly analysis")
                                    None)
         | _ :: _ =>
             if (length reflections <? 3)%nat then
               Query.respond 200
                 (Query.NotEnoughJson
                    (Some ("Need at least 3 reflections for analysis. Currently have "
                           +:+ Query.decimal (length reflections) +:+ "."))
                    (Some (length reflections)))
             else
               let* analysis :=
                 liftAi (GeminiAudio.analyzeWeeklyPatterns (Some reflections)) in
               if negb (success analysis) then
                 Query.respond 500
                   (Query.ErrorJson "Weekly analysis failed" (error analysis))
               else
                 Query.respond 200
                   (Query.WeeklyJson (length reflections) (data analysis)
                                     (Some (map brief reflections)))
         end
     end)
    (onRouteError "Weekly analysis error:" "Failed to analyze weekly patterns").
End WithPlatform.

End ReadsAudio.

Module ReadsText.
Import Model Server.

Section WithPlatform.
Context {engine : Platform}.

(** [POST /api/analyze-weekly] of the text-only backend. *)
Definition analyzeWeekly (requester : option string) : Task State Query.Response :=
  tryCatch
    (match truthy requester with
     | None => Query.respond 400 (Query.FailureJson (Some "User ID is required"))
     | Some userId =>
         let* reflections := Query.getRecent userId 7 in
         match reflections with
         | [] =>
             Query.respond 200
               (Query.NotEnoughJson (Some "Not enough reflections") None)
         | _ :: _ =>
             if (length reflections <? 3)%nat then
               Query.respond 200
                 (Query.NotEnoughJson None (Some (length reflections)))
             else
               let* analysis :=
                 liftAi (GeminiText.analyzeWeeklyPatterns (Some reflections)) in
               if negb (success analysis) then
                 Query.respond 500 (Query.FailureJson (error analysis))
               else
                 Query.respond 200
                   (Query.WeeklyJson (length reflections) (data analysis) None)
         end
     end)
    (fun error =>
       let* _ := consoleError "WEEKLY ANALYSIS ROUTE ERROR:"
                   match error with ThrowError m => m | ThrowUndefined => None end in
       Query.respond 500 (Query.FailureJson (Some "Weekly analysis failed"))).
End WithPlatform.

End ReadsText.

(** ** The allowed origins (server.js) *)

Module Cors.
Import JsString.

(** [\d+$]: one digit or more, up to the end. *)
Fixpoint digitsToEnd (s : string) : bool :=
  match s with
  | EmptyString => false
  | String c EmptyString => Json.isDigit c
  | String c rest => Json.isDigit c && digitsToEnd rest
  end.

(** [origin.match(/^http:\/\/localhost:\d+$/)] *)
Definition isLocalhost (origin : string) : bool :=
  match stripPrefix "http://localhost:" origin with
  | Some port => digitsToEnd port
  | None => false
  end.

(** The [origin] function of [corsOptions]; [frontendUrl] is
    [process.env.FRONTEND_URL]. [Returned tt] is [callback(null, true)],
    [Threw] is [callback(new Error(...))]. *)
Definition checkOrigin (frontendUrl origin : option string) : Outcome unit :=
  match origin with
  | None | Some EmptyString => Returned tt
  | Some o =>
      if isLocalhost o then Returned tt
      else if bool_decide (Some o = frontendUrl) then Returned tt
      else Threw (ThrowError (Some "Not allowed by CORS"))
  end.

End Cors.

(** ** More scenarios *)

Module Library.
Import Retrier Model Server.

(** A reflection of [user], created on the given day of May 2024. *)
Definition entry (user : string) (dayOfMay : Z) : ReflectionData :=
  mkReflectionData (Some user) (Some ("2024-05-" +:+ IsoDate.pad 2 dayOfMay))
    (Some (JString "I felt calm today")) (Some (JString "calm")) (Some JNull)
    (Some (JString "self")) (Some (JString "low"))
    (Some (JString "You noticed a quiet day."))
    (Some (mkDateTime 2024 5 dayOfMay 20 0 0 0)).

(** Two reflections of one user, and four of another. *)
Definition shelf : gmap string ReflectionData :=
  <["a1" := entry "user-a" 10]>
  (<["a2" := entry "user-a" 12]>
  (<["b1" := entry "user-b" 11]>
  (<["b2" := entry "user-b" 14]>
  (<["b3" := entry "user-b" 13]>
  (<["b4" := entry "user-b" 9]> ∅))))).

End Library.

(** ** The record of a daily analysis *)

Module Saved.

(** The object literal [reflectionData] when [analysis.data] is an
    object with the given members: each analysis field is the member of
    that name, absent when the object has none. *)
Definition recordOf (u dateStr : string) (members : list (string * json))
    (now : DateTime) : ReflectionData :=
  mkReflectionData (Some u) (Some dateStr)
    (member "transcript" members) (member "primaryEmotion" members)
    (member "secondaryEmotion" members) (member "theme" members)
    (member "emotionalIntensity" members) (member "dailyInsight" members)
    (Some now).

End Saved.

(** * Properties *)

(** ** The backoff retrier *)

Section RetrierFacts.
Import JsString Retrier.
Context {S T : Type}.
Variable fn : S -> Outcome T * S.

Lemma delaysFrom_succ initialDelay a k :
  delaysFrom initialDelay a (Datatypes.S k)
  = initialDelay * 2 ^ a :: delaysFrom initialDelay (a + 1) k.
Proof.
  unfold delaysFrom. simpl. rewrite Z.add_0_r. f_equal.
  rewrite <- seq_shift, map_map. apply map_ext. intros i.
  do 2 f_equal. lia.
Qed.

Lemma retryLogsFrom_succ initialDelay maxRetries a k :
  retryLogsFrom initialDelay maxRetries a (Datatypes.S k)
  = LogRetry (initialDelay * 2 ^ a) (a + 1) maxRetries
    :: retryLogsFrom initialDelay maxRetries (a + 1) k.
Proof.
  unfold retryLogsFrom. simpl. rewrite Z.add_0_r. f_equal.
  rewrite <- seq_shift, map_map. apply map_ext. intros i.
  replace (a + 1 + Z.of_nat i) with (a + Z.of_nat (Datatypes.S i)) by lia.
  reflexivity.
Qed.

Lemma delaysFrom_zero initialDelay k :
  delaysFrom initialDelay 0 k = backoffDelays initialDelay k.
Proof. reflexivity. Qed.

Lemma afterCalls_succ (n : nat) (s : S) :
  afterCalls fn (Datatypes.S n) s = afterCalls fn n (snd (fn s)).
Proof.
  unfold afterCalls. induction n as [|n IH]; [reflexivity|].
  rewrite Nat.iter_succ, IH. reflexivity.
Qed.

(** One iteration of the loop. *)
Lemma retryLoop_unfold maxRetries initialDelay fuel attempt lastError (w : World S) :
  retryLoop fn maxRetries initialDelay (Datatypes.S fuel) attempt lastError w
  = match fn (inner w) with
    | (Returned v, s') => (Returned v, setInner s' w)
    | (Threw ThrowUndefined, s') => (Threw typeErrorNoMessage, setInner s' w)
    | (Threw (ThrowError message), s') =>
        if isRateLimited message && (attempt <? maxRetries - 1) then
          retryLoop fn maxRetries initialDelay fuel (attempt + 1) (ThrowError message)
            (sleep (initialDelay * 2 ^ attempt)
               (consoleWrite
                  (LogRetry (initialDelay * 2 ^ attempt) (attempt + 1) maxRetries)
                  (setInner s' w)))
        else if negb (isRateLimited message) then
          (Threw (ThrowError message), setInner s' w)
        else
          retryLoop fn maxRetries initialDelay fuel (attempt + 1) (ThrowError message)
            (setInner s' w)
    end.
Proof. simpl. destruct (fn (inner w)) as [[v|[|message]] s']; reflexivity. Qed.

(** One iteration that ends on a rate-limit signal: the loop sleeps and
    goes on when another attempt is left, and goes on without sleeping
    otherwise. *)
Lemma retryLoop_rate_limited maxRetries initialDelay fuel attempt lastError
    (w : World S) m s' :
  fn (inner w) = (Threw (ThrowError m), s') ->
  isRateLimited m = true ->
  retryLoop fn maxRetries initialDelay (Datatypes.S fuel) attempt lastError w
  = if attempt <? maxRetries - 1 then
      retryLoop fn maxRetries initialDelay fuel (attempt + 1) (ThrowError m)
        (sleep (initialDelay * 2 ^ attempt)
           (consoleWrite (LogRetry (initialDelay * 2 ^ attempt) (attempt + 1) maxRetries)
              (setInner s' w)))
    else
      retryLoop fn maxRetries initialDelay fuel (attempt + 1) (ThrowError m)
        (setInner s' w).
Proof.
  intros Hcall Hrl. simpl. rewrite Hcall, Hrl. simpl.
  destruct (attempt <? maxRetries - 1); reflexivity.
Qed.

Lemma retryLoop_returned maxRetries initialDelay fuel attempt lastError
    (w : World S) v s' :
  fn (inner w) = (Returned v, s') ->
  retryLoop fn maxRetries initialDelay (Datatypes.S fuel) attempt lastError w
  = (Returned v, setInner s' w).
Proof. intros Hcall. simpl. now rewrite Hcall. Qed.

(** An operation that is rate-limited at every call: the loop runs all
    its iterations, sleeps (and logs) after each one but the last, and
    throws the error of the last call. *)
Lemma rateLimitedAtEveryCall_next (s s' : S) o :
  rateLimitedAtEveryCall fn s -> fn s = (o, s') -> rateLimitedAtEveryCall fn s'.
Proof.
  intros H Hcall n. specialize (H (Datatypes.S n)).
  rewrite afterCalls_succ, Hcall in H. exact H.
Qed.

Lemma retryLoop_exhausted maxRetries initialDelay :
  forall (k : nat) (attempt : Z) (lastError : Thrown) (w : World S),
    rateLimitedAtEveryCall fn (inner w) ->
    attempt + Z.of_nat (Datatypes.S k) = maxRetries ->
    let r := retryLoop fn maxRetries initialDelay (Datatypes.S k) attempt lastError w in
    (exists m, fst r = Threw (ThrowError m) /\ isRateLimited m = true)
    /\ slept (snd r) = slept w ++ delaysFrom initialDelay attempt k
    /\ console (snd r) = console w ++ retryLogsFrom initialDelay maxRetries attempt k
    /\ inner (snd r) = afterCalls fn (Datatypes.S k) (inner w).
Proof.
  induction k as [|k IH]; intros attempt lastError w Hfn Hsum r;
    subst r; destruct (Hfn 0%nat) as (m & s' & Hcall & Hrl);
    change (afterCalls fn 0 (inner w)) with (inner w) in Hcall;
    rewrite (retryLoop_rate_limited _ _ _ _ _ _ _ _ Hcall Hrl).
  - replace (attempt <? maxRetries - 1) with false
      by (symmetry; apply Z.ltb_ge; lia).
    simpl. split; [eauto|]. repeat split.
    + unfold delaysFrom. simpl. now rewrite app_nil_r.
    + now rewrite app_nil_r.
    + unfold afterCalls. simpl. now rewrite Hcall.
  - replace (attempt <? maxRetries - 1) with true
      by (symmetry; apply Z.ltb_lt; lia).
    match goal with
    | |- context [retryLoop _ _ _ _ ?a ?e ?w'] =>
        specialize (IH a e w');
        destruct IH as (Hres & Hslept & Hconsole & Hinner);
        [exact (rateLimitedAtEveryCall_next _ _ _ Hfn Hcall) | lia |]
    end.
    split; [exact Hres|]. repeat split.
    + rewrite Hslept. simpl. rewrite delaysFrom_succ.
      rewrite <- app_assoc. reflexivity.
    + rewrite Hconsole. simpl. rewrite retryLogsFrom_succ.
      rewrite <- app_assoc. reflexivity.
    + rewrite Hinner, (afterCalls_succ (Datatypes.S k) (inner w)), Hcall.
      reflexivity.
Qed.

(** A first failure that carries no rate-limit signal leaves the loop at
    once. *)
Lemma retryLoop_fail_fast maxRetries initialDelay k attempt lastError (w : World S) m s' :
  fn (inner w) = (Threw (ThrowError m), s') ->
  isRateLimited m = false ->
  retryLoop fn maxRetries initialDelay (Datatypes.S k) attempt lastError w
  = (Threw (ThrowError m), setInner s' w).
Proof.
  intros Hcall Hrl. simpl. rewrite Hcall, Hrl. reflexivity.
Qed.

End RetrierFacts.

(** ** The retrier on any operation *)

Section RetrierTrace.
Import JsString Retrier.
Context {S T : Type}.
Variable fn : S -> Outcome T * S.

Lemma afterCalls_last (n : nat) (s : S) :
  afterCalls fn (Datatypes.S n) s = snd (fn (afterCalls fn n s)).
Proof. reflexivity. Qed.

(** What the loop does from any attempt on: the number [n] of calls, the
    sleeps and the log lines between them, and the outcome, which is that
    of the last call. *)
Lemma retryLoop_trace maxRetries initialDelay :
  forall (k : nat) (attempt : Z) (lastError : Thrown) (w : World S),
    attempt + Z.of_nat (Datatypes.S k) = maxRetries ->
    let r := retryLoop fn maxRetries initialDelay (Datatypes.S k) attempt lastError w in
    exists n : nat,
      (n <= k)%nat
      /\ inner (snd r) = afterCalls fn (Datatypes.S n) (inner w)
      /\ slept (snd r) = slept w ++ delaysFrom initialDelay attempt n
      /\ console (snd r) = console w ++ retryLogsFrom initialDelay maxRetries attempt n
      /\ (forall i, (i < n)%nat ->
            exists m, fst (fn (afterCalls fn i (inner w))) = Threw (ThrowError m)
                      /\ isRateLimited m = true)
      /\ match fst (fn (afterCalls fn n (inner w))) with
         | Returned v => fst r = Returned v
         | Threw ThrowUndefined => fst r = Threw typeErrorNoMessage
         | Threw (ThrowError m) =>
             fst r = Threw (ThrowError m) /\ (isRateLimited m = true -> n = k)
         end.
Proof.
  assert (Hstop : forall (w : World S) (a : Z) (out : Outcome T) o s' (k : nat),
            fn (inner w) = (o, s') ->
            match o with
            | Returned v => out = Returned v
            | Threw ThrowUndefined => out = Threw typeErrorNoMessage
            | Threw (ThrowError m) =>
                out = Threw (ThrowError m) /\ (isRateLimited m = true -> 0%nat = k)
            end ->
            (0 <= k)%nat
            /\ inner (setInner s' w) = afterCalls fn 1 (inner w)
            /\ slept (setInner s' w) = slept w ++ delaysFrom initialDelay a 0
            /\ console (setInner s' w)
               = console w ++ retryLogsFrom initialDelay maxRetries a 0
            /\ (forall i, (i < 0)%nat ->
                  exists m, fst (fn (afterCalls fn i (inner w))) = Threw (ThrowError m)
                            /\ isRateLimited m = true)
            /\ match fst (fn (afterCalls fn 0 (inner w))) with
               | Returned v => out = Returned v
               | Threw ThrowUndefined => out = Threw typeErrorNoMessage
               | Threw (ThrowError m) =>
                   out = Threw (ThrowError m) /\ (isRateLimited m = true -> 0%nat = k)
               end).
  { intros w a out o s' k Hcall Hout.
    change (afterCalls fn 0 (inner w)) with (inner w).
    change (afterCalls fn 1 (inner w)) with (snd (fn (inner w))).
    rewrite Hcall.
    cbn [fst snd delaysFrom retryLogsFrom seq map inner slept console setInner].
    rewrite !app_nil_r.
    split; [lia|]. split; [reflexivity|]. split; [reflexivity|]. split; [reflexivity|].
    split; [intros i Hi; lia|exact Hout]. }
  induction k as [|k IH]; intros attempt lastError w Hsum r; subst r;
    rewrite retryLoop_unfold.
  - exists 0%nat.
    destruct (fn (inner w)) as [o s'] eqn:Hcall.
    destruct o as [v|[|m]]; cbn [fst snd].
    + apply (Hstop w attempt _ _ s' 0%nat Hcall). reflexivity.
    + apply (Hstop w attempt _ _ s' 0%nat Hcall). reflexivity.
    + replace (attempt <? maxRetries - 1) with false
        by (symmetry; apply Z.ltb_ge; lia).
      rewrite andb_false_r.
      destruct (isRateLimited m) eqn:Hm; cbn [negb retryLoop fst snd];
        apply (Hstop w attempt _ _ s' 0%nat Hcall); split; reflexivity.
  - destruct (fn (inner w)) as [o s'] eqn:Hcall.
    destruct o as [v|[|m]].
    + exists 0%nat. cbn [fst snd].
      apply (Hstop w attempt _ _ s' (Datatypes.S k) Hcall). reflexivity.
    + exists 0%nat. cbn [fst snd].
      apply (Hstop w attempt _ _ s' (Datatypes.S k) Hcall). reflexivity.
    + destruct (isRateLimited m) eqn:Hm.
      * replace (attempt <? maxRetries - 1) with true
          by (symmetry; apply Z.ltb_lt; lia).
        cbn [andb].
        set (w2 := sleep _ _).
        destruct (IH (attempt + 1) (ThrowError m) w2 ltac:(lia))
          as (n & Hn & Hinner & Hslept & Hconsole & Hbefore & Hlast).
        assert (Hs : inner w2 = snd (fn (inner w))) by (rewrite Hcall; reflexivity).
        exists (Datatypes.S n).
        split; [lia|].
        split; [rewrite Hinner, Hs, <- afterCalls_succ; reflexivity|].
        split; [rewrite Hslept, delaysFrom_succ; subst w2;
                cbn [sleep slept consoleWrite setInner];
                rewrite <- app_assoc; reflexivity|].
        split; [rewrite Hconsole, retryLogsFrom_succ; subst w2;
                cbn [sleep console consoleWrite setInner inner slept];
                rewrite <- app_assoc; reflexivity|].
        split.
        -- intros [|i] Hi.
           ++ exists m. change (afterCalls fn 0 (inner w)) with (inner w).
              rewrite Hcall. split; [reflexivity|exact Hm].
           ++ rewrite afterCalls_succ, <- Hs. apply Hbefore. lia.
        -- rewrite afterCalls_succ, <- Hs.
           destruct (fst (fn (afterCalls fn n (inner w2)))) as [v|[|m']].
           ++ exact Hlast.
           ++ exact Hlast.
           ++ destruct Hlast as [Hr Hk]. split; [exact Hr|].
              intros H; rewrite (Hk H); reflexivity.
      * cbn [andb negb].
        exists 0%nat. cbn [fst snd].
        apply (Hstop w attempt _ _ s' (Datatypes.S k) Hcall).
        split; [reflexivity|congruence].
Qed.

End RetrierTrace.

(** On an operation that meets the rate limit at every call, what the
    retrier throws is what the last of its calls threw. *)
Lemma retryWithBackoff_last_error (S T : Type) (fn : S -> Outcome T * S)
    (maxRetries initialDelay : Z) (w : Retrier.World S) :
  Retrier.rateLimitedAtEveryCall fn (Retrier.inner w) ->
  1 <= maxRetries ->
  fst (Retrier.retryWithBackoff fn maxRetries initialDelay w)
  = fst (fn (Retrier.afterCalls fn (Z.to_nat maxRetries - 1) (Retrier.inner w))).
Proof.
  intros Hfn Hmax. unfold Retrier.retryWithBackoff.
  destruct (Z.to_nat maxRetries) as [|k] eqn:Hk; [lia|].
  replace (Datatypes.S k - 1)%nat with k by lia.
  destruct (retryLoop_trace fn maxRetries initialDelay k 0 ThrowUndefined w ltac:(lia))
    as (n & Hn & _ & _ & _ & _ & Hlast).
  destruct (Hfn n) as (m & s' & Hcall & Hrl).
  rewrite Hcall in Hlast. cbn [fst] in Hlast. destruct Hlast as [Hr Hnk].
  specialize (Hnk Hrl). subst n. rewrite Hr, Hcall. reflexivity.
Qed.

(** The retrier on an operation that meets the rate limit at every
    call. *)
Lemma retryWithBackoff_exhausted (S T : Type) (fn : S -> Outcome T * S)
    (maxRetries initialDelay : Z) (w : Retrier.World S) :
  Retrier.rateLimitedAtEveryCall fn (Retrier.inner w) ->
  1 <= maxRetries ->
  let r := Retrier.retryWithBackoff fn maxRetries initialDelay w in
  (exists m, fst r = Threw (ThrowError m) /\ Retrier.isRateLimited m = true)
  /\ Retrier.slept (snd r)
     = Retrier.slept w
       ++ Retrier.backoffDelays initialDelay (Z.to_nat maxRetries - 1)
  /\ Retrier.inner (snd r)
     = Retrier.afterCalls fn (Z.to_nat maxRetries) (Retrier.inner w).
Proof.
  intros Hfn Hmax. unfold Retrier.retryWithBackoff.
  destruct (Z.to_nat maxRetries) as [|k] eqn:Hk; [lia|].
  rewrite <- delaysFrom_zero.
  replace (Datatypes.S k - 1)%nat with k by lia.
  destruct (retryLoop_exhausted fn maxRetries initialDelay k 0 ThrowUndefined w Hfn)
    as (Hres & Hslept & _ & Hinner); [lia|].
  auto.
Qed.

(** C2 (as amended). On an operation that meets the rate limit at every
    call, the retrier calls it [maxRetries] times, sleeps
    [initialDelay * 2^attempt] after every attempt but the last, and then
    throws the last error: what it throws is what call number [maxRetries]
    threw. With the defaults the sleeps are 2000 and 4000 and the error is
    that of the third call. An operation that meets the limit twice and
    then answers is called three times, with sleeps of [initialDelay] and
    [initialDelay * 2], and its value is returned. *)
Theorem C2_backoff_delays :
  forall (S T : Type) (fn : S -> Outcome T * S) (initialDelay : Z)
         (w : Retrier.World S),
    (Retrier.rateLimitedAtEveryCall fn (Retrier.inner w) ->
     forall maxRetries, 1 <= maxRetries ->
       let r := Retrier.retryWithBackoff fn maxRetries initialDelay w in
       (exists m, fst r = Threw (ThrowError m) /\ Retrier.isRateLimited m = true)
       /\ Retrier.slept (snd r)
          = Retrier.slept w
            ++ Retrier.backoffDelays initialDelay (Z.to_nat maxRetries - 1)
       /\ Retrier.inner (snd r)
          = Retrier.afterCalls fn (Z.to_nat maxRetries) (Retrier.inner w)
       /\ fst r
          = fst (fn (Retrier.afterCalls fn (Z.to_nat maxRetries - 1)
                       (Retrier.inner w))))
    /\ (Retrier.rateLimitedAtEveryCall fn (Retrier.inner w) ->
        Retrier.slept (snd (Retrier.retryWithBackoff fn 3 2000 w))
        = Retrier.slept w ++ [2000; 4000]
        /\ fst (Retrier.retryWithBackoff fn 3 2000 w)
           = fst (fn (Retrier.afterCalls fn 2 (Retrier.inner w))))
    /\ (forall m1 s1 m2 s2 v s3,
          fn (Retrier.inner w) = (Threw (ThrowError m1), s1) ->
          Retrier.isRateLimited m1 = true ->
          fn s1 = (Threw (ThrowError m2), s2) ->
          Retrier.isRateLimited m2 = true ->
          fn s2 = (Returned v, s3) ->
          Retrier.retryWithBackoff fn 3 initialDelay w
          = (Returned v,
             Retrier.mkWorld s3
               (Retrier.slept w ++ [initialDelay; initialDelay * 2])
               (Retrier.console w
                  ++ [LogRetry initialDelay 1 3; LogRetry (initialDelay * 2) 2 3]))).
Proof.
  intros S T fn initialDelay w. split; [|split].
  - intros Hfn maxRetries Hmax.
    destruct (retryWithBackoff_exhausted S T fn maxRetries initialDelay w Hfn Hmax)
      as (Hthrown & Hslept & Hinner).
    split; [exact Hthrown|]. split; [exact Hslept|]. split; [exact Hinner|].
    now apply retryWithBackoff_last_error.
  - intros Hfn.
    assert (Hmax : 1 <= 3) by lia.
    destruct (retryWithBackoff_exhausted S T fn 3 2000 w Hfn Hmax)
      as (_ & Hslept & _).
    split; [exact Hslept|].
    exact (retryWithBackoff_last_error S T fn 3 2000 w Hfn Hmax).
  - intros m1 s1 m2 s2 v s3 H1 R1 H2 R2 H3.
    unfold Retrier.retryWithBackoff.
    change (Z.to_nat 3) with 3%nat.
    erewrite retryLoop_rate_limited; [| exact H1 | exact R1].
    change (0 <? 3 - 1) with true. cbv iota.
    erewrite retryLoop_rate_limited; [| exact H2 | exact R2].
    change (0 + 1 <? 3 - 1) with true. cbv iota.
    erewrite retryLoop_returned; [| exact H3].
    unfold Retrier.setInner, Retrier.sleep, Retrier.consoleWrite. simpl.
    rewrite <- !app_assoc. simpl.
    replace (initialDelay * 2 ^ 0) with initialDelay by lia.
    replace (initialDelay * 2 ^ (0 + 1)) with (initialDelay * 2) by lia.
    reflexivity.
Qed.

Lemma alwaysBusy_rateLimited (calls : nat) :
  Retrier.rateLimitedAtEveryCall Scenario.alwaysBusy calls.
Proof. intros n. eexists. eexists. split; reflexivity. Qed.

Lemma busyNumbered_rateLimited (calls : nat) :
  Retrier.rateLimitedAtEveryCall Scenario.busyNumbered calls.
Proof. intros n. eexists. eexists. split; reflexivity. Qed.

Lemma C2_backoff_delays_witness :
  Retrier.slept
    (snd (Retrier.retryWithBackoff Scenario.alwaysBusy 3 2000 Scenario.idle))
  = [2000; 4000]
  /\ Retrier.slept
       (snd (Retrier.retryWithBackoff Scenario.alwaysBusy 4 2000 Scenario.idle))
     = [2000; 4000; 8000]
  /\ fst (Retrier.retryWithBackoff Scenario.busyNumbered 3 2000 Scenario.idle)
     = Threw (ThrowError (Some "429 at call 2"))
  /\ fst (Retrier.retryWithBackoff Scenario.busyNumbered 4 2000 Scenario.idle)
     = Threw (ThrowError (Some "429 at call 3"))
  /\ Retrier.retryWithBackoff Scenario.busyTwice 3 2000 Scenario.idle
     = (Returned "ok",
        Retrier.mkWorld 3%nat [2000; 4000] [LogRetry 2000 1 3; LogRetry 4000 2 3]).
Proof.
  split; [|split; [|split; [|split]]].
  - apply (proj1 (proj2
      (C2_backoff_delays nat string Scenario.alwaysBusy 2000 Scenario.idle))).
    exact (alwaysBusy_rateLimited 0).
  - destruct (proj1
      (C2_backoff_delays nat string Scenario.alwaysBusy 2000 Scenario.idle)
      (alwaysBusy_rateLimited 0) 4 ltac:(lia)) as (_ & Hslept & _).
    exact Hslept.
  - destruct (proj1 (proj2
      (C2_backoff_delays nat string Scenario.busyNumbered 2000 Scenario.idle))
      (busyNumbered_rateLimited 0)) as (_ & Hlast).
    rewrite Hlast. reflexivity.
  - destruct (proj1
      (C2_backoff_delays nat string Scenario.busyNumbered 2000 Scenario.idle)
      (busyNumbered_rateLimited 0) 4 ltac:(lia)) as (_ & _ & _ & Hlast).
    rewrite Hlast. reflexivity.
  - apply (proj2 (proj2
      (C2_backoff_delays nat string Scenario.busyTwice 2000 Scenario.idle))
      (Some "RESOURCE_EXHAUSTED") 1%nat (Some "RESOURCE_EXHAUSTED") 2%nat
      "ok" 3%nat); reflexivity.
Defined.

(** C2 (as stated) fails: run with the default arguments on an operation
    that always meets the quota, the retrier sleeps 2000 and 4000 and
    nothing else; a delay of 8 s never occurs. *)
Lemma C2_no_third_delay :
  let w := snd (Retrier.retryWithBackoff Scenario.alwaysBusy 3 2000 Scenario.idle) in
  Retrier.slept w = [2000; 4000]
  /\ Retrier.slept w <> [2000; 4000; 8000]
  /\ ~ In 8000 (Retrier.slept w)
  /\ Retrier.inner w = 3%nat.
Proof.
  vm_compute. repeat split; try discriminate.
  intros [H | [H | []]]; discriminate.
Qed.

(** C3. A first failure whose message carries none of the rate-limit
    signals is thrown again at once: the operation has been called exactly
    once, nothing was slept and nothing was logged. (A thrown value must
    be one whose [message] can be read.) *)
Theorem C3_other_errors_fail_fast :
  forall (S T : Type) (fn : S -> Outcome T * S) (maxRetries initialDelay : Z)
         (w : Retrier.World S) (m : option string) (s' : S),
    1 <= maxRetries ->
    fn (Retrier.inner w) = (Threw (ThrowError m), s') ->
    Retrier.isRateLimited m = false ->
    let r := Retrier.retryWithBackoff fn maxRetries initialDelay w in
    fst r = Threw (ThrowError m)
    /\ Retrier.slept (snd r) = Retrier.slept w
    /\ Retrier.console (snd r) = Retrier.console w
    /\ Retrier.inner (snd r) = Retrier.afterCalls fn 1 (Retrier.inner w).
Proof.
  intros S T fn maxRetries initialDelay w m s' Hmax Hcall Hrl r. subst r.
  unfold Retrier.retryWithBackoff.
  destruct (Z.to_nat maxRetries) as [|k] eqn:Hk; [lia|].
  rewrite (retryLoop_fail_fast fn _ _ _ _ _ _ _ _ Hcall Hrl).
  unfold Retrier.afterCalls. simpl. rewrite Hcall. auto.
Qed.

Lemma C3_other_errors_fail_fast_witness :
  let r := Retrier.retryWithBackoff Scenario.malformed 3 2000 Scenario.idle in
  fst r = Threw (ThrowError (Some "400 Bad Request"))
  /\ Retrier.slept (snd r) = []
  /\ Retrier.console (snd r) = []
  /\ Retrier.inner (snd r) = 1%nat.
Proof.
  apply (C3_other_errors_fail_fast nat string Scenario.malformed 3 2000
           Scenario.idle (Some "400 Bad Request") 1%nat).
  - lia.
  - reflexivity.
  - reflexivity.
Defined.

(** The classification of the retrier, spelled out on the message. *)
Lemma isRateLimited_false_iff (text : string) :
  Retrier.isRateLimited (Some text) = false
  <-> JsString.includes "429" text = false
      /\ JsString.includes "Too Many Requests" text = false
      /\ JsString.includes "RESOURCE_EXHAUSTED" text = false.
Proof.
  unfold Retrier.isRateLimited. rewrite !orb_false_iff. tauto.
Qed.

(** ** The response extractor *)

Section FenceFacts.
Import JsString Fence.

Lemma includes_cons needle c s :
  includes needle (String c s) = false -> includes needle s = false.
Proof. simpl. intros H. apply orb_false_iff in H. tauto. Qed.

Lemma includes_startsWith needle s :
  includes needle s = false -> startsWith needle s = false.
Proof. destruct s; simpl; intros H; apply orb_false_iff in H; tauto. Qed.

Lemma stripPrefix_startsWith p : forall s,
  startsWith p s = false -> stripPrefix p s = None.
Proof.
  induction p as [|a p IH]; intros [|b s]; simpl; try discriminate; auto.
  destruct (Ascii.eqb a b); simpl; auto.
Qed.

(** Without a fence marker in the text, no pattern matches. *)
Lemma search_no_fence afterTag : forall s,
  includes fence s = false -> search afterTag s = None.
Proof.
  induction s as [|c s IH]; intros H.
  - reflexivity.
  - simpl search. unfold matchHere.
    rewrite (stripPrefix_startsWith _ _ (includes_startsWith _ _ H)).
    apply IH. exact (includes_cons _ _ _ H).
Qed.





Lemma trimStart_idempotent : forall s, trimStart (trimStart s) = trimStart s.
Proof.
  induction s as [|c s IH]; simpl; auto.
  destruct (isWhiteSpace c) eqn:E; auto. simpl. now rewrite E.
Qed.

Lemma trimEnd_newline : forall s, trimEnd (s +:+ newline) = trimEnd s.
Proof.
  induction s as [|c s IH]; [reflexivity|].
  change (String c s +:+ newline) with (String c (s +:+ newline)).
  simpl. now rewrite IH.
Qed.

Lemma trim_newline_after : forall s, trim (s +:+ newline) = trim s.
Proof.
  unfold trim. induction s as [|c s IH]; [reflexivity|].
  change (String c s +:+ newline) with (String c (s +:+ newline)).
  simpl trimStart. destruct (isWhiteSpace c); [exact IH|].
  exact (trimEnd_newline (String c s)).
Qed.

Lemma trim_newline_before s : trim (newline +:+ s) = trim s.
Proof. reflexivity. Qed.

Lemma trim_trimStart s : trim (trimStart s) = trim s.
Proof. unfold trim. now rewrite trimStart_idempotent. Qed.



End FenceFacts.

(** ** The gateways on a service that answers *)

Section GatewayFacts.
Import JsString Retrier Model Fence.
Context {engine : Platform}.

(** [callGemini] when the service answers [text]. *)
Lemma callGemini_reply prompt (w : Retrier.World Transport) text :
  nextReply w = Returned (ReplyText text) ->
  GeminiText.callGemini prompt w
  = let w1 := consoleWrite (LogLine "RAW GEMINI RESPONSE:" (Some text))
                (sent [Text prompt] w) in
    match JSON_parse (trim (unfenced matchPlain text)) with
    | inl v => (Returned v, w1)
    | inr _ =>
        (Threw (ThrowError (Some "Invalid AI response format")),
         consoleWrite (LogLine "JSON PARSE ERROR:" (Some (unfenced matchPlain text))) w1)
    end.
Proof.
  intros Hreply. unfold GeminiText.callGemini, bind, GeminiText.callModel,
    generateContent. unfold nextReply in Hreply. rewrite Hreply.
  simpl. unfold tryCatch, jsonParse.
  destruct (JSON_parse (trim (unfenced matchPlain text))); reflexivity.
Qed.

(** The [try] block of the gateway with retry when the service answers
    [text] at the first attempt. *)
Lemma attempt_reply request (w : Retrier.World Transport) text :
  nextReply w = Returned (ReplyText text) ->
  GeminiAudio.attempt request w
  = match JSON_parse (trim (unfenced matchSpaced text)) with
    | inl v => (Returned (succeeded v), sent request w)
    | inr message => (Threw (ThrowError (Some message)), sent request w)
    end.
Proof.
  intros Hreply. unfold GeminiAudio.attempt, bind, retryWithBackoff.
  change (Z.to_nat 3) with 3%nat.
  erewrite retryLoop_returned
    by (unfold generateContent; unfold nextReply in Hreply; now rewrite Hreply).
  simpl. unfold jsonParse.
  destruct (JSON_parse (trim (unfenced matchSpaced text))); reflexivity.
Qed.

Lemma analyzeTextReflection_reply textInput (w : Retrier.World Transport) text :
  nextReply w = Returned (ReplyText text) ->
  GeminiAudio.analyzeTextReflection textInput w
  = match JSON_parse (trim (unfenced matchSpaced text)) with
    | inl v => (Returned (succeeded v), sent [Text (TextPrompt textInput)] w)
    | inr message =>
        GeminiAudio.onError "Text analysis error:" (ThrowError (Some message))
          (sent [Text (TextPrompt textInput)] w)
    end.
Proof.
  intros Hreply. unfold GeminiAudio.analyzeTextReflection, tryCatch.
  rewrite (attempt_reply _ _ _ Hreply).
  destruct (JSON_parse (trim (unfenced matchSpaced text))); reflexivity.
Qed.

Lemma analyzeAudioReflection_reply audio mime (w : Retrier.World Transport) text :
  nextReply w = Returned (ReplyText text) ->
  GeminiAudio.analyzeAudioReflection audio mime w
  = match JSON_parse (trim (unfenced matchSpaced text)) with
    | inl v => (Returned (succeeded v), sent [InlineData mime audio; Text AudioPrompt] w)
    | inr message =>
        GeminiAudio.onError "Gemini analysis error:" (ThrowError (Some message))
          (sent [InlineData mime audio; Text AudioPrompt] w)
    end.
Proof.
  intros Hreply. unfold GeminiAudio.analyzeAudioReflection, tryCatch.
  rewrite (attempt_reply _ _ _ Hreply).
  destruct (JSON_parse (trim (unfenced matchSpaced text))); reflexivity.
Qed.

Lemma textOnly_analyzeTextReflection_reply textInput (w : Retrier.World Transport) text :
  nextReply w = Returned (ReplyText text) ->
  fst (GeminiText.analyzeTextReflection textInput w)
  = match JSON_parse (trim (unfenced matchPlain text)) with
    | inl v => Returned (succeeded v)
    | inr _ => Returned (failed (Some "Invalid AI response format"))
    end.
Proof.
  intros Hreply. unfold GeminiText.analyzeTextReflection, tryCatch, bind.
  rewrite (callGemini_reply _ _ _ Hreply). cbv zeta.
  destruct (JSON_parse (trim (unfenced matchPlain text))); reflexivity.
Qed.

(** The [catch] clause of the gateway with retry never reports a
    success. *)
Lemma onError_failure label message (w : Retrier.World Transport) :
  exists r w',
    GeminiAudio.onError label (ThrowError message) w = (Returned r, w')
    /\ success r = false /\ data r = None
    /\ (error r = message \/ r = GeminiAudio.rateLimitedResult).
Proof.
  unfold GeminiAudio.onError.
  destruct (GeminiAudio.quotaSignal message); eexists; eexists;
    (split; [reflexivity|]); simpl; auto.
Qed.

End GatewayFacts.

Section TrimFacts.
Import JsString.






End TrimFacts.







(** The hypothesis of C7 is on the text, not on the document: a JSON
    document that holds fence markers inside a string parses as it is, but
    the pattern cuts it. *)
Example fence_markers_inside_a_string :
  let text := "{" +:+ Scenario.quoted "note" +:+ ":"
              +:+ Scenario.quoted "```x```" +:+ "}" in
  Json.parse text = inl (JObject [("note", JString "```x```")])
  /\ JsString.includes Fence.fence text = true
  /\ Fence.unfenced Fence.matchPlain text = "x"
  /\ Json.parse (JsString.trim (Fence.unfenced Fence.matchPlain text))
     = inr "Unexpected token in JSON".
Proof. vm_compute. repeat split. Qed.

Section ParseFailureFacts.
Import JsString Retrier Model Fence.
Context {engine : Platform}.

(** The [try]/[catch] of the gateway with retry when the service answers
    [text]: the result of [JSON.parse], a SyntaxError being classified by
    the test of the [catch] clause. *)
Lemma gateway_reply label request (w : Retrier.World Transport) text :
  nextReply w = Returned (ReplyText text) ->
  fst (tryCatch (GeminiAudio.attempt request) (GeminiAudio.onError label) w)
  = match JSON_parse (trim (unfenced matchSpaced text)) with
    | inl v => Returned (succeeded v)
    | inr message =>
        Returned (if GeminiAudio.quotaSignal (Some message)
                  then GeminiAudio.rateLimitedResult
                  else failed (Some message))
    end.
Proof.
  intros Hreply. unfold tryCatch. rewrite (attempt_reply request w text Hreply).
  destruct (JSON_parse (trim (unfenced matchSpaced text))) as [v|message];
    [reflexivity|].
  unfold GeminiAudio.onError.
  destruct (GeminiAudio.quotaSignal (Some message)); reflexivity.
Qed.

(** The weekly analysis of the text-only gateway when the service
    answers [text]. *)
Lemma textOnly_weekly_reply (rs : list Reflection) (w : Retrier.World Transport) text :
  (3 <= length rs)%nat ->
  nextReply w = Returned (ReplyText text) ->
  fst (GeminiText.analyzeWeeklyPatterns (Some rs) w)
  = match JSON_parse (trim (unfenced matchPlain text)) with
    | inl v => Returned (succeeded v)
    | inr _ => Returned (failed (Some "Invalid AI response format"))
    end.
Proof.
  intros Hlen Hreply. unfold GeminiText.analyzeWeeklyPatterns.
  replace (length rs <? 3)%nat with false by (symmetry; apply Nat.ltb_ge; exact Hlen).
  unfold tryCatch, bind.
  rewrite (callGemini_reply _ w text Hreply). cbv zeta.
  destruct (JSON_parse (trim (unfenced matchPlain text))); reflexivity.
Qed.

End ParseFailureFacts.

(** C5 (as amended). When the string left after unfencing and trimming
    does not parse, [callGemini] throws an error whose message is the
    fixed text "Invalid AI response format" and writes the unfenced string
    to the console; the daily and the weekly analysis of the text-only
    gateway then return a failure with that message. In the gateway with
    retry the SyntaxError of [JSON.parse] is caught, and the daily, the
    audio and the weekly analysis each return the busy result when the
    engine's message holds "429" or "RESOURCE_EXHAUSTED", and otherwise
    the failure that carries the engine's message. Each of these results
    has [success] false and no data. *)
Theorem C5_unparseable_response_fails :
  forall (P : Platform) (text : string) (w : Retrier.World Model.Transport)
         (prompt : Model.Prompt) (textInput audio mime : string)
         (rs : list Reflection) (summary : list json),
    Model.nextReply w = Returned (Model.ReplyText text) ->
    (forall message,
       JSON_parse (JsString.trim (Fence.unfenced Fence.matchPlain text)) = inr message ->
       GeminiText.callGemini prompt w
       = (Threw (ThrowError (Some "Invalid AI response format")),
          Retrier.consoleWrite
            (LogLine "JSON PARSE ERROR:" (Some (Fence.unfenced Fence.matchPlain text)))
            (Retrier.consoleWrite (LogLine "RAW GEMINI RESPONSE:" (Some text))
               (Model.sent [Model.Text prompt] w)))
       /\ fst (GeminiText.analyzeTextReflection textInput w)
          = Returned (Model.failed (Some "Invalid AI response format"))
       /\ ((3 <= length rs)%nat ->
           fst (GeminiText.analyzeWeeklyPatterns (Some rs) w)
           = Returned (Model.failed (Some "Invalid AI response format"))))
    /\ (forall message,
          JSON_parse (JsString.trim (Fence.unfenced Fence.matchSpaced text)) = inr message ->
          let expected :=
            if GeminiAudio.quotaSignal (Some message)
            then Model.mkResult false None (Some GeminiAudio.busyMessage) true
            else Model.mkResult false None (Some message) false in
          fst (GeminiAudio.analyzeTextReflection textInput w) = Returned expected
          /\ fst (GeminiAudio.analyzeAudioReflection audio mime w) = Returned expected
          /\ (rs <> [] ->
              GeminiAudio.summarizeAll rs = Returned summary ->
              fst (GeminiAudio.analyzeWeeklyPatterns (Some rs) w) = Returned expected)
          /\ Model.success expected = false
          /\ Model.data expected = None).
Proof.
  intros P text w prompt textInput audio mime rs summary Hreply. split.
  - intros message Hparse. split; [|split].
    + rewrite (callGemini_reply _ _ _ Hreply). cbv zeta. now rewrite Hparse.
    + rewrite (textOnly_analyzeTextReflection_reply _ _ _ Hreply).
      now rewrite Hparse.
    + intros Hlen. rewrite (textOnly_weekly_reply rs w text Hlen Hreply).
      now rewrite Hparse.
  - intros message Hparse expected.
    assert (Hgate : forall label request,
              fst (tryCatch (GeminiAudio.attempt request) (GeminiAudio.onError label) w)
              = Returned expected).
    { intros label request. rewrite (gateway_reply label request w text Hreply), Hparse.
      reflexivity. }
    split; [apply Hgate|]. split; [apply Hgate|]. split.
    + intros Hne Hsum. destruct rs as [|r rs]; [congruence|].
      unfold GeminiAudio.analyzeWeeklyPatterns, bind, ofOutcome. rewrite Hsum.
      apply Hgate.
    + subst expected. destruct (GeminiAudio.quotaSignal (Some message)); split; reflexivity.
Qed.

Lemma C5_unparseable_response_fails_witness :
  let w := Scenario.fresh (Scenario.replying "oops") in
  (fst (GeminiText.analyzeTextReflection (engine := referencePlatform)
          "I felt calm today" w)
   = Returned (Model.failed (Some "Invalid AI response format"))
   /\ fst (GeminiText.analyzeWeeklyPatterns (engine := referencePlatform)
             (Some Scenario.threeReflections) w)
      = Returned (Model.failed (Some "Invalid AI response format")))
  /\ (fst (GeminiAudio.analyzeTextReflection (engine := referencePlatform)
             "I felt calm today" w)
      = Returned (Model.failed (Some "Unexpected token in JSON"))
      /\ fst (GeminiAudio.analyzeWeeklyPatterns (engine := referencePlatform)
                (Some Scenario.threeReflections) w)
         = Returned (Model.failed (Some "Unexpected token in JSON")))
  /\ fst (GeminiAudio.analyzeTextReflection (engine := Scenario.namingPosition)
            "I felt calm today" w)
     = Returned GeminiAudio.rateLimitedResult.
Proof.
  assert (Hsum : exists summary,
            GeminiAudio.summarizeAll Scenario.threeReflections = Returned summary)
    by (eexists; vm_compute; reflexivity).
  destruct Hsum as [summary Hsum].
  destruct (C5_unparseable_response_fails referencePlatform "oops"
              (Scenario.fresh (Scenario.replying "oops"))
              (Model.TextOnlyPrompt "I felt calm today")
              "I felt calm today" "" "audio/webm" Scenario.threeReflections summary
              eq_refl)
    as (Hplain & Hspaced).
  destruct (C5_unparseable_response_fails Scenario.namingPosition "oops"
              (Scenario.fresh (Scenario.replying "oops"))
              (Model.TextOnlyPrompt "I felt calm today")
              "I felt calm today" "" "audio/webm" Scenario.threeReflections summary
              eq_refl)
    as (_ & Hbusy).
  destruct (Hplain "Unexpected token in JSON" eq_refl) as (_ & Hdaily & Hweekly).
  destruct (Hspaced "Unexpected token in JSON" eq_refl) as (Htext & _ & Hweek & _).
  destruct (Hbusy "Unexpected token o in JSON at position 429" eq_refl)
    as (Hflag & _).
  split; [split|split; [split|]].
  - exact Hdaily.
  - apply Hweekly. vm_compute. lia.
  - exact Htext.
  - apply Hweek; [discriminate|exact Hsum].
  - exact Hflag.
Defined.

(** C5 (as stated) fails: on the answer [oops], the error [callGemini]
    throws has the message "Invalid AI response format", in which the
    offending string does not occur; the string goes to the console. *)
Lemma C5_error_does_not_carry_raw_text :
  let r := GeminiText.callGemini (engine := referencePlatform)
             (Model.TextOnlyPrompt "I felt calm today")
             (Scenario.fresh (Scenario.replying "oops")) in
  fst r = Threw (ThrowError (Some "Invalid AI response format"))
  /\ JsString.includes "oops" "Invalid AI response format" = false
  /\ Retrier.console (snd r)
     = [LogLine "RAW GEMINI RESPONSE:" (Some "oops");
        LogLine "JSON PARSE ERROR:" (Some "oops")].
Proof. vm_compute. repeat split. Qed.

(** ** The gateways and the number of calls *)

Section CallFacts.
Import JsString Retrier Model Fence.
Context {engine : Platform}.

Lemma generateContent_inner request (t : Transport) :
  snd (generateContent request t)
  = mkTransport (behaviour t) (requests t ++ [request]).
Proof. reflexivity. Qed.

Lemma afterCalls_generateContent request (t : Transport) : forall n,
  afterCalls (generateContent request) n t
  = mkTransport (behaviour t) (requests t ++ repeat request n).
Proof.
  induction n as [|n IH].
  - unfold afterCalls. simpl. rewrite app_nil_r. now destruct t.
  - unfold afterCalls in *. rewrite Nat.iter_succ, IH. simpl.
    rewrite <- app_assoc. now rewrite <- repeat_cons.
Qed.

Lemma serviceBusy_rateLimited request (t : Transport) :
  serviceBusy t -> rateLimitedAtEveryCall (generateContent request) t.
Proof.
  intros Hbusy n. destruct (Hbusy n) as (m & Hm & Hrl).
  exists m. eexists. split; [|exact Hrl].
  rewrite afterCalls_generateContent. unfold generateContent. simpl.
  rewrite length_app, repeat_length, Hm. reflexivity.
Qed.

(** On a busy service the gateway with retry sends the request three
    times, sleeps 2000 and 4000, and classifies the last error with the
    test of its [catch] clause. *)
Lemma gateway_exhausted label request (w : Retrier.World Transport) :
  serviceBusy (inner w) ->
  exists m,
    Retrier.isRateLimited m = true
    /\ fst (tryCatch (GeminiAudio.attempt request) (GeminiAudio.onError label) w)
       = Returned (if GeminiAudio.quotaSignal m
                   then GeminiAudio.rateLimitedResult
                   else failed m)
    /\ slept (snd (tryCatch (GeminiAudio.attempt request) (GeminiAudio.onError label) w))
       = slept w ++ [2000; 4000]
    /\ requests (inner (snd (tryCatch (GeminiAudio.attempt request)
                               (GeminiAudio.onError label) w)))
       = requests (inner w) ++ [request; request; request].
Proof.
  intros Hbusy.
  assert (Hmax : 1 <= 3) by lia.
  destruct (retryWithBackoff_exhausted _ _ (generateContent request) 3 2000 w
              (serviceBusy_rateLimited request _ Hbusy) Hmax)
    as ((m & Hres & Hrl) & Hslept & Hinner).
  exists m. split; [exact Hrl|].
  unfold tryCatch, GeminiAudio.attempt, bind.
  destruct (retryWithBackoff (generateContent request) 3 2000 w) as [r w'] eqn:E.
  rewrite afterCalls_generateContent in Hinner.
  cbn [fst snd] in Hres, Hslept, Hinner. subst r.
  unfold GeminiAudio.onError.
  destruct (GeminiAudio.quotaSignal m); simpl; rewrite Hslept, Hinner; auto.
Qed.

End CallFacts.

(** C4, at the input on which the code departs from it. A service that
    rejects every call with the message "Too Many Requests" is retried as
    rate-limited (three calls, sleeps of 2000 and 4000), yet each of the
    three analysis functions returns a plain failure with that message:
    [isRateLimited] is not set and the busy message is not used, because
    the [catch] clauses test only "429" and "RESOURCE_EXHAUSTED". *)
Theorem C4_too_many_requests_is_not_flagged :
  forall (P : Platform),
    let w := Scenario.fresh (Scenario.rejecting "Too Many Requests") in
    let plain := Model.failed (Some "Too Many Requests") in
    let text := GeminiAudio.analyzeTextReflection "I felt calm today" w in
    let audio := GeminiAudio.analyzeAudioReflection "RIFF" "audio/webm" w in
    let weekly := GeminiAudio.analyzeWeeklyPatterns (Some Scenario.threeReflections) w in
    Retrier.isRateLimited (Some "Too Many Requests") = true
    /\ GeminiAudio.quotaSignal (Some "Too Many Requests") = false
    /\ Model.isRateLimited plain = false
    /\ plain <> GeminiAudio.rateLimitedResult
    /\ (fst text = Returned plain
        /\ Retrier.slept (snd text) = [2000; 4000]
        /\ length (Model.requests (Retrier.inner (snd text))) = 3%nat)
    /\ (fst audio = Returned plain
        /\ Retrier.slept (snd audio) = [2000; 4000]
        /\ length (Model.requests (Retrier.inner (snd audio))) = 3%nat)
    /\ (fst weekly = Returned plain
        /\ Retrier.slept (snd weekly) = [2000; 4000]
        /\ length (Model.requests (Retrier.inner (snd weekly))) = 3%nat).
Proof. intros P. vm_compute. repeat split. discriminate. Qed.

(** ** The weekly analysis *)

Section WeeklyFacts.
Import JsString Retrier Model Fence.
Context {engine : Platform}.

(** [callGemini] sends its prompt once, whatever the service does. *)
Lemma callGemini_sends prompt (w : Retrier.World Transport) :
  inner (snd (GeminiText.callGemini prompt w)) = inner (sent [Text prompt] w).
Proof.
  unfold GeminiText.callGemini, bind, GeminiText.callModel, generateContent.
  destruct (behaviour (inner w) (length (requests (inner w)))) as [[text|e]|e];
    simpl; try reflexivity.
  unfold tryCatch, jsonParse.
  destruct (JSON_parse (trim (unfenced matchPlain text))); reflexivity.
Qed.

Lemma textOnly_onError_inner label e (w : Retrier.World Transport) :
  inner (snd (GeminiText.onError label e w)) = inner w.
Proof. destruct e; reflexivity. Qed.

Lemma textOnly_weekly_sends (rs : list Reflection) (w : Retrier.World Transport) :
  (3 <= length rs)%nat ->
  requests (inner (snd (GeminiText.analyzeWeeklyPatterns (Some rs) w)))
  = requests (inner w)
    ++ [[Text (TextOnlyWeeklyPrompt (JArray (map GeminiText.summarize rs)))]].
Proof.
  intros Hlen. unfold GeminiText.analyzeWeeklyPatterns.
  replace (length rs <? 3)%nat with false by (symmetry; apply Nat.ltb_ge; lia).
  unfold tryCatch, bind.
  pose proof (callGemini_sends
                (TextOnlyWeeklyPrompt (JArray (map GeminiText.summarize rs))) w) as Hsend.
  destruct (GeminiText.callGemini _ w) as [[v|e] w'].
  - simpl in *. now rewrite Hsend.
  - simpl in Hsend. rewrite textOnly_onError_inner, Hsend. reflexivity.
Qed.

(** The retry loop sends the request at least once and never another
    request. *)
Lemma retryLoop_sends request maxRetries initialDelay : forall fuel attempt lastError
    (w : Retrier.World Transport),
  exists k,
    inner (snd (retryLoop (generateContent request) maxRetries initialDelay
                  (S fuel) attempt lastError w))
    = mkTransport (behaviour (inner w))
                  (requests (inner w) ++ repeat request (S k)).
Proof.
  induction fuel as [|fuel IH]; intros attempt lastError w.
  - exists 0%nat. simpl.
    destruct (behaviour (inner w) (length (requests (inner w)))) as [v|[|m]];
      try reflexivity.
    destruct (Retrier.isRateLimited m && (attempt <? maxRetries - 1)); [reflexivity|].
    destruct (negb (Retrier.isRateLimited m)); reflexivity.
  - rewrite retryLoop_unfold. unfold generateContent at 1.
    destruct (behaviour (inner w) (length (requests (inner w)))) as [v|[|m]];
      try (exists 0%nat; reflexivity).
    destruct (Retrier.isRateLimited m && (attempt <? maxRetries - 1)).
    + match goal with
      | |- context [retryLoop _ _ _ (S fuel) ?a ?e ?w'] =>
          destruct (IH a e w') as [k Hk]
      end.
      exists (S k). rewrite Hk. simpl. rewrite <- app_assoc. reflexivity.
    + destruct (negb (Retrier.isRateLimited m)); [exists 0%nat; reflexivity|].
      match goal with
      | |- context [retryLoop _ _ _ (S fuel) ?a ?e ?w'] =>
          destruct (IH a e w') as [k Hk]
      end.
      exists (S k). rewrite Hk. simpl. rewrite <- app_assoc. reflexivity.
Qed.

Lemma onError_inner label e (w : Retrier.World Transport) :
  inner (snd (GeminiAudio.onError label e w)) = inner w.
Proof.
  destruct e as [|m]; [reflexivity|]. unfold GeminiAudio.onError.
  destruct (GeminiAudio.quotaSignal m); reflexivity.
Qed.

(** Every analysis of the gateway with retry sends its request, and only
    that request, between one and three times. *)
Lemma gateway_sends label request (w : Retrier.World Transport) :
  exists k,
    requests (inner (snd (tryCatch (GeminiAudio.attempt request)
                            (GeminiAudio.onError label) w)))
    = requests (inner w) ++ repeat request (S k).
Proof.
  destruct (retryLoop_sends request 3 2000 2 0 ThrowUndefined w) as [k Hk].
  exists k. unfold tryCatch, GeminiAudio.attempt, bind, retryWithBackoff.
  change (Z.to_nat 3) with 3%nat.
  destruct (retryLoop (generateContent request) 3 2000 3 0 ThrowUndefined w)
    as [[[text|e]|e] w'] eqn:E; cbn [snd] in Hk.
  - unfold responseText, jsonParse. cbn -[GeminiAudio.onError].
    destruct (JSON_parse (trim (unfenced matchSpaced text)));
      cbn -[GeminiAudio.onError].
    + now rewrite Hk.
    + rewrite onError_inner, Hk. reflexivity.
  - cbn -[GeminiAudio.onError]. rewrite onError_inner, Hk. reflexivity.
  - rewrite onError_inner, Hk. reflexivity.
Qed.

End WeeklyFacts.

(** C1 (as amended). The text-only gateway returns the failure "Not
    enough reflections for weekly analysis" for a missing list and for
    every list of fewer than 3 reflections, and leaves the world as it
    was: no request is sent. For 3 reflections or more it builds the weekly
    prompt from the summary of the reflections and sends it once. The
    gateway with retry fails fast only on a missing or an empty list
    ("No reflections to analyze"); a list of 1 or 2 reflections whose
    summary can be built is analysed like any other. *)
Theorem C1_weekly_needs_three_reflections :
  forall (P : Platform) (rs : list Reflection) (w : Retrier.World Model.Transport),
    ((length rs < 3)%nat ->
     GeminiText.analyzeWeeklyPatterns (Some rs) w
     = (Returned (Model.failed (Some "Not enough reflections for weekly analysis")), w))
    /\ GeminiText.analyzeWeeklyPatterns None w
       = (Returned (Model.failed (Some "Not enough reflections for weekly analysis")), w)
    /\ ((3 <= length rs)%nat ->
        Model.requests (Retrier.inner (snd (GeminiText.analyzeWeeklyPatterns (Some rs) w)))
        = Model.requests (Retrier.inner w)
          ++ [[Model.Text (Model.TextOnlyWeeklyPrompt
                             (JArray (map GeminiText.summarize rs)))]])
    /\ GeminiAudio.analyzeWeeklyPatterns (Some []) w
       = (Returned (Model.failed (Some "No reflections to analyze")), w)
    /\ GeminiAudio.analyzeWeeklyPatterns None w
       = (Returned (Model.failed (Some "No reflections to analyze")), w)
    /\ (rs <> [] ->
        forall summary, GeminiAudio.summarizeAll rs = Returned summary ->
        exists k,
          Model.requests
            (Retrier.inner (snd (GeminiAudio.analyzeWeeklyPatterns (Some rs) w)))
          = Model.requests (Retrier.inner w)
            ++ repeat [Model.Text (Model.WeeklyPrompt (length rs) (JArray summary))]
                      (S k)).
Proof.
  intros P rs w. repeat split.
  - intros Hlen. unfold GeminiText.analyzeWeeklyPatterns.
    replace (length rs <? 3)%nat with true by (symmetry; apply Nat.ltb_lt; lia).
    reflexivity.
  - apply textOnly_weekly_sends.
  - intros Hne summary Hsum. destruct rs as [|r rs]; [congruence|].
    unfold GeminiAudio.analyzeWeeklyPatterns, bind, ofOutcome. rewrite Hsum.
    apply gateway_sends.
Qed.

Lemma C1_weekly_needs_three_reflections_witness :
  let w := Scenario.fresh (Scenario.replying "{}") in
  GeminiText.analyzeWeeklyPatterns (engine := referencePlatform)
    (Some Scenario.twoReflections) w
  = (Returned (Model.failed (Some "Not enough reflections for weekly analysis")), w)
  /\ length (Model.requests (Retrier.inner (snd
       (GeminiText.analyzeWeeklyPatterns (engine := referencePlatform)
          (Some Scenario.threeReflections) w)))) = 1%nat
  /\ exists k,
       length (Model.requests (Retrier.inner (snd
         (GeminiAudio.analyzeWeeklyPatterns (engine := referencePlatform)
            (Some Scenario.twoReflections) w)))) = S k.
Proof.
  pose (w := Scenario.fresh (Scenario.replying "{}")).
  destruct (C1_weekly_needs_three_reflections referencePlatform
              Scenario.twoReflections w) as (Hfew & _ & _ & _ & _ & Haudio).
  destruct (C1_weekly_needs_three_reflections referencePlatform
              Scenario.threeReflections w) as (_ & _ & Hthree & _).
  split; [|split].
  - apply Hfew. simpl. lia.
  - fold w. rewrite Hthree by (simpl; lia). reflexivity.
  - destruct (Haudio ltac:(discriminate) _ eq_refl) as [k Hk].
    exists k. fold w. rewrite Hk. simpl. now rewrite repeat_length.
Defined.

(** C1 (as stated) fails: the gateway with retry analyses a list of two
    reflections; it sends the weekly prompt and returns the success the
    service's answer gives. *)
Lemma C1_two_reflections_are_analysed :
  let r := GeminiAudio.analyzeWeeklyPatterns (engine := referencePlatform)
             (Some Scenario.twoReflections)
             (Scenario.fresh (Scenario.replying "{}")) in
  length Scenario.twoReflections = 2%nat
  /\ fst r = Returned (Model.succeeded (JObject []))
  /\ length (Model.requests (Retrier.inner (snd r))) = 1%nat.
Proof. vm_compute. repeat split. Qed.

(** ** The routes and the store *)

Section StoreFacts.
Import Model Server.

Lemma keepsStore_ret {A} (v : A) : keepsStore (ret v).
Proof. intros st. reflexivity. Qed.

Lemma keepsStore_throw {A} e : keepsStore (@throw State A e).
Proof. intros st. reflexivity. Qed.

Lemma keepsStore_ofOutcome {A} (o : Outcome A) : keepsStore (ofOutcome o).
Proof. intros st. reflexivity. Qed.

Lemma keepsStore_bind {A B} (m : Task State A) (k : A -> Task State B) :
  keepsStore m -> (forall a, keepsStore (k a)) -> keepsStore (bind m k).
Proof.
  intros Hm Hk st. unfold bind. specialize (Hm st).
  destruct (m st) as [[a|e] st1]; simpl in *.
  - now rewrite Hk.
  - exact Hm.
Qed.

Lemma keepsStore_tryCatch {A} (m : Task State A) (h : Thrown -> Task State A) :
  keepsStore m -> (forall e, keepsStore (h e)) -> keepsStore (tryCatch m h).
Proof.
  intros Hm Hh st. unfold tryCatch. specialize (Hm st).
  destruct (m st) as [[a|e] st1]; simpl in *.
  - exact Hm.
  - now rewrite Hh.
Qed.

Lemma keepsStore_liftAi {A} (m : Task (Retrier.World Transport) A) :
  keepsStore (liftAi m).
Proof. intros st. unfold liftAi. now destruct (m (ai st)). Qed.

Lemma keepsStore_consoleError label payload : keepsStore (consoleError label payload).
Proof. intros st. reflexivity. Qed.

Lemma keepsStore_newDate : keepsStore newDate.
Proof. intros st. reflexivity. Qed.

Lemma keepsStore_respond code b : keepsStore (respond code b).
Proof. apply keepsStore_ret. Qed.

Lemma keepsStore_dbOperation : keepsStore dbOperation.
Proof. intros st. unfold dbOperation. now destruct (dbFault st (dbOps st)). Qed.

Lemma keepsStore_docGet id : keepsStore (docGet id).
Proof.
  apply keepsStore_bind; [apply keepsStore_dbOperation|].
  intros _ st. reflexivity.
Qed.

Lemma keepsStore_dataField analysis key : keepsStore (dataField analysis key).
Proof.
  unfold dataField. destruct (data analysis).
  - apply keepsStore_ofOutcome.
  - apply keepsStore_throw.
Qed.

Lemma keepsStore_reflectionData u d analysis : keepsStore (reflectionData u d analysis).
Proof.
  unfold reflectionData.
  repeat (apply keepsStore_bind; [apply keepsStore_dataField|intros ?]).
  apply keepsStore_bind; [apply keepsStore_newDate|intros ?].
  apply keepsStore_ret.
Qed.

Lemma keepsStore_dateOrToday d : keepsStore (dateOrToday d).
Proof.
  unfold dateOrToday. destruct (truthy d).
  - apply keepsStore_ret.
  - apply keepsStore_bind; [apply keepsStore_newDate|intros ?; apply keepsStore_ret].
Qed.

(** The one write of the handlers: when [collectionAdd] returns, the
    collection holds one more document, under an id that was free; when it
    throws, the collection is as before. *)
Lemma collectionAdd_spec (fields : ReflectionData) (st : State) :
  match collectionAdd fields st with
  | (Returned newId, st') =>
      store st !! newId = None /\ store st' = <[newId := fields]> (store st)
  | (Threw _, st') => store st' = store st
  end.
Proof.
  unfold collectionAdd, bind, dbOperation.
  destruct (dbFault st (dbOps st)); [reflexivity|]. simpl.
  destruct (store st !! autoId st (idsDrawn st)) eqn:E; simpl; auto.
Qed.

(** What [saveAnalysis] can do: without a success to save, or when it
    throws, the collection is untouched; otherwise it answers 200 with the
    record it has added. *)
Lemma saveAnalysis_spec failure u d (analysis : AnalysisResult) (st : State) :
  match saveAnalysis failure u d analysis st with
  | (Returned resp, st') =>
      (success analysis = false
       /\ resp = mkResponse 500 (failure analysis) /\ st' = st)
      \/ (success analysis = true
          /\ exists newId fields,
               resp = mkResponse 200 (CreatedJson newId fields)
               /\ userId fields = Some u /\ date fields = Some d
               /\ store st !! newId = None
               /\ store st' = <[newId := fields]> (store st))
  | (Threw _, st') => success analysis = true /\ store st' = store st
  end.
Proof.
  unfold saveAnalysis. destruct (success analysis) eqn:Hs; simpl.
  2: { left. auto. }
  unfold bind at 1.
  pose proof (keepsStore_reflectionData u d analysis st) as Hkeep.
  assert (Hfields : forall fields st1,
            reflectionData u d analysis st = (Returned fields, st1) ->
            userId fields = Some u /\ date fields = Some d).
  { unfold reflectionData, bind, dataField, ofOutcome, throw, newDate, ret.
    intros fields st1.
    destruct (data analysis) as [j|]; [|discriminate].
    repeat match goal with
           | |- context [getProp j ?k] => destruct (getProp j k)
           end; try discriminate.
    intros Heq. inversion Heq. auto. }
  destruct (reflectionData u d analysis st) as [[fields|e] st1]; simpl in Hkeep.
  2: { auto. }
  destruct (Hfields fields st1 eq_refl) as [Hu Hd].
  unfold bind. pose proof (collectionAdd_spec fields st1) as Hadd.
  destruct (collectionAdd fields st1) as [[newId|e] st2].
  - right. split; [reflexivity|]. exists newId, fields.
    destruct Hadd as [Hfree Hst]. rewrite Hkeep in Hfree, Hst.
    simpl. auto.
  - rewrite Hadd, Hkeep. auto.
Qed.

End StoreFacts.

Section RouteFacts.
Import Model Server.
Context {engine : Platform}.

Lemma dateOrToday_spec (d : option string) (st : State) :
  exists st1,
    dateOrToday d st = (Returned (effectiveDate d st), st1)
    /\ store st1 = store st /\ ai st1 = ai st.
Proof.
  unfold dateOrToday, effectiveDate. destruct (truthy d) as [given|].
  - exists st. auto.
  - eexists. split; [reflexivity|]. auto.
Qed.

Lemma onRouteError_spec label failure e (st : State) :
  store (snd (RoutesAudio.onRouteError label failure e st)) = store st
  /\ forall resp,
       fst (RoutesAudio.onRouteError label failure e st) = Returned resp ->
       exists details, resp = mkResponse 500 (ErrorJson failure details).
Proof.
  destruct e as [|m]; simpl; split; try reflexivity.
  - discriminate.
  - intros resp Hr. inversion Hr. eauto.
Qed.

(** The paths of [/analyze-daily] in the audio-capable backend. *)
Lemma analyzeDaily_audio_paths (req : DailyRequest) (st : State) :
  let r := RoutesAudio.analyzeDaily req st in
  let handler := RoutesAudio.onRouteError "Analysis error:" "Failed to analyze reflection" in
  exists dateStr st1,
    dateOrToday (reqDate req) st = (Returned dateStr, st1)
    /\ match truthy (reqUserId req) with
       | None => r = (Returned (mkResponse 400 (ErrorJson "User ID is required" None)), st)
       | Some u =>
           match RoutesAudio.inputAnalysis req with
           | None =>
               r = (Returned (mkResponse 400
                      (ErrorJson "Audio file or text input required" None)), st1)
           | Some run =>
               match run st1 with
               | (Threw e, st2) => r = handler e st2
               | (Returned a, st2) =>
                   match saveAnalysis (fun a => ErrorJson "Analysis failed" (error a))
                           u dateStr a st2 with
                   | (Returned resp, st3) => r = (Returned resp, st3)
                   | (Threw e, st3) => r = handler e st3
                   end
               end
           end
       end.
Proof.
  intros r handler.
  destruct (dateOrToday_spec (reqDate req) st) as (st1 & Hdate & _).
  exists (effectiveDate (reqDate req) st), st1. split; [exact Hdate|].
  set (dateStr := effectiveDate (reqDate req) st) in *.
  subst r handler.
  destruct (truthy (reqUserId req)) as [u|] eqn:Hu;
    [destruct (RoutesAudio.inputAnalysis req) as [run|] eqn:Hin;
       [destruct (run st1) as [[a|e] st2] eqn:Hrun;
          [destruct (saveAnalysis _ u dateStr a st2) as [[resp|e] st3] eqn:Hsave|]|]|];
    unfold RoutesAudio.analyzeDaily, tryCatch, bind;
    rewrite Hu; try reflexivity;
    rewrite Hdate, Hin; try reflexivity;
    rewrite Hrun; try reflexivity;
    rewrite Hsave; reflexivity.
Qed.

(** The paths of [/analyze-daily] in the text-only backend. *)
Lemma analyzeDaily_text_paths (req : DailyRequest) (st : State) :
  let r := RoutesText.analyzeDaily req st in
  let st0 := RoutesText.received req st in
  let handler := fun (e : Thrown) (st' : State) =>
    (Returned (mkResponse 500 (FailureJson (Some "Failed to analyze reflection"))),
     snd (consoleError "DAILY ANALYSIS ROUTE ERROR:"
            match e with ThrowError m => m | ThrowUndefined => None end st')) in
  exists st1,
    dateOrToday (reqDate req) st0 = (Returned (effectiveDate (reqDate req) st), st1)
    /\ match truthy (reqUserId req), truthy (reqTextInput req) with
       | Some u, Some textInput =>
           match liftAi (GeminiText.analyzeTextReflection textInput) st1 with
           | (Threw e, st2) => r = handler e st2
           | (Returned a, st2) =>
               match saveAnalysis (fun a => FailureJson (error a)) u
                       (effectiveDate (reqDate req) st) a st2 with
               | (Returned resp, st3) => r = (Returned resp, st3)
               | (Threw e, st3) => r = handler e st3
               end
           end
       | _, _ =>
           r = (Returned (mkResponse 400
                  (FailureJson (Some "userId and textInput are required"))), st0)
       end.
Proof.
  intros r st0 handler.
  destruct (dateOrToday_spec (reqDate req) st0) as (st1 & Hdate & _).
  change (effectiveDate (reqDate req) st0) with (effectiveDate (reqDate req) st) in Hdate.
  exists st1. split; [exact Hdate|].
  set (dateStr := effectiveDate (reqDate req) st) in *.
  subst r handler.
  destruct (truthy (reqUserId req)) as [u|] eqn:Hu;
    [destruct (truthy (reqTextInput req)) as [textInput|] eqn:Htext;
       [destruct (liftAi (GeminiText.analyzeTextReflection textInput) st1)
          as [[a|e] st2] eqn:Hrun;
          [destruct (saveAnalysis _ u dateStr a st2) as [[resp|e] st3] eqn:Hsave|]|]|];
    unfold RoutesText.analyzeDaily, tryCatch, bind;
    change (RoutesText.logBody req st) with (Returned tt, st0); cbv beta iota;
    rewrite Hu; try reflexivity;
    rewrite Htext; try reflexivity;
    rewrite Hdate, Hrun; try reflexivity;
    rewrite Hsave; reflexivity.
Qed.

End RouteFacts.

(** ** Dates *)

Section DateFacts.
Import JsString IsoDate.

Lemma digit_is_not_T n : Ascii.eqb (digit n) "T" = false.
Proof.
  unfold digit.
  assert (Hk : (Z.to_nat (n mod 10) < 10)%nat).
  { pose proof (Z.mod_pos_bound n 10 ltac:(lia)). lia. }
  destruct (Z.to_nat (n mod 10)) as [|[|[|[|[|[|[|[|[|[|k]]]]]]]]]];
    try reflexivity; lia.
Qed.

Lemma lacks_append c : forall a b, lacks c (a +:+ b) = lacks c a && lacks c b.
Proof.
  induction a as [|x a IH]; intros b; [reflexivity|].
  change (String x a +:+ b) with (String x (a +:+ b)). simpl.
  now rewrite IH, andb_assoc.
Qed.

Lemma lacks_pad : forall width n, lacks "T" (pad width n) = true.
Proof.
  induction width as [|width IH]; intros n; [reflexivity|].
  cbn [pad]. rewrite lacks_append, IH. cbn [lacks andb].
  now rewrite digit_is_not_T.
Qed.

Lemma append_empty : forall s, s +:+ EmptyString = s.
Proof.
  induction s as [|c s IH]; [reflexivity|].
  change (String c s +:+ EmptyString) with (String c (s +:+ EmptyString)).
  now rewrite IH.
Qed.

(** The first piece of a split runs up to the first separator. *)
Lemma split_first sep : forall a b,
  lacks sep a = true ->
  hd EmptyString (split sep (a +:+ b)) = a +:+ hd EmptyString (split sep b).
Proof.
  induction a as [|c a IH]; intros b Hlacks; [reflexivity|].
  change (String c a +:+ b) with (String c (a +:+ b)).
  change (String c a +:+ hd EmptyString (split sep b))
    with (String c (a +:+ hd EmptyString (split sep b))).
  simpl in Hlacks. apply andb_true_iff in Hlacks. destruct Hlacks as [Hc Ha].
  apply negb_true_iff in Hc. simpl split. rewrite Hc.
  rewrite <- (IH b Ha).
  destruct (split sep (a +:+ b)); reflexivity.
Qed.

Lemma split_at_separator sep rest :
  hd EmptyString (split sep (String sep rest)) = EmptyString.
Proof. simpl. now rewrite Ascii.eqb_refl. Qed.

(** For the years 0 to 9999, [toISOString().split('T')[0]] is the UTC
    calendar date written [YYYY-MM-DD]. *)
Lemma isoDay_calendarDate (d : DateTime) :
  0 <= year d <= 9999 -> isoDay d = calendarDate d.
Proof.
  intros Hyear. unfold isoDay, toISOString, calendarDate, yearString.
  replace ((0 <=? year d) && (year d <=? 9999)) with true
    by (symmetry; apply andb_true_iff; split; apply Z.leb_le; lia).
  rewrite split_first by apply lacks_pad.
  rewrite (split_first "T" "-") by reflexivity.
  rewrite split_first by apply lacks_pad.
  rewrite (split_first "T" "-") by reflexivity.
  rewrite split_first by apply lacks_pad.
  change ("T" +:+ pad 2 (hours d) +:+ ":" +:+ pad 2 (minutes d) +:+ ":"
          +:+ pad 2 (seconds d) +:+ "." +:+ pad 3 (milliseconds d) +:+ "Z")
    with (String "T" (pad 2 (hours d) +:+ ":" +:+ pad 2 (minutes d) +:+ ":"
          +:+ pad 2 (seconds d) +:+ "." +:+ pad 3 (milliseconds d) +:+ "Z")).
  rewrite split_at_separator, append_empty. reflexivity.
Qed.

End DateFacts.

(** ** Deleting a reflection *)

Section DeleteFacts.
Import Model Server.

Lemma dbOperation_ok (st : State) :
  dbFault st (dbOps st) = None ->
  dbOperation st
  = (Returned tt,
     mkState (ai st) (store st) (dbFault st) (S (dbOps st)) (autoId st)
             (idsDrawn st) (clock st) (ticks st)).
Proof. intros Hok. unfold dbOperation. now rewrite Hok. Qed.

Lemma docGet_ok id (st : State) :
  dbFault st (dbOps st) = None ->
  docGet id st = (Returned (store st !! id), snd (dbOperation st)).
Proof.
  intros Hok. unfold docGet, bind. now rewrite (dbOperation_ok st Hok).
Qed.

Lemma delete_missing id requester (st : State) :
  dbFault st (dbOps st) = None ->
  store st !! id = None ->
  RoutesAudio.deleteReflection id requester st
  = (Returned (mkResponse 404 (ErrorJson "Reflection not found" None)),
     snd (dbOperation st)).
Proof.
  intros Hok Hdoc. unfold RoutesAudio.deleteReflection, tryCatch, bind.
  rewrite (docGet_ok id st Hok), Hdoc. reflexivity.
Qed.

Lemma delete_foreign id requester (st : State) fields :
  dbFault st (dbOps st) = None ->
  store st !! id = Some fields ->
  userId fields <> requester ->
  RoutesAudio.deleteReflection id requester st
  = (Returned (mkResponse 403 (ErrorJson "Unauthorized" None)),
     snd (dbOperation st)).
Proof.
  intros Hok Hdoc Hne. unfold RoutesAudio.deleteReflection, tryCatch, bind.
  rewrite (docGet_ok id st Hok), Hdoc.
  rewrite (bool_decide_eq_false_2 _ Hne). reflexivity.
Qed.

Lemma delete_owned id requester (st : State) fields :
  dbFault st (dbOps st) = None ->
  store st !! id = Some fields ->
  userId fields = requester ->
  RoutesAudio.deleteReflection id requester st
  = match dbFault st (S (dbOps st)) with
    | None =>
        (Returned (mkResponse 200 DeletedJson),
         setStore (delete id (store st)) (snd (dbOperation (snd (dbOperation st)))))
    | Some message =>
        RoutesAudio.onRouteError "Delete error:" "Failed to delete reflection"
          (ThrowError (Some message)) (snd (dbOperation (snd (dbOperation st))))
    end.
Proof.
  intros Hok Hdoc Hown. unfold RoutesAudio.deleteReflection, tryCatch, bind.
  rewrite (docGet_ok id st Hok), Hdoc.
  rewrite (bool_decide_eq_true_2 _ Hown). cbn [negb].
  unfold docDelete, bind, dbOperation. rewrite Hok. cbn [snd dbFault dbOps].
  destruct (dbFault st (S (dbOps st))); reflexivity.
Qed.

Lemma dbOperation_store (st : State) : store (snd (dbOperation st)) = store st.
Proof. apply keepsStore_dbOperation. Qed.

End DeleteFacts.

(** C8. When the store answers the read: an id that is not in the
    collection gives 404; a record whose [userId] differs from the
    requesting [userId] gives 403 and the collection is left as it was, the
    record still in it; an answer of 200 is given only for a record whose
    [userId] equals the requesting one, and it is given, with the record
    deleted, when the store also accepts the delete. *)
Theorem C8_delete_is_owner_only :
  forall (id : string) (requester : option string) (st : Server.State),
    Server.dbFault st (Server.dbOps st) = None ->
    let r := RoutesAudio.deleteReflection id requester st in
    (Server.store st !! id = None ->
     fst r = Returned (Server.mkResponse 404
                         (Server.ErrorJson "Reflection not found" None))
     /\ Server.store (snd r) = Server.store st)
    /\ (forall fields,
          Server.store st !! id = Some fields ->
          userId fields <> requester ->
          fst r = Returned (Server.mkResponse 403 (Server.ErrorJson "Unauthorized" None))
          /\ Server.store (snd r) = Server.store st
          /\ Server.store (snd r) !! id = Some fields)
    /\ (forall resp,
          fst r = Returned resp -> Server.status resp = 200 ->
          exists fields,
            Server.store st !! id = Some fields /\ userId fields = requester
            /\ Server.store (snd r) = delete id (Server.store st))
    /\ (forall fields,
          Server.store st !! id = Some fields ->
          userId fields = requester ->
          Server.dbFault st (S (Server.dbOps st)) = None ->
          fst r = Returned (Server.mkResponse 200 Server.DeletedJson)
          /\ Server.store (snd r) = delete id (Server.store st)
          /\ Server.store (snd r) !! id = None).
Proof.
  intros id requester st Hread r. subst r. repeat apply conj.
  - intros Hdoc. rewrite (delete_missing _ _ _ Hread Hdoc).
    split; [reflexivity|apply dbOperation_store].
  - intros fields Hdoc Hne. rewrite (delete_foreign _ _ _ _ Hread Hdoc Hne).
    cbn [fst snd]. rewrite dbOperation_store. auto.
  - intros resp Hresp Hstatus.
    destruct (Server.store st !! id) as [fields|] eqn:Hdoc.
    + destruct (decide (userId fields = requester)) as [Hown|Hne].
      * exists fields. split; [reflexivity|]. split; [exact Hown|].
        rewrite (delete_owned _ _ _ _ Hread Hdoc Hown) in Hresp |- *.
        destruct (Server.dbFault st (S (Server.dbOps st))).
        -- simpl in Hresp. inversion Hresp; subst resp. discriminate.
        -- reflexivity.
      * rewrite (delete_foreign _ _ _ _ Hread Hdoc Hne) in Hresp.
        inversion Hresp; subst resp. discriminate.
    + rewrite (delete_missing _ _ _ Hread Hdoc) in Hresp.
      inversion Hresp; subst resp. discriminate.
  - intros fields Hdoc Hown Hdel.
    rewrite (delete_owned _ _ _ _ Hread Hdoc Hown), Hdel. cbn [fst snd].
    split; [reflexivity|]. split; [reflexivity|]. apply lookup_delete_eq.
Qed.

Lemma C8_delete_is_owner_only_witness :
  let st := Scenario.server (Scenario.replying "{}") Scenario.oneDocument in
  let stranger := RoutesAudio.deleteReflection "r1" (Some "user-b") st in
  let owner := RoutesAudio.deleteReflection "r1" (Some "user-a") st in
  (fst stranger
   = Returned (Server.mkResponse 403 (Server.ErrorJson "Unauthorized" None))
   /\ Server.store (snd stranger) = Server.store st
   /\ Server.store (snd stranger) !! "r1"
      = Some (fields (Scenario.storedReflection "r1" "2024-05-16")))
  /\ (fst owner = Returned (Server.mkResponse 200 Server.DeletedJson)
      /\ Server.store (snd owner) = delete "r1" (Server.store st)
      /\ Server.store (snd owner) !! "r1" = None)
  /\ (exists fields,
        Server.store st !! "r1" = Some fields /\ userId fields = Some "user-a"
        /\ Server.store (snd owner) = delete "r1" (Server.store st))
  /\ fst (RoutesAudio.deleteReflection "r9" (Some "user-a") st)
     = Returned (Server.mkResponse 404 (Server.ErrorJson "Reflection not found" None)).
Proof.
  pose (st := Scenario.server (Scenario.replying "{}") Scenario.oneDocument).
  destruct (C8_delete_is_owner_only "r1" (Some "user-b") st eq_refl)
    as (_ & Hforeign & _).
  destruct (C8_delete_is_owner_only "r1" (Some "user-a") st eq_refl)
    as (_ & _ & Honly & Howned).
  destruct (C8_delete_is_owner_only "r9" (Some "user-a") st eq_refl)
    as (Hmissing & _).
  split; [|split; [|split]].
  - apply Hforeign; [vm_compute; reflexivity | discriminate].
  - apply (Howned (fields (Scenario.storedReflection "r1" "2024-05-16")));
      vm_compute; reflexivity.
  - apply (Honly (Server.mkResponse 200 Server.DeletedJson));
      vm_compute; reflexivity.
  - apply Hmissing. vm_compute. reflexivity.
Defined.

(** ** The daily analysis route *)

Section DailyFacts.
Import Model Server.
Context {engine : Platform}.

Lemma inputAnalysis_keepsStore req run :
  RoutesAudio.inputAnalysis req = Some run -> keepsStore run.
Proof.
  unfold RoutesAudio.inputAnalysis.
  destruct (reqFile req); [|destruct (truthy (reqTextInput req))];
    intros Heq; inversion Heq; apply keepsStore_liftAi.
Qed.

Lemma inputAnalysis_none req :
  RoutesAudio.inputAnalysis req = None <->
  reqFile req = None /\ truthy (reqTextInput req) = None.
Proof.
  unfold RoutesAudio.inputAnalysis.
  destruct (reqFile req); [|destruct (truthy (reqTextInput req))];
    split; intros Heq; try discriminate; try tauto; destruct Heq; discriminate.
Qed.

(** Whatever [/analyze-daily] of the audio-capable backend does, either
    the collection is as before and the answer (if any) is a 400 for an
    invalid request or a 500, or the analysis has returned a success and
    the answer is a 200 with the record that was added. *)
Lemma analyzeDaily_audio_outcome (req : DailyRequest) (st : State) :
  let r := RoutesAudio.analyzeDaily req st in
  (store (snd r) = store st
   /\ forall resp, fst r = Returned resp ->
        (status resp = 400
         /\ (truthy (reqUserId req) = None
             \/ RoutesAudio.inputAnalysis req = None))
        \/ status resp = 500)
  \/ exists u run a st2 newId fields,
       truthy (reqUserId req) = Some u
       /\ RoutesAudio.inputAnalysis req = Some run
       /\ run (snd (dateOrToday (reqDate req) st)) = (Returned a, st2)
       /\ success a = true
       /\ fst r = Returned (mkResponse 200 (CreatedJson newId fields))
       /\ date fields = Some (effectiveDate (reqDate req) st)
       /\ store st !! newId = None
       /\ store (snd r) = <[newId := fields]> (store st).
Proof.
  intros r.
  destruct (analyzeDaily_audio_paths req st) as (dateStr & st1 & Hdate & Hpath).
  destruct (dateOrToday_spec (reqDate req) st) as (st1' & Hdate' & Hst1 & _).
  rewrite Hdate in Hdate'. inversion Hdate'; subst dateStr st1'. clear Hdate'.
  fold r in Hpath.
  destruct (truthy (reqUserId req)) as [u|] eqn:Hu.
  2: { left. rewrite Hpath. split; [reflexivity|].
       intros resp Hresp. inversion Hresp. left. auto. }
  destruct (RoutesAudio.inputAnalysis req) as [run|] eqn:Hin.
  2: { left. rewrite Hpath. split; [exact Hst1|].
       intros resp Hresp. inversion Hresp. left. auto. }
  pose proof (inputAnalysis_keepsStore req run Hin st1) as Hrun.
  destruct (run st1) as [[a|e] st2] eqn:Erun; cbn [snd] in Hrun.
  2: { left. rewrite Hpath.
       destruct (onRouteError_spec "Analysis error:" "Failed to analyze reflection" e st2)
         as [Hs Hr].
       split; [now rewrite Hs, Hrun|].
       intros resp Hresp. destruct (Hr resp Hresp) as [details ->]. now right. }
  pose proof (saveAnalysis_spec (fun a => ErrorJson "Analysis failed" (error a))
                u (effectiveDate (reqDate req) st) a st2) as Hsave.
  destruct (saveAnalysis _ u (effectiveDate (reqDate req) st) a st2) as [[resp|e] st3].
  - destruct Hsave as [(Hfail & -> & ->) | (Hok & newId & fields & -> & _ & Hd & Hfree & Hst)].
    + left. rewrite Hpath. cbn [fst snd]. split; [now rewrite Hrun|].
      intros resp Hresp. inversion Hresp. now right.
    + right. exists u, run, a, st2, newId, fields.
      rewrite Hpath, Hdate. cbn [fst snd].
      rewrite Erun, Hst, Hrun, Hst1. rewrite Hrun, Hst1 in Hfree. auto 10.
  - left. rewrite Hpath. destruct Hsave as [_ Hst].
    destruct (onRouteError_spec "Analysis error:" "Failed to analyze reflection" e st3)
      as [Hs Hr].
    split; [now rewrite Hs, Hst, Hrun|].
    intros resp Hresp. destruct (Hr resp Hresp) as [details ->]. now right.
Qed.

End DailyFacts.

Section DailyTextFacts.
Import Model Server.
Context {engine : Platform}.

(** The same for the text-only backend. *)
Lemma analyzeDaily_text_outcome (req : DailyRequest) (st : State) :
  let r := RoutesText.analyzeDaily req st in
  let st1 := snd (dateOrToday (reqDate req) (RoutesText.received req st)) in
  (store (snd r) = store st
   /\ forall resp, fst r = Returned resp ->
        (status resp = 400
         /\ (truthy (reqUserId req) = None \/ truthy (reqTextInput req) = None))
        \/ status resp = 500)
  \/ exists u textInput a st2 newId fields,
       truthy (reqUserId req) = Some u
       /\ truthy (reqTextInput req) = Some textInput
       /\ liftAi (GeminiText.analyzeTextReflection textInput) st1 = (Returned a, st2)
       /\ success a = true
       /\ fst r = Returned (mkResponse 200 (CreatedJson newId fields))
       /\ date fields = Some (effectiveDate (reqDate req) st)
       /\ store st !! newId = None
       /\ store (snd r) = <[newId := fields]> (store st).
Proof.
  intros r st1'.
  destruct (analyzeDaily_text_paths req st) as (st1 & Hdate & Hpath).
  assert (Hst1 : store st1 = store st).
  { pose proof (keepsStore_dateOrToday (reqDate req) (RoutesText.received req st)) as Hk.
    rewrite Hdate in Hk. exact Hk. }
  assert (Hsame : st1' = st1) by (subst st1'; now rewrite Hdate).
  subst st1'. rewrite Hsame. clear Hsame.
  fold r in Hpath.
  destruct (truthy (reqUserId req)) as [u|] eqn:Hu.
  2: { left. rewrite Hpath. split; [reflexivity|].
       intros resp Hresp. inversion Hresp. left. auto. }
  destruct (truthy (reqTextInput req)) as [textInput|] eqn:Htext.
  2: { left. rewrite Hpath. split; [reflexivity|].
       intros resp Hresp. inversion Hresp. left. auto. }
  pose proof (keepsStore_liftAi (GeminiText.analyzeTextReflection textInput) st1) as Hrun.
  destruct (liftAi (GeminiText.analyzeTextReflection textInput) st1)
    as [[a|e] st2] eqn:Erun; cbn [snd] in Hrun.
  2: { left. rewrite Hpath. cbn [fst snd].
       split; [now rewrite (keepsStore_consoleError _ _ st2), Hrun|].
       intros resp Hresp. inversion Hresp. now right. }
  pose proof (saveAnalysis_spec (fun a => FailureJson (error a))
                u (effectiveDate (reqDate req) st) a st2) as Hsave.
  destruct (saveAnalysis _ u (effectiveDate (reqDate req) st) a st2) as [[resp|e] st3].
  - destruct Hsave as [(Hfail & -> & ->) | (Hok & newId & fields & -> & _ & Hd & Hfree & Hst)].
    + left. rewrite Hpath. cbn [fst snd]. split; [now rewrite Hrun|].
      intros resp Hresp. inversion Hresp. now right.
    + right. exists u, textInput, a, st2, newId, fields.
      rewrite Hpath. cbn [fst snd].
      rewrite Hst, Hrun, Hst1. rewrite Hrun, Hst1 in Hfree. auto 10.
  - left. rewrite Hpath. destruct Hsave as [_ Hst]. cbn [fst snd].
    split; [now rewrite (keepsStore_consoleError _ _ st3), Hst, Hrun|].
    intros resp Hresp. inversion Hresp. now right.
Qed.

End DailyTextFacts.

Section PipelineFacts.
Import Retrier Model Server.
Context {engine : Platform}.

Lemma keepsAi_ret {A} (v : A) : Pipeline.keepsAi (ret v).
Proof. intros st. reflexivity. Qed.

Lemma keepsAi_throw {A} e : Pipeline.keepsAi (@throw State A e).
Proof. intros st. reflexivity. Qed.

Lemma keepsAi_ofOutcome {A} (o : Outcome A) : Pipeline.keepsAi (ofOutcome o).
Proof. intros st. reflexivity. Qed.

Lemma keepsAi_bind {A B} (m : Task State A) (k : A -> Task State B) :
  Pipeline.keepsAi m -> (forall a, Pipeline.keepsAi (k a)) -> Pipeline.keepsAi (bind m k).
Proof.
  intros Hm Hk st. unfold bind. specialize (Hm st).
  destruct (m st) as [[a|e] st']; cbn [snd] in *.
  - rewrite (Hk a st'). exact Hm.
  - exact Hm.
Qed.

Lemma keepsAi_newDate : Pipeline.keepsAi newDate.
Proof. intros st. reflexivity. Qed.

Lemma keepsAi_respond code b : Pipeline.keepsAi (respond code b).
Proof. intros st. reflexivity. Qed.

Lemma keepsAi_dbOperation : Pipeline.keepsAi dbOperation.
Proof. intros st. unfold dbOperation. destruct (dbFault st (dbOps st)); reflexivity. Qed.

Lemma keepsAi_collectionAdd fields : Pipeline.keepsAi (collectionAdd fields).
Proof.
  apply keepsAi_bind; [apply keepsAi_dbOperation|]. intros _ st. cbv zeta.
  destruct (store st !! autoId st (idsDrawn st)); reflexivity.
Qed.

Lemma keepsAi_dataField analysis key : Pipeline.keepsAi (dataField analysis key).
Proof.
  unfold dataField. destruct (data analysis);
    [apply keepsAi_ofOutcome | apply keepsAi_throw].
Qed.

Lemma keepsAi_reflectionData u d analysis : Pipeline.keepsAi (reflectionData u d analysis).
Proof.
  unfold reflectionData.
  repeat (apply keepsAi_bind; [apply keepsAi_dataField | intros ?]).
  apply keepsAi_bind; [apply keepsAi_newDate | intros ?]. apply keepsAi_ret.
Qed.

Lemma keepsAi_saveAnalysis failure u d analysis :
  Pipeline.keepsAi (saveAnalysis failure u d analysis).
Proof.
  unfold saveAnalysis. destruct (negb (success analysis)); [apply keepsAi_respond|].
  apply keepsAi_bind; [apply keepsAi_reflectionData | intros record].
  apply keepsAi_bind; [apply keepsAi_collectionAdd | intros docId].
  apply keepsAi_respond.
Qed.

Lemma onRouteError_requests label failure e (st : State) :
  requests (inner (ai (snd (RoutesAudio.onRouteError label failure e st))))
  = requests (inner (ai st)).
Proof. destruct e; reflexivity. Qed.

(** With a user and a file, what reaches the model is the audio, at
    least once, and nothing else: the text of the request is not read. *)
Lemma analyzeDaily_sends_the_file (req : DailyRequest) (st : State) u file :
  truthy (reqUserId req) = Some u ->
  reqFile req = Some file ->
  exists k,
    requests (inner (ai (snd (RoutesAudio.analyzeDaily req st))))
    = requests (inner (ai st))
      ++ repeat [InlineData (mimetype file) (buffer file); Text AudioPrompt] (S k).
Proof.
  intros Hu Hfile.
  destruct (analyzeDaily_audio_paths req st) as (dateStr & st1 & Hdate & Hpath).
  destruct (dateOrToday_spec (reqDate req) st) as (st1' & Hdate' & _ & Hai1).
  rewrite Hdate in Hdate'. inversion Hdate'; subst dateStr st1'. clear Hdate'.
  cbv zeta in Hpath. rewrite Hu in Hpath.
  unfold RoutesAudio.inputAnalysis in Hpath. rewrite Hfile in Hpath.
  destruct (gateway_sends "Gemini analysis error:"
              [InlineData (mimetype file) (buffer file); Text AudioPrompt] (ai st1))
    as [k Hk].
  exists k. rewrite <- Hai1.
  unfold liftAi, GeminiAudio.analyzeAudioReflection in Hpath.
  destruct (tryCatch
              (GeminiAudio.attempt
                 [InlineData (mimetype file) (buffer file); Text AudioPrompt])
              (GeminiAudio.onError "Gemini analysis error:") (ai st1))
    as [[a|e] w2]; cbn [snd] in Hk.
  - pose proof (keepsAi_saveAnalysis (fun a => ErrorJson "Analysis failed" (error a))
                  u (effectiveDate (reqDate req) st) a (setAi w2 st1)) as Hsave.
    destruct (saveAnalysis _ u (effectiveDate (reqDate req) st) a (setAi w2 st1))
      as [[resp|e] st3]; cbn [snd] in Hsave; rewrite Hpath.
    + cbn [snd]. rewrite Hsave. exact Hk.
    + rewrite onRouteError_requests, Hsave. exact Hk.
  - rewrite Hpath, onRouteError_requests. exact Hk.
Qed.

(** The error middleware answers, logs, and touches neither the
    collection nor the model. *)
Lemma errorMiddleware_spec nodeEnv code message (st : State) :
  let r := Pipeline.errorMiddleware nodeEnv code message st in
  fst r = Returned
            (if bool_decide (code = Some "LIMIT_FILE_SIZE")
             then mkResponse 400
                    (ErrorJson "File too large" (Some "Maximum file size is 10MB"))
             else mkResponse 500
                    (ErrorJson "Internal server error"
                       (if bool_decide (nodeEnv = Some "development")
                        then message else None)))
  /\ store (snd r) = store st
  /\ requests (inner (ai (snd r))) = requests (inner (ai st)).
Proof.
  unfold Pipeline.errorMiddleware, bind, consoleError, consoleEntry.
  destruct (bool_decide (code = Some "LIMIT_FILE_SIZE")); repeat split.
Qed.

End PipelineFacts.

(** C9 (as amended). The handler of [/analyze-daily] answers 400 when
    [userId] is missing (or empty), and when the request has no input: no
    audio file and no text in the audio-capable backend, no text in the
    text-only backend. It answers 400 in no other case; in particular the
    audio-capable backend accepts a request that carries both an audio file
    and text, and then it is the audio that is sent to the model, and only
    the audio. A request does not reach the handler of the audio-capable
    backend when the middleware ahead of it passes on an error: the error
    middleware then answers 400 "File too large" for the code
    [LIMIT_FILE_SIZE] and 500 for every other error, so that over the whole
    route a 400 is one of these three. A record that is stored carries the
    date of the request, or, when the request has none, the [YYYY-MM-DD]
    part of the ISO form of the server's clock, which for the years 0 to
    9999 is the UTC calendar date. *)
Theorem C9_daily_validation_and_date :
  forall (P : Platform) (req : Server.DailyRequest) (st : Server.State),
    let audio := RoutesAudio.analyzeDaily req st in
    let text := RoutesText.analyzeDaily req st in
    (Server.truthy (Server.reqUserId req) = None ->
     audio = (Returned (Server.mkResponse 400
                          (Server.ErrorJson "User ID is required" None)), st)
     /\ text = (Returned (Server.mkResponse 400
                  (Server.FailureJson (Some "userId and textInput are required"))),
               RoutesText.received req st))
    /\ (forall u,
          Server.truthy (Server.reqUserId req) = Some u ->
          Server.reqFile req = None ->
          Server.truthy (Server.reqTextInput req) = None ->
          fst audio = Returned (Server.mkResponse 400
                        (Server.ErrorJson "Audio file or text input required" None))
          /\ Server.store (snd audio) = Server.store st)
    /\ (Server.truthy (Server.reqTextInput req) = None ->
        text = (Returned (Server.mkResponse 400
                  (Server.FailureJson (Some "userId and textInput are required"))),
                RoutesText.received req st))
    /\ (forall resp,
          fst audio = Returned resp -> Server.status resp = 400 ->
          Server.truthy (Server.reqUserId req) = None
          \/ (Server.reqFile req = None
              /\ Server.truthy (Server.reqTextInput req) = None))
    /\ (forall resp,
          fst text = Returned resp -> Server.status resp = 400 ->
          Server.truthy (Server.reqUserId req) = None
          \/ Server.truthy (Server.reqTextInput req) = None)
    /\ (forall newId fields,
          fst audio = Returned (Server.mkResponse 200 (Server.CreatedJson newId fields))
          \/ fst text = Returned (Server.mkResponse 200 (Server.CreatedJson newId fields)) ->
          date fields = Some (Server.effectiveDate (Server.reqDate req) st))
    /\ (Server.truthy (Server.reqDate req) = None ->
        0 <= year (Server.clock st (Server.ticks st)) <= 9999 ->
        Server.effectiveDate (Server.reqDate req) st
        = IsoDate.calendarDate (Server.clock st (Server.ticks st)))
    /\ (forall u file,
          Server.truthy (Server.reqUserId req) = Some u ->
          Server.reqFile req = Some file ->
          exists k,
            Model.requests (Retrier.inner (Server.ai (snd audio)))
            = Model.requests (Retrier.inner (Server.ai st))
              ++ repeat [Model.InlineData (Server.mimetype file) (Server.buffer file);
                         Model.Text Model.AudioPrompt] (S k))
    /\ (forall nodeEnv,
          Pipeline.postAnalyzeDaily nodeEnv (Pipeline.Accepted req) st = audio
          /\ (forall code message,
                let refused := Pipeline.postAnalyzeDaily nodeEnv
                                 (Pipeline.Refused code message) st in
                fst refused
                = Returned
                    (if bool_decide (code = Some "LIMIT_FILE_SIZE")
                     then Server.mkResponse 400
                            (Server.ErrorJson "File too large"
                               (Some "Maximum file size is 10MB"))
                     else Server.mkResponse 500
                            (Server.ErrorJson "Internal server error"
                               (if bool_decide (nodeEnv = Some "development")
                                then message else None)))
                /\ Server.store (snd refused) = Server.store st
                /\ Model.requests (Retrier.inner (Server.ai (snd refused)))
                   = Model.requests (Retrier.inner (Server.ai st)))
          /\ (forall p resp,
                fst (Pipeline.postAnalyzeDaily nodeEnv p st) = Returned resp ->
                Server.status resp = 400 ->
                (exists message,
                   p = Pipeline.Refused (Some "LIMIT_FILE_SIZE") message)
                \/ (exists accepted,
                      p = Pipeline.Accepted accepted
                      /\ (Server.truthy (Server.reqUserId accepted) = None
                          \/ (Server.reqFile accepted = None
                              /\ Server.truthy (Server.reqTextInput accepted)
                                 = None))))).
Proof.
  intros P req st audio text.
  pose proof (analyzeDaily_audio_paths req st) as (d1 & s1 & Hd1 & Hap).
  pose proof (analyzeDaily_text_paths req st) as (s2 & Hd2 & Htp).
  pose proof (analyzeDaily_audio_outcome req st) as Hao.
  pose proof (analyzeDaily_text_outcome req st) as Hto.
  cbv zeta in Hap, Htp, Hao, Hto. fold audio in Hap, Hao. fold text in Htp, Hto.
  repeat apply conj.
  - intros Hu. rewrite Hu in Hap, Htp. auto.
  - intros u Hu Hfile Htext. rewrite Hu in Hap.
    rewrite (proj2 (inputAnalysis_none req) (conj Hfile Htext)) in Hap.
    rewrite Hap. cbn [fst snd]. split; [reflexivity|].
    pose proof (keepsStore_dateOrToday (Server.reqDate req) st) as Hk.
    rewrite Hd1 in Hk. exact Hk.
  - intros Htext. rewrite Htext in Htp.
    destruct (Server.truthy (Server.reqUserId req)); exact Htp.
  - intros resp Hresp Hstatus. destruct Hao as [[_ Hresps] | Hok].
    + destruct (Hresps resp Hresp) as [[_ [Hu | Hin]] | H500].
      * now left.
      * right. now apply inputAnalysis_none.
      * rewrite H500 in Hstatus. discriminate.
    + destruct Hok as (u & run & a & st2 & newId & fields & _ & _ & _ & _ & Hr & _).
      rewrite Hr in Hresp. inversion Hresp; subst resp. discriminate.
  - intros resp Hresp Hstatus. destruct Hto as [[_ Hresps] | Hok].
    + destruct (Hresps resp Hresp) as [[_ Hor] | H500]; [exact Hor|].
      rewrite H500 in Hstatus. discriminate.
    + destruct Hok as (u & t & a & st2 & newId & fields & _ & _ & _ & _ & Hr & _).
      rewrite Hr in Hresp. inversion Hresp; subst resp. discriminate.
  - intros newId fields [Hr | Hr].
    + destruct Hao as [[_ Hresps] | Hok].
      * destruct (Hresps _ Hr) as [[H400 _] | H500]; discriminate.
      * destruct Hok as (u & run & a & st2 & newId' & fields' & _ & _ & _ & _ & Hr' & Hd & _).
        rewrite Hr in Hr'. inversion Hr'; subst. exact Hd.
    + destruct Hto as [[_ Hresps] | Hok].
      * destruct (Hresps _ Hr) as [[H400 _] | H500]; discriminate.
      * destruct Hok as (u & t & a & st2 & newId' & fields' & _ & _ & _ & _ & Hr' & Hd & _).
        rewrite Hr in Hr'. inversion Hr'; subst. exact Hd.
  - intros Hdate Hyear. unfold Server.effectiveDate. rewrite Hdate.
    now apply isoDay_calendarDate.
  - intros u file Hu Hfile. exact (analyzeDaily_sends_the_file req st u file Hu Hfile).
  - intros nodeEnv. split; [reflexivity|]. split.
    + intros code message refused.
      exact (errorMiddleware_spec nodeEnv code message st).
    + intros [accepted | code message] resp Hresp Hstatus.
      * right. exists accepted. split; [reflexivity|].
        cbn [Pipeline.postAnalyzeDaily] in Hresp.
        destruct (analyzeDaily_audio_outcome accepted st) as [[_ Hresps] | Hok].
        -- destruct (Hresps resp Hresp) as [[_ [Hu | Hin]] | H500].
           ++ now left.
           ++ right. now apply inputAnalysis_none.
           ++ rewrite H500 in Hstatus. discriminate.
        -- destruct Hok
             as (u & run & a & st2 & newId & fields & _ & _ & _ & _ & Hr & _).
           rewrite Hr in Hresp. inversion Hresp; subst resp. discriminate.
      * left. exists message.
        cbn [Pipeline.postAnalyzeDaily] in Hresp.
        rewrite (proj1 (errorMiddleware_spec nodeEnv code message st)) in Hresp.
        destruct (bool_decide (code = Some "LIMIT_FILE_SIZE")) eqn:Hcode.
        -- apply bool_decide_eq_true in Hcode. subst code. reflexivity.
        -- injection Hresp as <-. discriminate Hstatus.
Qed.

Lemma C9_daily_validation_and_date_witness :
  let st := Scenario.server (Scenario.replying Scenario.sampleJson) ∅ in
  let bad := Server.mkResponse 400
               (Server.FailureJson (Some "userId and textInput are required")) in
  RoutesAudio.analyzeDaily (engine := referencePlatform) Scenario.anonymousRequest st
  = (Returned (Server.mkResponse 400 (Server.ErrorJson "User ID is required" None)), st)
  /\ fst (RoutesAudio.analyzeDaily (engine := referencePlatform)
            Scenario.emptyRequest st)
     = Returned (Server.mkResponse 400
                   (Server.ErrorJson "Audio file or text input required" None))
  /\ fst (RoutesText.analyzeDaily (engine := referencePlatform)
            Scenario.emptyRequest st) = Returned bad
  /\ (Server.truthy (Server.reqUserId Scenario.emptyRequest) = None
      \/ (Server.reqFile Scenario.emptyRequest = None
          /\ Server.truthy (Server.reqTextInput Scenario.emptyRequest) = None))
  /\ (Server.truthy (Server.reqUserId Scenario.emptyRequest) = None
      \/ Server.truthy (Server.reqTextInput Scenario.emptyRequest) = None)
  /\ date Scenario.savedRecord = Some (Server.effectiveDate None st)
  /\ Server.effectiveDate None st = IsoDate.calendarDate Scenario.clockAt
  /\ (exists k,
        Model.requests (Retrier.inner (Server.ai (snd
          (RoutesAudio.analyzeDaily (engine := referencePlatform)
             Scenario.textAndAudioRequest st))))
        = Model.requests (Retrier.inner (Server.ai st))
          ++ repeat [Model.InlineData "audio/webm" "RIFF"; Model.Text Model.AudioPrompt]
                    (S k))
  /\ fst (Pipeline.postAnalyzeDaily (engine := referencePlatform) None
            Scenario.oversized st)
     = Returned (Server.mkResponse 400
                   (Server.ErrorJson "File too large" (Some "Maximum file size is 10MB")))
  /\ fst (Pipeline.postAnalyzeDaily (engine := referencePlatform) (Some "production")
            (Pipeline.Refused None (Some "Unexpected end of JSON input")) st)
     = Returned (Server.mkResponse 500 (Server.ErrorJson "Internal server error" None)).
Proof.
  pose (st := Scenario.server (Scenario.replying Scenario.sampleJson) ∅).
  destruct (C9_daily_validation_and_date referencePlatform
              Scenario.anonymousRequest st) as (Hanonymous & _).
  destruct (C9_daily_validation_and_date referencePlatform
              Scenario.emptyRequest st)
    as (_ & Hempty & Hnotext & Honly & Honly' & _).
  destruct (C9_daily_validation_and_date referencePlatform
              Scenario.textRequest st)
    as (_ & _ & _ & _ & _ & Hdate & Hday & _ & Hpipe).
  destruct (C9_daily_validation_and_date referencePlatform
              Scenario.textAndAudioRequest st)
    as (_ & _ & _ & _ & _ & _ & _ & Haudio & _).
  repeat apply conj.
  - exact (proj1 (Hanonymous eq_refl)).
  - exact (proj1 (Hempty "user-a" eq_refl eq_refl eq_refl)).
  - exact (f_equal fst (Hnotext eq_refl)).
  - apply (Honly (Server.mkResponse 400
                    (Server.ErrorJson "Audio file or text input required" None)));
      vm_compute; reflexivity.
  - apply (Honly' (Server.mkResponse 400
                     (Server.FailureJson (Some "userId and textInput are required"))));
      vm_compute; reflexivity.
  - apply (Hdate "auto-000"). left. vm_compute. reflexivity.
  - apply Hday; [reflexivity | vm_compute; split; discriminate].
  - exact (Haudio "user-a" (Server.mkFile "RIFF" "audio/webm") eq_refl eq_refl).
  - exact (proj1 (proj1 (proj2 (Hpipe None))
                    (Some "LIMIT_FILE_SIZE") (Some "File too large"))).
  - exact (proj1 (proj1 (proj2 (Hpipe (Some "production")))
                    None (Some "Unexpected end of JSON input"))).
Defined.

(** C9 (as stated) fails where it requires exactly one of the two inputs:
    a request with both a text and an audio file is not refused; the
    audio-capable backend analyses the audio and stores the record. *)
Lemma C9_text_and_audio_are_accepted :
  let st := Scenario.server (Scenario.replying Scenario.sampleJson) ∅ in
  let r := RoutesAudio.analyzeDaily (engine := referencePlatform)
             Scenario.textAndAudioRequest st in
  Server.reqTextInput Scenario.textAndAudioRequest = Some "I felt calm today"
  /\ Server.reqFile Scenario.textAndAudioRequest
     = Some (Server.mkFile "RIFF" "audio/webm")
  /\ fst r = Returned (Server.mkResponse 200
                         (Server.CreatedJson "auto-000" Scenario.savedRecord))
  /\ Model.requests (Retrier.inner (Server.ai (snd r)))
     = [[Model.InlineData "audio/webm" "RIFF"; Model.Text Model.AudioPrompt]]
  /\ Server.store (snd r) !! "auto-000" = Some Scenario.savedRecord.
Proof. vm_compute. repeat split. Qed.

(** C10 (as amended). When the analysis [/analyze-daily] awaits returns a
    failure, the handler answers 500 with the error of the analysis and
    the collection is left as it was. In every run the collection is
    either unchanged or holds exactly one more record, and it holds one
    more only when the analysis returned a success and the answer is
    200. *)
Theorem C10_failed_analysis_stores_nothing :
  forall (P : Platform) (req : Server.DailyRequest) (st : Server.State),
    let audio := RoutesAudio.analyzeDaily req st in
    let text := RoutesText.analyzeDaily req st in
    let st1 := snd (Server.dateOrToday (Server.reqDate req) st) in
    let st1' := snd (Server.dateOrToday (Server.reqDate req)
                       (RoutesText.received req st)) in
    (forall u run a st2,
       Server.truthy (Server.reqUserId req) = Some u ->
       RoutesAudio.inputAnalysis req = Some run ->
       run st1 = (Returned a, st2) ->
       Model.success a = false ->
       audio = (Returned (Server.mkResponse 500
                            (Server.ErrorJson "Analysis failed" (Model.error a))), st2)
       /\ Server.store (snd audio) = Server.store st)
    /\ (forall u textInput a st2,
          Server.truthy (Server.reqUserId req) = Some u ->
          Server.truthy (Server.reqTextInput req) = Some textInput ->
          Server.liftAi (GeminiText.analyzeTextReflection textInput) st1'
          = (Returned a, st2) ->
          Model.success a = false ->
          text = (Returned (Server.mkResponse 500
                              (Server.FailureJson (Model.error a))), st2)
          /\ Server.store (snd text) = Server.store st)
    /\ (Server.store (snd audio) = Server.store st
        \/ exists run a st2 newId fields,
             RoutesAudio.inputAnalysis req = Some run
             /\ run st1 = (Returned a, st2)
             /\ Model.success a = true
             /\ fst audio = Returned (Server.mkResponse 200
                                        (Server.CreatedJson newId fields))
             /\ Server.store st !! newId = None
             /\ Server.store (snd audio) = <[newId := fields]> (Server.store st))
    /\ (Server.store (snd text) = Server.store st
        \/ exists textInput a st2 newId fields,
             Server.truthy (Server.reqTextInput req) = Some textInput
             /\ Server.liftAi (GeminiText.analyzeTextReflection textInput) st1'
                = (Returned a, st2)
             /\ Model.success a = true
             /\ fst text = Returned (Server.mkResponse 200
                                       (Server.CreatedJson newId fields))
             /\ Server.store st !! newId = None
             /\ Server.store (snd text) = <[newId := fields]> (Server.store st)).
Proof.
  intros P req st audio text st1 st1'.
  pose proof (analyzeDaily_audio_paths req st) as (d1 & s1 & Hd1 & Hap).
  pose proof (analyzeDaily_text_paths req st) as (s2 & Hd2 & Htp).
  cbv zeta in Hap, Htp. fold audio in Hap. fold text in Htp.
  assert (Hs1 : s1 = st1) by (subst st1; now rewrite Hd1).
  assert (Hs2 : s2 = st1') by (subst st1'; now rewrite Hd2).
  assert (Hd : d1 = Server.effectiveDate (Server.reqDate req) st).
  { destruct (dateOrToday_spec (Server.reqDate req) st) as (s & Hspec & _).
    rewrite Hd1 in Hspec. now inversion Hspec. }
  subst s1 s2 d1.
  assert (Hkeep : Server.store st1 = Server.store st)
    by (subst st1; apply keepsStore_dateOrToday).
  assert (Hkeep' : Server.store st1' = Server.store st)
    by (subst st1'; now rewrite keepsStore_dateOrToday).
  repeat apply conj.
  - intros u run a st2 Hu Hin Hrun Hfail.
    rewrite Hu, Hin, Hrun in Hap. unfold Server.saveAnalysis in Hap.
    rewrite Hfail in Hap. cbn in Hap. rewrite Hap. split; [reflexivity|].
    cbn [snd].
    pose proof (inputAnalysis_keepsStore req run Hin st1) as Hr.
    rewrite Hrun in Hr. cbn [snd] in Hr. now rewrite Hr.
  - intros u textInput a st2 Hu Htext Hrun Hfail.
    rewrite Hu, Htext, Hrun in Htp. unfold Server.saveAnalysis in Htp.
    rewrite Hfail in Htp. cbn in Htp. rewrite Htp. split; [reflexivity|].
    cbn [snd].
    pose proof (keepsStore_liftAi (GeminiText.analyzeTextReflection textInput) st1') as Hr.
    rewrite Hrun in Hr. cbn [snd] in Hr. now rewrite Hr.
  - destruct (analyzeDaily_audio_outcome req st) as [[Hsame _] | Hok].
    + now left.
    + right. destruct Hok as (u & run & a & st2 & newId & fields
                              & _ & Hin & Hrun & Hsucc & Hr & _ & Hfree & Hst).
      exists run, a, st2, newId, fields. auto 10.
  - destruct (analyzeDaily_text_outcome req st) as [[Hsame _] | Hok].
    + now left.
    + right. destruct Hok as (u & t & a & st2 & newId & fields
                              & _ & Ht & Hrun & Hsucc & Hr & _ & Hfree & Hst).
      exists t, a, st2, newId, fields. auto 10.
Qed.

Lemma C10_failed_analysis_stores_nothing_witness :
  let st := Scenario.server (Scenario.replying "oops") ∅ in
  let audio := RoutesAudio.analyzeDaily (engine := referencePlatform)
                 Scenario.textRequest st in
  let text := RoutesText.analyzeDaily (engine := referencePlatform)
                Scenario.textRequest st in
  (fst audio = Returned (Server.mkResponse 500
                 (Server.ErrorJson "Analysis failed" (Some "Unexpected token in JSON")))
   /\ Server.store (snd audio) = ∅)
  /\ (fst text = Returned (Server.mkResponse 500
                   (Server.FailureJson (Some "Invalid AI response format")))
      /\ Server.store (snd text) = ∅).
Proof.
  pose (st := Scenario.server (Scenario.replying "oops") ∅).
  pose (st1 := snd (Server.dateOrToday (Server.reqDate Scenario.textRequest) st)).
  pose (st1' := snd (Server.dateOrToday (Server.reqDate Scenario.textRequest)
                       (RoutesText.received Scenario.textRequest st))).
  destruct (C10_failed_analysis_stores_nothing referencePlatform
              Scenario.textRequest st) as (Haudio & Htext & _).
  split.
  - destruct (Haudio "user-a"
                (Server.liftAi (GeminiAudio.analyzeTextReflection
                                  (engine := referencePlatform) "I felt calm today"))
                (Model.failed (Some "Unexpected token in JSON"))
                (snd (Server.liftAi (GeminiAudio.analyzeTextReflection
                                       (engine := referencePlatform)
                                       "I felt calm today") st1))
                eq_refl eq_refl) as [Hres Hstore].
    + vm_compute. reflexivity.
    + reflexivity.
    + split; [|exact Hstore]. fold st. rewrite Hres. reflexivity.
  - destruct (Htext "user-a" "I felt calm today"
                (Model.failed (Some "Invalid AI response format"))
                (snd (Server.liftAi (GeminiText.analyzeTextReflection
                                       (engine := referencePlatform)
                                       "I felt calm today") st1'))
                eq_refl eq_refl) as [Hres Hstore].
    + vm_compute. reflexivity.
    + reflexivity.
    + split; [|exact Hstore]. fold st. rewrite Hres. reflexivity.
Defined.

(** C10 (as stated) fails in one direction: when the service answers
    [null], the analysis returns a success whose data is [null]; the
    handler then fails on [analysis.data.transcript], answers 500 and
    stores nothing. The analysis succeeded and no record is persisted. *)
Lemma C10_success_without_record :
  let st := Scenario.server (Scenario.replying "null") ∅ in
  let st1 := snd (Server.dateOrToday (Server.reqDate Scenario.textRequest) st) in
  let r := RoutesAudio.analyzeDaily (engine := referencePlatform)
             Scenario.textRequest st in
  fst (Server.liftAi (GeminiAudio.analyzeTextReflection (engine := referencePlatform)
                        "I felt calm today") st1)
  = Returned (Model.succeeded JNull)
  /\ Model.success (Model.succeeded JNull) = true
  /\ fst r = Returned (Server.mkResponse 500
               (Server.ErrorJson "Failed to analyze reflection"
                  (Some "Cannot read properties of null (reading 'transcript')")))
  /\ Server.store (snd r) = ∅.
Proof. vm_compute. repeat split. Qed.

(** * Further properties *)

(** X1. With [maxRetries] zero or negative the loop body never runs: the
    operation is not called, nothing is slept or logged, and the promise
    rejects with [lastError], which is still [undefined]. *)
Theorem retry_without_attempts :
  forall (S T : Type) (fn : S -> Outcome T * S) (maxRetries initialDelay : Z)
         (w : Retrier.World S),
    maxRetries <= 0 ->
    Retrier.retryWithBackoff fn maxRetries initialDelay w = (Threw ThrowUndefined, w).
Proof.
  intros S T fn maxRetries initialDelay w Hmax.
  unfold Retrier.retryWithBackoff.
  replace (Z.to_nat maxRetries) with 0%nat by lia.
  reflexivity.
Qed.

Lemma retry_without_attempts_witness :
  Retrier.retryWithBackoff Scenario.busyTwice 0 2000 Scenario.idle
  = (Threw ThrowUndefined, Scenario.idle)
  /\ Retrier.retryWithBackoff Scenario.busyTwice (-1) 2000 Scenario.idle
     = (Threw ThrowUndefined, Scenario.idle).
Proof.
  split.
  - apply (retry_without_attempts nat string Scenario.busyTwice 0 2000 Scenario.idle). lia.
  - apply (retry_without_attempts nat string Scenario.busyTwice (-1) 2000 Scenario.idle). lia.
Defined.

(** X2. For any operation and [maxRetries >= 1], the retrier calls the
    operation [n] times with [1 <= n <= maxRetries]. Every call but the
    last rejected with a rate-limit signal; between two calls it slept
    once, so the sleeps are [initialDelay * 2^i] for [i < n - 1], each
    announced by one log line. The promise settles as the last call did
    (with the TypeError of [error.message] when that call rejected with
    [undefined]), and a last call that met the rate limit was call number
    [maxRetries]. *)
Theorem retry_trace :
  forall (S T : Type) (fn : S -> Outcome T * S) (maxRetries initialDelay : Z)
         (w : Retrier.World S),
    1 <= maxRetries ->
    let r := Retrier.retryWithBackoff fn maxRetries initialDelay w in
    exists n : nat,
      (1 <= n <= Z.to_nat maxRetries)%nat
      /\ Retrier.inner (snd r) = Retrier.afterCalls fn n (Retrier.inner w)
      /\ Retrier.slept (snd r)
         = Retrier.slept w ++ Retrier.backoffDelays initialDelay (n - 1)
      /\ Retrier.console (snd r)
         = Retrier.console w
           ++ Retrier.retryLogsFrom initialDelay maxRetries 0 (n - 1)
      /\ (forall i, (i < n - 1)%nat ->
            exists m,
              fst (fn (Retrier.afterCalls fn i (Retrier.inner w)))
              = Threw (ThrowError m)
              /\ Retrier.isRateLimited m = true)
      /\ match fst (fn (Retrier.afterCalls fn (n - 1) (Retrier.inner w))) with
         | Returned v => fst r = Returned v
         | Threw ThrowUndefined => fst r = Threw typeErrorNoMessage
         | Threw (ThrowError m) =>
             fst r = Threw (ThrowError m)
             /\ (Retrier.isRateLimited m = true -> n = Z.to_nat maxRetries)
         end.
Proof.
  intros S T fn maxRetries initialDelay w Hmax r. subst r.
  unfold Retrier.retryWithBackoff.
  destruct (Z.to_nat maxRetries) as [|k] eqn:Hk; [lia|].
  destruct (retryLoop_trace fn maxRetries initialDelay k 0 ThrowUndefined w ltac:(lia))
    as (n & Hn & Hinner & Hslept & Hconsole & Hbefore & Hlast).
  exists (Datatypes.S n).
  replace (Datatypes.S n - 1)%nat with n by lia.
  split; [lia|].
  split; [exact Hinner|].
  split; [rewrite Hslept, delaysFrom_zero; reflexivity|].
  split; [exact Hconsole|].
  split; [exact Hbefore|].
  destruct (fst (fn (Retrier.afterCalls fn n (Retrier.inner w)))) as [v|[|m]];
    try exact Hlast.
  destruct Hlast as [Hr Hm]. split; [exact Hr|]. intros H. rewrite (Hm H). reflexivity.
Qed.

Lemma retry_trace_witness :
  let r := Retrier.retryWithBackoff Scenario.busyTwice 5 1000 Scenario.idle in
  exists n : nat,
    (1 <= n <= 5)%nat
    /\ Retrier.inner (snd r) = Retrier.afterCalls Scenario.busyTwice n 0%nat
    /\ Retrier.slept (snd r) = [] ++ Retrier.backoffDelays 1000 (n - 1)
    /\ Retrier.console (snd r) = [] ++ Retrier.retryLogsFrom 1000 5 0 (n - 1)
    /\ (forall i, (i < n - 1)%nat ->
          exists m,
            fst (Scenario.busyTwice (Retrier.afterCalls Scenario.busyTwice i 0%nat))
            = Threw (ThrowError m)
            /\ Retrier.isRateLimited m = true)
    /\ match fst (Scenario.busyTwice
                    (Retrier.afterCalls Scenario.busyTwice (n - 1) 0%nat)) with
       | Returned v => fst r = Returned v
       | Threw ThrowUndefined => fst r = Threw typeErrorNoMessage
       | Threw (ThrowError m) =>
           fst r = Threw (ThrowError m)
           /\ (Retrier.isRateLimited m = true -> n = 5%nat)
       end.
Proof.
  apply (retry_trace nat string Scenario.busyTwice 5 1000 Scenario.idle). lia.
Defined.

(** ** The two fence patterns compared *)

Section PatternFacts.
Import JsString Fence.

Lemma whiteSpace_not_fence c s :
  isWhiteSpace c = true -> startsWith fence (String c s) = false.
Proof.
  intros Hc. cbn [startsWith fence].
  destruct (Ascii.eqb "`" c) eqn:E; [|reflexivity].
  apply Ascii.eqb_eq in E. subst c. discriminate Hc.
Qed.

(** After an opening fence the pattern with [\s*] captures what the
    pattern without it captures, less the leading white space. *)
Lemma spacesThenCapture_lazy : forall s,
  spacesThenCapture s = option_map trimStart (lazyUntilFence s).
Proof.
  induction s as [|c s IH].
  - reflexivity.
  - cbn [spacesThenCapture]. destruct (isWhiteSpace c) eqn:Hc.
    + rewrite IH.
      unfold lazyUntilFence; fold lazyUntilFence.
      rewrite (whiteSpace_not_fence c s Hc).
      destruct (lazyUntilFence s) as [x|]; cbn [option_map trimStart].
      * rewrite Hc. reflexivity.
      * reflexivity.
    + unfold lazyUntilFence; fold lazyUntilFence.
      destruct (startsWith fence (String c s)); [reflexivity|].
      destruct (lazyUntilFence s) as [x|]; cbn [option_map trimStart].
      * rewrite Hc. reflexivity.
      * reflexivity.
Qed.

Lemma matchHere_lazy s :
  matchHere spacesThenCapture s = option_map trimStart (matchHere lazyUntilFence s).
Proof.
  unfold matchHere.
  destruct (stripPrefix fence s) as [r|]; [|reflexivity].
  destruct (stripPrefix "json" r) as [r'|].
  - rewrite (spacesThenCapture_lazy r'), (spacesThenCapture_lazy r).
    destruct (lazyUntilFence r'); reflexivity.
  - apply spacesThenCapture_lazy.
Qed.

Lemma search_lazy : forall s,
  search spacesThenCapture s = option_map trimStart (search lazyUntilFence s).
Proof.
  induction s as [|c s IH].
  - cbn [search]. rewrite matchHere_lazy.
    destruct (matchHere lazyUntilFence EmptyString); reflexivity.
  - cbn [search]. rewrite matchHere_lazy, IH.
    destruct (matchHere lazyUntilFence (String c s)); reflexivity.
Qed.

Lemma lazyUntilFence_no_fence : forall s,
  includes fence s = false -> lazyUntilFence s = None.
Proof.
  induction s as [|c s IH]; intros H.
  - reflexivity.
  - unfold lazyUntilFence; fold lazyUntilFence.
    rewrite (includes_startsWith _ _ H), (IH (includes_cons _ _ _ H)). reflexivity.
Qed.

Lemma backtick_fence : forall s, includes "`" s = false -> includes fence s = false.
Proof.
  induction s as [|c s IH]; intros H.
  - reflexivity.
  - pose proof (includes_startsWith _ _ H) as Hs.
    cbn [startsWith] in Hs. rewrite andb_true_r in Hs.
    cbn [includes startsWith fence]. rewrite Hs. cbn [andb orb].
    apply IH. exact (includes_cons _ _ _ H).
Qed.

Lemma stripPrefix_suffix p : forall s r a,
  stripPrefix p s = Some r -> includes a s = false -> includes a r = false.
Proof.
  induction p as [|x p IH]; intros s r a H Ha.
  - cbn in H. congruence.
  - destruct s as [|y s]; cbn [stripPrefix] in H; [discriminate|].
    destruct (Ascii.eqb x y); [|discriminate].
    apply (IH s r a H). exact (includes_cons _ _ _ Ha).
Qed.

(** A text that starts with three backticks and has no other. *)
Lemma search_unclosed afterTag rest :
  (forall s, includes fence s = false -> afterTag s = None) ->
  includes "`" rest = false ->
  search afterTag (fence +:+ rest) = None.
Proof.
  intros Hafter Hrest.
  pose proof (backtick_fence rest Hrest) as Hfence.
  pose proof (includes_startsWith _ _ Hrest) as Hfirst.
  change (fence +:+ rest) with (String "`" (String "`" (String "`" rest))).
  cbn [search].
  assert (H0 : matchHere afterTag (String "`" (String "`" (String "`" rest))) = None).
  { unfold matchHere.
    change (stripPrefix fence (String "`" (String "`" (String "`" rest))))
      with (Some rest).
    cbv beta iota.
    destruct (stripPrefix "json" rest) as [r'|] eqn:E.
    - rewrite (Hafter r' (stripPrefix_suffix _ _ _ _ E Hfence)).
      apply Hafter. exact Hfence.
    - apply Hafter. exact Hfence. }
  assert (Hone : stripPrefix "`" rest = None)
    by (apply stripPrefix_startsWith; exact Hfirst).
  assert (H1 : matchHere afterTag (String "`" (String "`" rest)) = None).
  { unfold matchHere.
    change (stripPrefix fence (String "`" (String "`" rest)))
      with (stripPrefix "`" rest).
    rewrite Hone. reflexivity. }
  assert (H2 : matchHere afterTag (String "`" rest) = None).
  { unfold matchHere.
    change (stripPrefix fence (String "`" rest)) with (stripPrefix "``" rest).
    destruct rest as [|c rest']; [reflexivity|].
    cbn [stripPrefix] in Hone |- *.
    destruct (Ascii.eqb "`" c); [discriminate Hone|reflexivity]. }
  rewrite H0, H1, H2.
  apply search_no_fence. exact Hfence.
Qed.

Lemma spacesThenCapture_no_fence s :
  includes fence s = false -> spacesThenCapture s = None.
Proof.
  intros H. rewrite spacesThenCapture_lazy, (lazyUntilFence_no_fence s H). reflexivity.
Qed.

(** Text before the opening fence, without a backtick, is skipped. *)
Lemma search_skips afterTag x : forall pre,
  includes "`" pre = false ->
  search afterTag (pre +:+ x) = search afterTag x.
Proof.
  induction pre as [|c pre IH]; intros H.
  - reflexivity.
  - change (String c pre +:+ x) with (String c (pre +:+ x)).
    cbn [search].
    pose proof (includes_startsWith _ _ H) as Hs.
    cbn [startsWith] in Hs. rewrite andb_true_r in Hs.
    unfold matchHere at 1. cbn [stripPrefix fence]. rewrite Hs.
    apply IH. exact (includes_cons _ _ _ H).
Qed.

Lemma startsWith_closing_then body post :
  startsWith fence (body +:+ newline +:+ fence +:+ post) = true ->
  startsWith fence body = true.
Proof.
  destruct body as [|c1 [|c2 [|c3 b]]]; simpl;
    rewrite ?andb_true_iff, ?andb_false_r; intuition (try discriminate).
Qed.

Lemma lazyUntilFence_closing_then post : forall body,
  includes fence body = false ->
  lazyUntilFence (body +:+ newline +:+ fence +:+ post) = Some (body +:+ newline).
Proof.
  induction body as [|c body IH]; intros H.
  - reflexivity.
  - assert (Hs : startsWith fence (String c body +:+ newline +:+ fence +:+ post) = false).
    { destruct (startsWith fence (String c body +:+ newline +:+ fence +:+ post)) eqn:E;
        auto.
      apply startsWith_closing_then in E.
      rewrite (includes_startsWith _ _ H) in E. discriminate. }
    change (String c body +:+ newline +:+ fence +:+ post)
      with (String c (body +:+ newline +:+ fence +:+ post)) in *.
    unfold lazyUntilFence; fold lazyUntilFence. rewrite Hs.
    rewrite (IH (includes_cons _ _ _ H)). reflexivity.
Qed.

Lemma patterns_trim_agree text :
  trim (unfenced matchSpaced text) = trim (unfenced matchPlain text).
Proof.
  unfold unfenced, matchSpaced, matchPlain. rewrite search_lazy.
  destruct (search lazyUntilFence text) as [capture|]; cbn [option_map].
  - apply trim_trimStart.
  - reflexivity.
Qed.

Lemma matchPlain_embedded pre opening body post :
  opening = "```json" \/ opening = "```" ->
  includes "`" pre = false ->
  includes fence body = false ->
  matchPlain (pre +:+ opening +:+ newline +:+ body +:+ newline +:+ fence +:+ post)
  = Some (newline +:+ body +:+ newline).
Proof.
  intros Hopen Hpre Hbody. unfold matchPlain.
  rewrite (search_skips _ _ pre Hpre).
  destruct Hopen as [-> | ->].
  - change ("```json" +:+ newline +:+ body +:+ newline +:+ fence +:+ post)
      with (String "`" (String "`" (String "`" (String "j" (String "s"
             (String "o" (String "n" (String "010"
               (body +:+ newline +:+ fence +:+ post))))))))).
    unfold search, matchHere. simpl stripPrefix. cbv iota.
    change (lazyUntilFence (String "010" (body +:+ newline +:+ fence +:+ post)))
      with (option_map (String "010")
              (lazyUntilFence (body +:+ newline +:+ fence +:+ post))).
    now rewrite lazyUntilFence_closing_then.
  - change ("```" +:+ newline +:+ body +:+ newline +:+ fence +:+ post)
      with (String "`" (String "`" (String "`" (String "010"
             (body +:+ newline +:+ fence +:+ post))))).
    unfold search, matchHere. simpl stripPrefix. cbv iota.
    change (lazyUntilFence (String "010" (body +:+ newline +:+ fence +:+ post)))
      with (option_map (String "010")
              (lazyUntilFence (body +:+ newline +:+ fence +:+ post))).
    now rewrite lazyUntilFence_closing_then.
Qed.

End PatternFacts.

(** X3. The two variants strip fences with different patterns, with and
    without [\s*] after the opening fence. On every text they match or
    fail together, the capture with [\s*] is the other capture less its
    leading white space, and after [trim] both hand the same string to
    [JSON.parse]. *)
Theorem fence_patterns_agree :
  forall text : string,
    Fence.matchSpaced text = option_map JsString.trimStart (Fence.matchPlain text)
    /\ JsString.trim (Fence.unfenced Fence.matchSpaced text)
       = JsString.trim (Fence.unfenced Fence.matchPlain text).
Proof.
  intros text.
  split; [apply search_lazy|apply patterns_trim_agree].
Qed.

(** X4. A fence that is opened and never closed is not stripped: for a
    text that starts with three backticks and holds no other backtick,
    neither pattern matches, and [JSON.parse] receives the text with its
    marker. *)
Theorem unclosed_fence_is_kept :
  forall rest : string,
    JsString.includes "`" rest = false ->
    Fence.matchSpaced (Fence.fence +:+ rest) = None
    /\ Fence.matchPlain (Fence.fence +:+ rest) = None
    /\ Fence.unfenced Fence.matchSpaced (Fence.fence +:+ rest) = Fence.fence +:+ rest
    /\ Fence.unfenced Fence.matchPlain (Fence.fence +:+ rest) = Fence.fence +:+ rest.
Proof.
  intros rest Hrest.
  assert (Hs : Fence.matchSpaced (Fence.fence +:+ rest) = None)
    by (apply search_unclosed; [apply spacesThenCapture_no_fence|exact Hrest]).
  assert (Hp : Fence.matchPlain (Fence.fence +:+ rest) = None)
    by (apply search_unclosed; [apply lazyUntilFence_no_fence|exact Hrest]).
  unfold Fence.unfenced. rewrite Hs, Hp. repeat split.
Qed.

Lemma unclosed_fence_is_kept_witness :
  let rest := "json" +:+ Fence.newline +:+ Scenario.sampleJson in
  Fence.matchSpaced (Fence.fence +:+ rest) = None
  /\ Fence.matchPlain (Fence.fence +:+ rest) = None
  /\ Fence.unfenced Fence.matchSpaced (Fence.fence +:+ rest) = Fence.fence +:+ rest
  /\ Fence.unfenced Fence.matchPlain (Fence.fence +:+ rest) = Fence.fence +:+ rest.
Proof.
  apply (unclosed_fence_is_kept ("json" +:+ Fence.newline +:+ Scenario.sampleJson)).
  vm_compute. reflexivity.
Defined.

(** X5. Prose around the fenced document is dropped. When the text
    before the opening fence holds no backtick and the document holds no
    fence marker, both patterns capture the document whatever follows the
    closing fence, and [JSON.parse] receives the trimmed document. *)
Theorem prose_around_the_fence_is_dropped :
  forall pre opening body post : string,
    opening = "```json" \/ opening = "```" ->
    JsString.includes "`" pre = false ->
    JsString.includes Fence.fence body = false ->
    let text := pre +:+ opening +:+ Fence.newline +:+ body +:+ Fence.newline
                +:+ Fence.fence +:+ post in
    JsString.trim (Fence.unfenced Fence.matchPlain text) = JsString.trim body
    /\ JsString.trim (Fence.unfenced Fence.matchSpaced text) = JsString.trim body.
Proof.
  intros pre opening body post Hopen Hpre Hbody text.
  assert (Hplain : JsString.trim (Fence.unfenced Fence.matchPlain text)
                   = JsString.trim body).
  { unfold Fence.unfenced. subst text.
    rewrite (matchPlain_embedded pre opening body post Hopen Hpre Hbody).
    change (Fence.newline +:+ body +:+ Fence.newline)
      with (Fence.newline +:+ (body +:+ Fence.newline)).
    now rewrite trim_newline_before, trim_newline_after. }
  split; [exact Hplain|].
  rewrite patterns_trim_agree. exact Hplain.
Qed.

Lemma prose_around_the_fence_is_dropped_witness :
  let pre := "Here is the analysis:" +:+ Fence.newline in
  let post := Fence.newline +:+ "I hope this helps." in
  let text := pre +:+ "```json" +:+ Fence.newline +:+ Scenario.sampleJson
              +:+ Fence.newline +:+ Fence.fence +:+ post in
  JsString.trim (Fence.unfenced Fence.matchPlain text) = JsString.trim Scenario.sampleJson
  /\ JsString.trim (Fence.unfenced Fence.matchSpaced text)
     = JsString.trim Scenario.sampleJson.
Proof.
  apply (prose_around_the_fence_is_dropped
           ("Here is the analysis:" +:+ Fence.newline) "```json" Scenario.sampleJson
           (Fence.newline +:+ "I hope this helps.")).
  - left. reflexivity.
  - vm_compute. reflexivity.
  - vm_compute. reflexivity.
Defined.

(** ** The gateways on any service *)

Section SettleFacts.
Import JsString Retrier Model Fence.
Context {engine : Platform}.

(** The call under [retryWithBackoff] with the default arguments, on any
    service: [n + 1] requests, and the outcome of the last call. *)
Lemma retry_settles request (w : Retrier.World Transport) :
  let r := retryWithBackoff (generateContent request) 3 2000 w in
  let t := inner w in
  exists n : nat,
    (n <= 2)%nat
    /\ inner (snd r) = mkTransport (behaviour t) (requests t ++ repeat request (S n))
    /\ slept (snd r) = slept w ++ backoffDelays 2000 n
    /\ (forall i, (i < n)%nat ->
          exists m, behaviour t (length (requests t) + i) = Threw (ThrowError m)
                    /\ Retrier.isRateLimited m = true)
    /\ match behaviour t (length (requests t) + n) with
       | Returned v => fst r = Returned v
       | Threw ThrowUndefined => fst r = Threw typeErrorNoMessage
       | Threw (ThrowError m) =>
           fst r = Threw (ThrowError m)
           /\ (Retrier.isRateLimited m = true -> n = 2%nat)
       end.
Proof.
  intros r t. subst r t. unfold retryWithBackoff. change (Z.to_nat 3) with 3%nat.
  destruct (retryLoop_trace (generateContent request) 3 2000 2 0 ThrowUndefined w
              ltac:(reflexivity))
    as (n & Hn & Hinner & Hslept & _ & Hbefore & Hlast).
  assert (Hcall : forall i,
            fst (generateContent request (afterCalls (generateContent request) i (inner w)))
            = behaviour (inner w) (length (requests (inner w)) + i)).
  { intros i. rewrite afterCalls_generateContent. unfold generateContent.
    cbn [fst behaviour requests]. rewrite length_app, repeat_length. reflexivity. }
  exists n.
  split; [exact Hn|].
  split; [rewrite Hinner; apply afterCalls_generateContent|].
  split; [rewrite Hslept, delaysFrom_zero; reflexivity|].
  split.
  - intros i Hi. destruct (Hbefore i Hi) as (m & Hm & Hrl).
    exists m. rewrite <- Hcall. split; assumption.
  - rewrite <- Hcall. exact Hlast.
Qed.

Lemma quotaSignal_rateLimited m :
  GeminiAudio.quotaSignal m = true -> Retrier.isRateLimited m = true.
Proof.
  destruct m as [m|]; [|discriminate]. unfold GeminiAudio.quotaSignal, Retrier.isRateLimited.
  destruct (includes "429" m), (includes "RESOURCE_EXHAUSTED" m),
    (includes "Too Many Requests" m); cbn; congruence.
Qed.

(** On a service that rejects every call with "429" or
    "RESOURCE_EXHAUSTED" in the message. *)
Lemma gateway_busy label request (w : Retrier.World Transport) :
  (forall n, exists m,
     behaviour (inner w) (length (requests (inner w)) + n) = Threw (ThrowError m)
     /\ GeminiAudio.quotaSignal m = true) ->
  let r := tryCatch (GeminiAudio.attempt request) (GeminiAudio.onError label) w in
  fst r = Returned GeminiAudio.rateLimitedResult
  /\ slept (snd r) = slept w ++ [2000; 4000]
  /\ requests (inner (snd r)) = requests (inner w) ++ [request; request; request].
Proof.
  intros Hbusy r. subst r.
  destruct (retry_settles request w)
    as (n & Hn & Hinner & Hslept & Hbefore & Hlast).
  destruct (Hbusy n) as (m & Hm & Hq).
  rewrite Hm in Hlast. destruct Hlast as [Hr Hk].
  specialize (Hk (quotaSignal_rateLimited m Hq)). subst n.
  unfold tryCatch, GeminiAudio.attempt, bind.
  destruct (retryWithBackoff (generateContent request) 3 2000 w) as [o w'].
  cbn [fst snd] in Hr, Hinner, Hslept. subst o.
  unfold GeminiAudio.onError. rewrite Hq. cbn [fst snd consoleWrite slept inner].
  rewrite Hslept, Hinner. repeat split.
Qed.

(** Whatever the service does, the [try]/[catch] of the gateway with
    retry makes [n + 1] calls, the first [n] of which met the rate limit,
    and settles as the last call decides. *)
Lemma gateway_settles label request (w : Retrier.World Transport) :
  let t := inner w in
  let r := tryCatch (GeminiAudio.attempt request) (GeminiAudio.onError label) w in
  exists n : nat,
    (n <= 2)%nat
    /\ requests (inner (snd r)) = requests t ++ repeat request (S n)
    /\ (forall i, (i < n)%nat ->
          exists m, behaviour t (length (requests t) + i) = Threw (ThrowError m)
                    /\ Retrier.isRateLimited m = true)
    /\ ((n < 2)%nat ->
        forall m, behaviour t (length (requests t) + n) = Threw (ThrowError m) ->
                  Retrier.isRateLimited m = false)
    /\ fst r
       = match behaviour t (length (requests t) + n) with
         | Returned (ReplyText text) =>
             match JSON_parse (trim (unfenced matchSpaced text)) with
             | inl v => Returned (succeeded v)
             | inr message =>
                 Returned (if GeminiAudio.quotaSignal (Some message)
                           then GeminiAudio.rateLimitedResult
                           else failed (Some message))
             end
         | Returned (ReplyNoText ThrowUndefined) => Threw typeErrorNoMessage
         | Returned (ReplyNoText (ThrowError m)) | Threw (ThrowError m) =>
             Returned (if GeminiAudio.quotaSignal m
                       then GeminiAudio.rateLimitedResult
                       else failed m)
         | Threw ThrowUndefined =>
             Returned (failed
               (Some "Cannot read properties of undefined (reading 'message')"))
         end.
Proof.
  intros t r. subst t r.
  destruct (retry_settles request w)
    as (n & Hn & Hinner & Hslept & Hbefore & Hlast).
  exists n.
  split; [exact Hn|].
  assert (Hthrown : forall m w0,
            GeminiAudio.onError label (ThrowError m) w0
            = (Returned (if GeminiAudio.quotaSignal m
                         then GeminiAudio.rateLimitedResult
                         else failed m),
               consoleWrite (LogLine label m) w0)).
  { intros m w0. unfold GeminiAudio.onError.
    destruct (GeminiAudio.quotaSignal m); reflexivity. }
  unfold tryCatch, GeminiAudio.attempt, bind.
  destruct (retryWithBackoff (generateContent request) 3 2000 w) as [o w'].
  cbn [fst snd] in Hlast, Hinner.
  split.
  { destruct o as [[text|[|m]]|[|m]];
      cbn [responseText ret throw fst snd]; unfold jsonParse;
      try (destruct (JSON_parse (trim (unfenced matchSpaced text))));
      cbn [ret throw fst snd];
      try rewrite Hthrown; cbn [fst snd GeminiAudio.onError consoleWrite inner];
      rewrite Hinner; reflexivity. }
  split; [exact Hbefore|].
  split.
  { intros Hlt m Hm. rewrite Hm in Hlast. destruct Hlast as [_ Hk].
    destruct (Retrier.isRateLimited m); [|reflexivity].
    specialize (Hk eq_refl). lia. }
  destruct (behaviour (inner w) (length (requests (inner w)) + n))
    as [reply|[|m]].
  - subst o. destruct reply as [text|[|m]].
    + cbn [responseText ret]. unfold jsonParse.
      destruct (JSON_parse (trim (unfenced matchSpaced text))) as [v|message].
      * reflexivity.
      * cbn [throw]. rewrite Hthrown. reflexivity.
    + reflexivity.
    + cbn [responseText throw]. rewrite Hthrown. reflexivity.
  - subst o. unfold typeErrorNoMessage. rewrite Hthrown. reflexivity.
  - destruct Hlast as [-> _]. rewrite Hthrown. reflexivity.
Qed.

(** The text-only gateway sends its prompt once, sleeps never, and
    resolves to a success or to a failure that is not flagged. *)
Lemma textOnly_settles prompt label (w : Retrier.World Transport) :
  let r := tryCatch
             (let* data := GeminiText.callGemini prompt in ret (succeeded data))
             (GeminiText.onError label) w in
  requests (inner (snd r)) = requests (inner w) ++ [[Text prompt]]
  /\ behaviour (inner (snd r)) = behaviour (inner w)
  /\ slept (snd r) = slept w
  /\ match fst r with
     | Returned a =>
         Model.isRateLimited a = false
         /\ ((exists v, a = succeeded v) \/ (exists m, a = failed m))
     | Threw e =>
         e = typeErrorNoMessage
         /\ (nextReply w = Threw ThrowUndefined
             \/ nextReply w = Returned (ReplyNoText ThrowUndefined))
     end.
Proof.
  intros r. subst r.
  unfold tryCatch, bind, GeminiText.callGemini, GeminiText.callModel, bind,
    generateContent, nextReply.
  destruct (behaviour (inner w) (length (requests (inner w)))) as [[text|[|m]]|[|m]];
    cbn [responseText ret throw fst snd GeminiText.onError setInner inner slept
         requests behaviour consoleWrite].
  - unfold tryCatch, jsonParse, ret, throw.
    destruct (JSON_parse (trim (unfenced matchPlain text))) as [v|message];
      cbn [fst snd GeminiText.onError setInner inner slept requests behaviour
           consoleWrite succeeded failed Model.isRateLimited].
    + repeat split. left. exists v. reflexivity.
    + repeat split. right. eexists. reflexivity.
  - repeat split. right. reflexivity.
  - repeat split. right. eexists. reflexivity.
  - repeat split. left. reflexivity.
  - repeat split. right. eexists. reflexivity.
Qed.

End SettleFacts.

(** X6. When the service rejects every call with "429" or
    "RESOURCE_EXHAUSTED" in the message, each analysis function of the
    gateway with retry sends its request three times, sleeps 2000 and
    4000 ms, and resolves to the failure that carries the busy message and
    [isRateLimited: true]. *)
Theorem busy_service_is_flagged :
  forall (P : Platform) (textInput audio mime : string) (rs : list Reflection)
         (summary : list json) (w : Retrier.World Model.Transport),
    (forall n, exists m,
       Model.behaviour (Retrier.inner w)
         (length (Model.requests (Retrier.inner w)) + n) = Threw (ThrowError m)
       /\ GeminiAudio.quotaSignal m = true) ->
    rs <> [] ->
    GeminiAudio.summarizeAll rs = Returned summary ->
    let flagged (request : Model.Request)
                (r : Outcome Model.AnalysisResult * Retrier.World Model.Transport) :=
      fst r = Returned (Model.mkResult false None (Some GeminiAudio.busyMessage) true)
      /\ Retrier.slept (snd r) = Retrier.slept w ++ [2000; 4000]
      /\ Model.requests (Retrier.inner (snd r))
         = Model.requests (Retrier.inner w) ++ [request; request; request] in
    flagged [Model.Text (Model.TextPrompt textInput)]
            (GeminiAudio.analyzeTextReflection textInput w)
    /\ flagged [Model.InlineData mime audio; Model.Text Model.AudioPrompt]
               (GeminiAudio.analyzeAudioReflection audio mime w)
    /\ flagged [Model.Text (Model.WeeklyPrompt (length rs) (JArray summary))]
               (GeminiAudio.analyzeWeeklyPatterns (Some rs) w).
Proof.
  intros P textInput audio mime rs summary w Hbusy Hrs Hsum flagged. subst flagged.
  cbv beta.
  split; [exact (gateway_busy "Text analysis error:" _ w Hbusy)|].
  split; [exact (gateway_busy "Gemini analysis error:" _ w Hbusy)|].
  destruct rs as [|r rs]; [congruence|].
  unfold GeminiAudio.analyzeWeeklyPatterns. rewrite Hsum.
  exact (gateway_busy "Weekly analysis error:" _ w Hbusy).
Qed.

Lemma busy_service_is_flagged_witness :
  let w := Scenario.fresh (Scenario.rejecting "[429 Too Many Requests] quota exceeded") in
  let busy := Returned (Model.mkResult false None (Some GeminiAudio.busyMessage) true) in
  fst (GeminiAudio.analyzeTextReflection (engine := referencePlatform)
         "I felt calm today" w) = busy
  /\ fst (GeminiAudio.analyzeAudioReflection (engine := referencePlatform)
            "RIFF" "audio/webm" w) = busy
  /\ fst (GeminiAudio.analyzeWeeklyPatterns (engine := referencePlatform)
            (Some Scenario.twoReflections) w) = busy.
Proof.
  assert (Hsum : exists summary,
            GeminiAudio.summarizeAll Scenario.twoReflections = Returned summary)
    by (eexists; vm_compute; reflexivity).
  destruct Hsum as [summary Hsum].
  destruct (busy_service_is_flagged referencePlatform "I felt calm today" "RIFF"
              "audio/webm" Scenario.twoReflections summary
              (Scenario.fresh (Scenario.rejecting "[429 Too Many Requests] quota exceeded")))
    as ((Ht & _) & (Ha & _) & (Hw & _)).
  - intros n. eexists. split; [reflexivity|vm_compute; reflexivity].
  - discriminate.
  - exact Hsum.
  - repeat split; assumption.
Defined.

(** X7. What the daily analysis functions of the gateway with retry
    settle to, whatever the service does. They call the service [n + 1]
    times, [n <= 2], each of the first [n] calls having met the rate limit,
    and a last call before the third not having met it. The last call
    decides the result. A text that parses gives a success with the parsed
    data. Every error becomes a failure, flagged and with the busy message
    when its message holds "429" or "RESOURCE_EXHAUSTED", and with its own
    message otherwise: the SyntaxError of [JSON.parse], an error thrown by
    [response.text()], an error of the call itself; a call that rejects
    with [undefined] gives the failure that carries the TypeError of
    [error.message]. The promise rejects in one case only, with that
    TypeError: when [response.text()] threw [undefined]. *)
Theorem analysis_resolves_to_a_result :
  forall (P : Platform) (textInput audio mime : string)
         (w : Retrier.World Model.Transport),
    let t := Retrier.inner w in
    let first := length (Model.requests t) in
    let classified (m : option string) :=
      if GeminiAudio.quotaSignal m
      then Model.mkResult false None (Some GeminiAudio.busyMessage) true
      else Model.mkResult false None m false in
    let ofLastCall (last : Outcome Model.Reply) : Outcome Model.AnalysisResult :=
      match last with
      | Returned (Model.ReplyText text) =>
          match JSON_parse (JsString.trim (Fence.unfenced Fence.matchSpaced text)) with
          | inl v => Returned (Model.mkResult true (Some v) None false)
          | inr message => Returned (classified (Some message))
          end
      | Returned (Model.ReplyNoText ThrowUndefined) => Threw typeErrorNoMessage
      | Returned (Model.ReplyNoText (ThrowError m)) => Returned (classified m)
      | Threw (ThrowError m) => Returned (classified m)
      | Threw ThrowUndefined =>
          Returned (Model.mkResult false None
                      (Some "Cannot read properties of undefined (reading 'message')")
                      false)
      end in
    let settles (request : Model.Request)
                (r : Outcome Model.AnalysisResult * Retrier.World Model.Transport) :=
      exists n : nat,
        (n <= 2)%nat
        /\ Model.requests (Retrier.inner (snd r))
           = Model.requests t ++ repeat request (S n)
        /\ (forall i, (i < n)%nat ->
              exists m, Model.behaviour t (first + i) = Threw (ThrowError m)
                        /\ Retrier.isRateLimited m = true)
        /\ ((n < 2)%nat ->
            forall m, Model.behaviour t (first + n) = Threw (ThrowError m) ->
                      Retrier.isRateLimited m = false)
        /\ fst r = ofLastCall (Model.behaviour t (first + n)) in
    settles [Model.Text (Model.TextPrompt textInput)]
            (GeminiAudio.analyzeTextReflection textInput w)
    /\ settles [Model.InlineData mime audio; Model.Text Model.AudioPrompt]
               (GeminiAudio.analyzeAudioReflection audio mime w).
Proof.
  intros P textInput audio mime w t first classified ofLastCall settles.
  assert (H : forall label request,
            settles request
              (tryCatch (GeminiAudio.attempt request) (GeminiAudio.onError label) w)).
  { intros label request. subst settles. cbv beta.
    destruct (gateway_settles label request w)
      as (n & Hn & Hreq & Hbefore & Hlast & Hres).
    exists n. split; [exact Hn|]. split; [exact Hreq|]. split; [exact Hbefore|].
    split; [exact Hlast|].
    etransitivity; [exact Hres|].
    subst ofLastCall classified first t. cbv beta.
    destruct (Model.behaviour (Retrier.inner w)
                (length (Model.requests (Retrier.inner w)) + n))
      as [[text|[|m]]|[|m]]; reflexivity. }
  split; apply H.
Qed.

(** X8. The text-only gateway has no retry: whatever the service does,
    a daily analysis sends its prompt exactly once and never sleeps, a
    weekly analysis of three reflections or more does the same, and the
    result is never flagged as rate-limited. *)
Theorem text_only_gateway_calls_once :
  forall (P : Platform) (textInput : string) (rs : list Reflection)
         (w : Retrier.World Model.Transport),
    let daily := GeminiText.analyzeTextReflection textInput w in
    let weekly := GeminiText.analyzeWeeklyPatterns (Some rs) w in
    Model.requests (Retrier.inner (snd daily))
    = Model.requests (Retrier.inner w) ++ [[Model.Text (Model.TextOnlyPrompt textInput)]]
    /\ Retrier.slept (snd daily) = Retrier.slept w
    /\ (forall a, fst daily = Returned a -> Model.isRateLimited a = false)
    /\ Model.requests (Retrier.inner (snd weekly))
       = Model.requests (Retrier.inner w)
         ++ (if (length rs <? 3)%nat then []
             else [[Model.Text (Model.TextOnlyWeeklyPrompt
                                  (JArray (map GeminiText.summarize rs)))]])
    /\ Retrier.slept (snd weekly) = Retrier.slept w
    /\ (forall a, fst weekly = Returned a -> Model.isRateLimited a = false).
Proof.
  intros P textInput rs w daily weekly. subst daily weekly.
  destruct (textOnly_settles (Model.TextOnlyPrompt textInput) "TEXT ANALYSIS ERROR:" w)
    as (Hreq & _ & Hslept & Hres).
  split; [exact Hreq|]. split; [exact Hslept|].
  split.
  { intros a Ha. unfold GeminiText.analyzeTextReflection in Ha.
    rewrite Ha in Hres. apply Hres. }
  unfold GeminiText.analyzeWeeklyPatterns.
  destruct (length rs <? 3)%nat.
  - cbn [ret fst snd]. rewrite app_nil_r. repeat split.
    intros a Ha. injection Ha as <-. reflexivity.
  - destruct (textOnly_settles
                (Model.TextOnlyWeeklyPrompt (JArray (map GeminiText.summarize rs)))
                "WEEKLY ANALYSIS ERROR:" w)
      as (Hreq' & _ & Hslept' & Hres').
    split; [exact Hreq'|]. split; [exact Hslept'|].
    intros a Ha. rewrite Ha in Hres'. apply Hres'.
Qed.

(** ** The weekly summary *)

Section SummaryFacts.
Import JsString Model.

Lemma take_length : forall n s, (String.length (take n s) <= n)%nat.
Proof.
  induction n as [|n IH]; intros [|c s]; cbn [take String.length]; try lia.
  specialize (IH s). lia.
Qed.

Lemma take_short : forall n s, (String.length s <= n)%nat -> take n s = s.
Proof.
  induction n as [|n IH]; intros [|c s] H; cbn [take String.length] in *;
    try reflexivity; try lia.
  rewrite IH by lia. reflexivity.
Qed.

Lemma take_prefix : forall n s, exists rest, s = take n s +:+ rest.
Proof.
  induction n as [|n IH]; intros s.
  - exists s. destruct s; reflexivity.
  - destruct s as [|c s].
    + exists EmptyString. reflexivity.
    + destruct (IH s) as [rest Hrest]. exists rest.
      change (take (S n) (String c s) +:+ rest) with (String c (take n s +:+ rest)).
      rewrite <- Hrest. reflexivity.
Qed.

(** The [transcript] member of a summary entry. *)
Lemma summarize_transcript (r : Reflection) :
  match GeminiAudio.excerpt (transcript (fields r)) with
  | Returned t =>
      exists members,
        GeminiAudio.summarize r = Returned (JObject members)
        /\ member "transcript" members = t
  | Threw e => GeminiAudio.summarize r = Threw e
  end.
Proof.
  unfold GeminiAudio.summarize.
  destruct (GeminiAudio.excerpt (transcript (fields r))) as [t|e]; [|reflexivity].
  eexists. split; [reflexivity|].
  destruct (date (fields r)), (primaryEmotion (fields r)),
    (secondaryEmotion (fields r)), (theme (fields r)),
    (emotionalIntensity (fields r)), t; reflexivity.
Qed.

Lemma summarizeAll_entries : forall rs summary,
  GeminiAudio.summarizeAll rs = Returned summary ->
  length summary = length rs
  /\ forall i r, nth_error rs i = Some r ->
       exists members t,
         nth_error summary i = Some (JObject members)
         /\ GeminiAudio.excerpt (transcript (fields r)) = Returned t
         /\ member "transcript" members = t.
Proof.
  induction rs as [|r0 rs IH]; intros summary H.
  - injection H as <-. split; [reflexivity|]. intros [|i] r Hr; discriminate.
  - cbn [GeminiAudio.summarizeAll] in H.
    pose proof (summarize_transcript r0) as H0.
    destruct (GeminiAudio.excerpt (transcript (fields r0))) as [t0|e0] eqn:E0.
    + destruct H0 as (members0 & Hs0 & Hm0). rewrite Hs0 in H.
      destruct (GeminiAudio.summarizeAll rs) as [js|e]; [|discriminate].
      injection H as <-.
      destruct (IH js eq_refl) as [Hlen Hnth].
      split; [cbn [length]; rewrite Hlen; reflexivity|].
      intros [|i] r Hr.
      * injection Hr as <-. exists members0, t0. repeat split; assumption.
      * apply (Hnth i r Hr).
    + rewrite H0 in H. discriminate.
Qed.

Lemma summarizeAll_throws : forall rs r e,
  In r rs ->
  GeminiAudio.excerpt (transcript (fields r)) = Threw e ->
  exists e', GeminiAudio.summarizeAll rs = Threw e'.
Proof.
  induction rs as [|r0 rs IH]; intros r e Hin He; [destruct Hin|].
  cbn [GeminiAudio.summarizeAll].
  destruct Hin as [-> | Hin].
  - pose proof (summarize_transcript r) as H0. rewrite He in H0. rewrite H0.
    eexists; reflexivity.
  - destruct (GeminiAudio.summarize r0) as [j|e0]; [|eexists; reflexivity].
    destruct (IH r e Hin He) as [e' ->]. eexists; reflexivity.
Qed.

End SummaryFacts.

(** X9. The summary the gateway with retry puts in the weekly prompt has
    one entry per reflection, in order. An entry carries the first 200
    characters of a transcript that is a string (all of it when it is no
    longer than that), and no [transcript] member when the reflection has
    none or a [null] one. *)
Theorem weekly_summary_truncates_transcripts :
  forall (rs : list Reflection) (summary : list json),
    GeminiAudio.summarizeAll rs = Returned summary ->
    length summary = length rs
    /\ forall (i : nat) (r : Reflection),
         nth_error rs i = Some r ->
         exists members,
           nth_error summary i = Some (JObject members)
           /\ match transcript (fields r) with
              | Some (JString s) =>
                  Json.member "transcript" members = Some (JString (JsString.take 200 s))
                  /\ (String.length (JsString.take 200 s) <= 200)%nat
                  /\ (exists rest, s = JsString.take 200 s +:+ rest)
                  /\ ((String.length s <= 200)%nat ->
                      Json.member "transcript" members = Some (JString s))
              | _ => Json.member "transcript" members = None
              end.
Proof.
  intros rs summary H.
  destruct (summarizeAll_entries rs summary H) as [Hlen Hnth].
  split; [exact Hlen|].
  intros i r Hr. destruct (Hnth i r Hr) as (members & t & Hi & Ht & Hm).
  exists members. split; [exact Hi|].
  destruct (transcript (fields r)) as [[| | |s| |]|];
    cbn [GeminiAudio.excerpt] in Ht; try discriminate.
  - assert (Et : t = None) by congruence. rewrite Et in Hm. exact Hm.
  - assert (Et : t = Some (JString (JsString.take 200 s))) by congruence.
    rewrite Et in Hm.
    split; [exact Hm|].
    split; [apply take_length|].
    split; [apply take_prefix|].
    intros Hshort. rewrite Hm. do 2 f_equal. apply take_short. exact Hshort.
  - assert (Et : t = None) by congruence. rewrite Et in Hm. exact Hm.
Qed.

Lemma weekly_summary_truncates_transcripts_witness :
  exists summary,
    GeminiAudio.summarizeAll Scenario.twoReflections = Returned summary
    /\ length summary = 2%nat.
Proof.
  eexists. split; [vm_compute; reflexivity|].
  eapply (weekly_summary_truncates_transcripts Scenario.twoReflections).
  vm_compute. reflexivity.
Defined.

(** X10. The weekly analysis of the gateway with retry builds its summary
    before the [try] block: when a reflection holds a transcript that is
    neither a string nor [null], [substring] is not a function, the
    promise rejects instead of resolving to a failure, and no request is
    sent. *)
Theorem weekly_rejects_on_a_transcript_that_is_no_string :
  forall (P : Platform) (rs : list Reflection) (r : Reflection) (j : json)
         (w : Retrier.World Model.Transport),
    In r rs ->
    transcript (fields r) = Some j ->
    j <> JNull ->
    (forall s, j <> JString s) ->
    exists e, GeminiAudio.analyzeWeeklyPatterns (Some rs) w = (Threw e, w).
Proof.
  intros P rs r j w Hin Ht Hnull Hstring.
  assert (He : exists e, GeminiAudio.excerpt (transcript (fields r)) = Threw e).
  { rewrite Ht. destruct j; try (eexists; reflexivity).
    - congruence.
    - exfalso. exact (Hstring s eq_refl). }
  destruct He as [e He].
  destruct (summarizeAll_throws rs r e Hin He) as [e' He'].
  exists e'. unfold GeminiAudio.analyzeWeeklyPatterns.
  destruct rs as [|r0 rs]; [destruct Hin|].
  rewrite He'. reflexivity.
Qed.

Lemma weekly_rejects_on_a_transcript_that_is_no_string_witness :
  let odd := mkReflection "r3"
               (mkReflectionData (Some "user-a") (Some "2024-05-18") (Some (JBool true))
                  (Some (JString "calm")) None None None None None) in
  let w := Scenario.fresh (Scenario.replying "{}") in
  exists e,
    GeminiAudio.analyzeWeeklyPatterns (engine := referencePlatform)
      (Some (Scenario.twoReflections ++ [odd])) w = (Threw e, w).
Proof.
  apply (weekly_rejects_on_a_transcript_that_is_no_string referencePlatform
           (Scenario.twoReflections
              ++ [mkReflection "r3"
                    (mkReflectionData (Some "user-a") (Some "2024-05-18")
                       (Some (JBool true)) (Some (JString "calm"))
                       None None None None None)])
           (mkReflection "r3"
              (mkReflectionData (Some "user-a") (Some "2024-05-18")
                 (Some (JBool true)) (Some (JString "calm"))
                 None None None None None))
           (JBool true)).
  - cbn. right. right. left. reflexivity.
  - reflexivity.
  - discriminate.
  - intros s. discriminate.
Defined.

(** ** Reading the collection *)

Section QueryFacts.
Import Model Server.

Lemma documents_spec (st : State) (r : Reflection) :
  In r (Query.documents st) <-> store st !! id r = Some (fields r).
Proof.
  unfold Query.documents. rewrite in_map_iff. split.
  - intros ([i f] & <- & Hin). cbn [id fields fst snd].
    apply elem_of_map_to_list, list_elem_of_In. exact Hin.
  - intros H. exists (id r, fields r). split; [destruct r; reflexivity|].
    apply list_elem_of_In, elem_of_map_to_list. exact H.
Qed.

Lemma insertInOrder_In before r x : forall l,
  In x (Query.insertInOrder before r l) <-> x = r \/ In x l.
Proof.
  induction l as [|y l IH]; cbn [Query.insertInOrder].
  - cbn. intuition congruence.
  - destruct (before r y); cbn [In]; [intuition congruence|].
    rewrite IH. intuition congruence.
Qed.

Lemma inOrder_In before x : forall l, In x (Query.inOrder before l) <-> In x l.
Proof.
  induction l as [|y l IH]; [reflexivity|].
  cbn [Query.inOrder fold_right]. rewrite insertInOrder_In.
  change (fold_right (Query.insertInOrder before) [] l) with (Query.inOrder before l).
  rewrite IH. cbn [In]. intuition congruence.
Qed.

Lemma insertInOrder_length before r : forall l,
  length (Query.insertInOrder before r l) = S (length l).
Proof.
  induction l as [|y l IH]; cbn [Query.insertInOrder]; [reflexivity|].
  destruct (before r y); cbn [length]; [reflexivity|]. rewrite IH. reflexivity.
Qed.

Lemma inOrder_length before : forall l, length (Query.inOrder before l) = length l.
Proof.
  induction l as [|y l IH]; [reflexivity|].
  cbn [Query.inOrder fold_right]. rewrite insertInOrder_length.
  change (fold_right (Query.insertInOrder before) [] l) with (Query.inOrder before l).
  rewrite IH. reflexivity.
Qed.

Lemma In_firstn {A} (x : A) : forall n l, In x (firstn n l) -> In x l.
Proof.
  induction n as [|n IH]; intros [|y l] H; cbn [firstn In] in *; try tauto.
  destruct H as [H|H]; [left; exact H|right; exact (IH l H)].
Qed.

Lemma datedOf_spec u (st : State) (r : Reflection) :
  In r (Query.datedOf u st)
  <-> store st !! id r = Some (fields r)
      /\ userId (fields r) = Some u /\ createdAt (fields r) <> None.
Proof.
  unfold Query.datedOf. rewrite filter_In, documents_spec, andb_true_iff.
  unfold Query.ownedBy, Query.hasCreatedAt. rewrite bool_decide_eq_true.
  destruct (createdAt (fields r)); intuition congruence.
Qed.

Lemma ofDay_spec u d (st : State) (r : Reflection) :
  In r (Query.ofDay u d st)
  <-> store st !! id r = Some (fields r)
      /\ userId (fields r) = Some u /\ date (fields r) = Some d.
Proof.
  unfold Query.ofDay. rewrite filter_In, documents_spec, andb_true_iff.
  unfold Query.ownedBy, Query.datedOn. rewrite !bool_decide_eq_true. tauto.
Qed.

Lemma recentOf_spec u n (st : State) :
  length (Query.recentOf u n st) = Nat.min n (length (Query.datedOf u st))
  /\ forall r, In r (Query.recentOf u n st) ->
       store st !! id r = Some (fields r) /\ userId (fields r) = Some u.
Proof.
  unfold Query.recentOf. split.
  - rewrite length_firstn, inOrder_length. reflexivity.
  - intros r Hr. apply In_firstn, inOrder_In, datedOf_spec in Hr. tauto.
Qed.

Lemma onDate_spec u d (st : State) :
  match Query.onDate u d st with
  | [] => Query.ofDay u d st = []
  | doc :: rest => rest = [] /\ In doc (Query.ofDay u d st)
  end.
Proof.
  unfold Query.onDate.
  pose proof (inOrder_length Query.byId (Query.ofDay u d st)) as Hlen.
  pose proof (fun x => inOrder_In Query.byId x (Query.ofDay u d st)) as Hin.
  destruct (Query.inOrder Query.byId (Query.ofDay u d st)) as [|doc rest].
  - cbn [firstn]. destruct (Query.ofDay u d st); [reflexivity|discriminate].
  - cbn [firstn]. split; [reflexivity|]. apply Hin. left. reflexivity.
Qed.

Lemma query_store_after_operation u n d (st : State) :
  Query.recentOf u n (snd (dbOperation st)) = Query.recentOf u n st
  /\ Query.onDate u d (snd (dbOperation st)) = Query.onDate u d st.
Proof.
  unfold Query.recentOf, Query.onDate, Query.datedOf, Query.ofDay, Query.documents.
  rewrite dbOperation_store. split; reflexivity.
Qed.

Lemma getRecent_ok u n (st : State) :
  dbFault st (dbOps st) = None ->
  Query.getRecent u n st = (Returned (Query.recentOf u n st), snd (dbOperation st)).
Proof.
  intros H. unfold Query.getRecent, bind. rewrite (dbOperation_ok st H).
  reflexivity.
Qed.

Lemma getOnDate_ok u d (st : State) :
  dbFault st (dbOps st) = None ->
  Query.getOnDate u d st = (Returned (Query.onDate u d st), snd (dbOperation st)).
Proof.
  intros H. unfold Query.getOnDate, bind. rewrite (dbOperation_ok st H).
  reflexivity.
Qed.

Lemma dbOperation_fault (st : State) message :
  dbFault st (dbOps st) = Some message ->
  dbOperation st = (Threw (ThrowError (Some message)), snd (dbOperation st)).
Proof. intros H. unfold dbOperation. rewrite H. reflexivity. Qed.

Lemma dbOperation_ai (st : State) : ai (snd (dbOperation st)) = ai st.
Proof. unfold dbOperation. destruct (dbFault st (dbOps st)); reflexivity. Qed.

Lemma keepsStore_getRecent u n : keepsStore (Query.getRecent u n).
Proof.
  apply keepsStore_bind; [apply keepsStore_dbOperation|]. intros _ st. reflexivity.
Qed.

Lemma keepsStore_getOnDate u d : keepsStore (Query.getOnDate u d).
Proof.
  apply keepsStore_bind; [apply keepsStore_dbOperation|]. intros _ st. reflexivity.
Qed.

Lemma keepsStore_readError label failure e :
  keepsStore (ReadsAudio.onRouteError label failure e).
Proof.
  destruct e as [|m]; cbn [ReadsAudio.onRouteError];
    (apply keepsStore_bind; [apply keepsStore_consoleError|]); intros _.
  - apply keepsStore_throw.
  - apply keepsStore_ret.
Qed.

End QueryFacts.

Section ReadRouteFacts.
Import Model Server.
Context {engine : Platform}.

Lemma getReflection_ok u d (st : State) :
  dbFault st (dbOps st) = None ->
  ReadsAudio.getReflection u d st
  = (Returned match Query.onDate u d st with
              | [] => Query.mkResponse 404 (Query.ErrorJson "Reflection not found" None)
              | doc :: _ => Query.mkResponse 200 (Query.FoundJson doc)
              end,
     snd (dbOperation st)).
Proof.
  intros H. unfold ReadsAudio.getReflection, tryCatch, bind.
  rewrite (getOnDate_ok u d st H).
  destruct (Query.onDate u d st); reflexivity.
Qed.

(** The weekly handlers up to the call of the analysis. *)
Lemma weekly_audio_ok requester u (st : State) :
  truthy requester = Some u ->
  dbFault st (dbOps st) = None ->
  ReadsAudio.analyzeWeekly requester st
  = let st1 := snd (dbOperation st) in
    let sel := Query.recentOf u 7 st in
    match sel with
    | [] =>
        (Returned (Query.mkResponse 200
           (Query.NotEnoughJson (Some "Not enough reflections for weekly analysis") None)),
         st1)
    | _ :: _ =>
        if (length sel <? 3)%nat then
          (Returned (Query.mkResponse 200
             (Query.NotEnoughJson
                (Some ("Need at least 3 reflections for analysis. Currently have "
                       +:+ Query.decimal (length sel) +:+ "."))
                (Some (length sel)))),
           st1)
        else
          match liftAi (GeminiAudio.analyzeWeeklyPatterns (Some sel)) st1 with
          | (Returned a, st2) =>
              (Returned (if negb (success a)
                         then Query.mkResponse 500
                                (Query.ErrorJson "Weekly analysis failed" (error a))
                         else Query.mkResponse 200
                                (Query.WeeklyJson (length sel) (data a)
                                   (Some (map ReadsAudio.brief sel)))),
               st2)
          | (Threw e, st2) =>
              ReadsAudio.onRouteError "Weekly analysis error:"
                "Failed to analyze weekly patterns" e st2
          end
    end.
Proof.
  intros Hu H. unfold ReadsAudio.analyzeWeekly. rewrite Hu.
  unfold tryCatch at 1. unfold bind at 1. rewrite (getRecent_ok u 7 st H).
  cbv zeta.
  destruct (Query.recentOf u 7 st) as [|r0 sel] eqn:Hsel; [reflexivity|].
  destruct (length (r0 :: sel) <? 3)%nat; [reflexivity|].
  unfold bind.
  destruct (liftAi (GeminiAudio.analyzeWeeklyPatterns (Some (r0 :: sel)))
              (snd (dbOperation st))) as [[a|e] st2]; [|reflexivity].
  destruct (negb (success a)); reflexivity.
Qed.

Lemma weekly_text_ok requester u (st : State) :
  truthy requester = Some u ->
  dbFault st (dbOps st) = None ->
  ReadsText.analyzeWeekly requester st
  = let st1 := snd (dbOperation st) in
    let sel := Query.recentOf u 7 st in
    match sel with
    | [] =>
        (Returned (Query.mkResponse 200
           (Query.NotEnoughJson (Some "Not enough reflections") None)), st1)
    | _ :: _ =>
        if (length sel <? 3)%nat then
          (Returned (Query.mkResponse 200
             (Query.NotEnoughJson None (Some (length sel)))), st1)
        else
          match liftAi (GeminiText.analyzeWeeklyPatterns (Some sel)) st1 with
          | (Returned a, st2) =>
              (Returned (if negb (success a)
                         then Query.mkResponse 500 (Query.FailureJson (error a))
                         else Query.mkResponse 200
                                (Query.WeeklyJson (length sel) (data a) None)),
               st2)
          | (Threw e, st2) =>
              (Returned (Query.mkResponse 500
                 (Query.FailureJson (Some "Weekly analysis failed"))),
               snd (consoleError "WEEKLY ANALYSIS ROUTE ERROR:"
                      match e with ThrowError m => m | ThrowUndefined => None end st2))
          end
    end.
Proof.
  intros Hu H. unfold ReadsText.analyzeWeekly. rewrite Hu.
  unfold tryCatch at 1. unfold bind at 1. rewrite (getRecent_ok u 7 st H).
  cbv zeta.
  destruct (Query.recentOf u 7 st) as [|r0 sel] eqn:Hsel; [reflexivity|].
  destruct (length (r0 :: sel) <? 3)%nat; [reflexivity|].
  unfold bind.
  destruct (liftAi (GeminiText.analyzeWeeklyPatterns (Some (r0 :: sel)))
              (snd (dbOperation st))) as [[a|e] st2]; [|reflexivity].
  destruct (negb (success a)); reflexivity.
Qed.

Lemma keepsStore_weekly_audio requester : keepsStore (ReadsAudio.analyzeWeekly requester).
Proof.
  unfold ReadsAudio.analyzeWeekly.
  apply keepsStore_tryCatch; [|intros e; apply keepsStore_readError].
  destruct (truthy requester) as [u|]; [|apply keepsStore_ret].
  apply keepsStore_bind; [apply keepsStore_getRecent|]. intros sel.
  destruct sel as [|r0 sel]; [apply keepsStore_ret|].
  destruct (length (r0 :: sel) <? 3)%nat; [apply keepsStore_ret|].
  apply keepsStore_bind; [apply keepsStore_liftAi|]. intros a.
  destruct (negb (success a)); apply keepsStore_ret.
Qed.

Lemma keepsStore_weekly_text requester : keepsStore (ReadsText.analyzeWeekly requester).
Proof.
  unfold ReadsText.analyzeWeekly.
  apply keepsStore_tryCatch.
  - destruct (truthy requester) as [u|]; [|apply keepsStore_ret].
    apply keepsStore_bind; [apply keepsStore_getRecent|]. intros sel.
    destruct sel as [|r0 sel]; [apply keepsStore_ret|].
    destruct (length (r0 :: sel) <? 3)%nat; [apply keepsStore_ret|].
    apply keepsStore_bind; [apply keepsStore_liftAi|]. intros a.
    destruct (negb (success a)); apply keepsStore_ret.
  - intros e. apply keepsStore_bind; [apply keepsStore_consoleError|].
    intros _. apply keepsStore_ret.
Qed.

Lemma keepsStore_getReflection u d : keepsStore (ReadsAudio.getReflection u d).
Proof.
  unfold ReadsAudio.getReflection.
  apply keepsStore_tryCatch; [|intros e; apply keepsStore_readError].
  apply keepsStore_bind; [apply keepsStore_getOnDate|]. intros docs.
  destruct docs; apply keepsStore_ret.
Qed.

End ReadRouteFacts.

(** X11. [GET /reflection/:userId/:date], when the store answers the
    query: 404 exactly when the collection holds no document with that
    [userId] and that [date]; otherwise 200 with one document, which is in
    the collection under its id and carries that [userId] and that
    [date]. *)
Theorem reflection_of_a_day :
  forall (u d : string) (st : Server.State),
    Server.dbFault st (Server.dbOps st) = None ->
    let r := ReadsAudio.getReflection u d st in
    let missing := Query.mkResponse 404 (Query.ErrorJson "Reflection not found" None) in
    (fst r = Returned missing
     <-> forall i f, Server.store st !! i = Some f ->
                     ~ (userId f = Some u /\ date f = Some d))
    /\ (fst r = Returned missing
        \/ exists doc,
             fst r = Returned (Query.mkResponse 200 (Query.FoundJson doc))
             /\ Server.store st !! id doc = Some (fields doc)
             /\ userId (fields doc) = Some u
             /\ date (fields doc) = Some d).
Proof.
  intros u d st Hdb r missing. subst r missing.
  rewrite (getReflection_ok u d st Hdb). cbn [fst].
  pose proof (onDate_spec u d st) as Hsel.
  destruct (Query.onDate u d st) as [|doc rest].
  - split; [|left; reflexivity].
    split; [|reflexivity].
    intros _ i f Hi [Hu Hd].
    assert (Hin : In (mkReflection i f) (Query.ofDay u d st))
      by (apply ofDay_spec; repeat split; assumption).
    rewrite Hsel in Hin. destruct Hin.
  - destruct Hsel as [_ Hin]. apply ofDay_spec in Hin.
    destruct Hin as (Hstore & Hu & Hd).
    split.
    + split; [discriminate|].
      intros Hnone. exfalso. apply (Hnone (id doc) (fields doc) Hstore).
      split; assumption.
    + right. exists doc. repeat split; assumption.
Qed.

Lemma reflection_of_a_day_witness :
  let st := Scenario.server (Scenario.replying "{}") Library.shelf in
  let r := ReadsAudio.getReflection "user-b" "2024-05-13" st in
  let missing := Query.mkResponse 404 (Query.ErrorJson "Reflection not found" None) in
  fst r = Returned missing
  \/ exists doc,
       fst r = Returned (Query.mkResponse 200 (Query.FoundJson doc))
       /\ Server.store st !! id doc = Some (fields doc)
       /\ userId (fields doc) = Some "user-b"
       /\ date (fields doc) = Some "2024-05-13".
Proof.
  apply (reflection_of_a_day "user-b" "2024-05-13"
           (Scenario.server (Scenario.replying "{}") Library.shelf)).
  reflexivity.
Defined.

(** X12. [POST /analyze-weekly], in both backends, when the store answers
    the query and holds fewer than three reflections of the user (among
    those with a [createdAt]): the answer is 200 with
    [hasEnoughData: false], the analysis is not called (no request, no
    sleep, no log line), and the collection is as it was. The first backend
    words a message and, from one reflection on, gives the count; the
    second gives a message for none and the count alone otherwise. *)
Theorem weekly_route_needs_three_reflections :
  forall (P : Platform) (requester : option string) (u : string) (st : Server.State),
    Server.truthy requester = Some u ->
    Server.dbFault st (Server.dbOps st) = None ->
    (length (Query.datedOf u st) < 3)%nat ->
    let count := length (Query.datedOf u st) in
    let a := ReadsAudio.analyzeWeekly requester st in
    let b := ReadsText.analyzeWeekly requester st in
    fst a = Returned (Query.mkResponse 200
              match count with
              | O => Query.NotEnoughJson
                       (Some "Not enough reflections for weekly analysis") None
              | 1%nat => Query.NotEnoughJson
                       (Some "Need at least 3 reflections for analysis. Currently have 1.")
                       (Some 1%nat)
              | _ => Query.NotEnoughJson
                       (Some "Need at least 3 reflections for analysis. Currently have 2.")
                       (Some 2%nat)
              end)
    /\ fst b = Returned (Query.mkResponse 200
                 match count with
                 | O => Query.NotEnoughJson (Some "Not enough reflections") None
                 | _ => Query.NotEnoughJson None (Some count)
                 end)
    /\ Server.ai (snd a) = Server.ai st
    /\ Server.ai (snd b) = Server.ai st
    /\ Server.store (snd a) = Server.store st
    /\ Server.store (snd b) = Server.store st.
Proof.
  intros P requester u st Hu Hdb Hfew count a b. subst a b.
  rewrite (weekly_audio_ok requester u st Hu Hdb),
    (weekly_text_ok requester u st Hu Hdb).
  cbv zeta.
  destruct (recentOf_spec u 7 st) as [Hlen _].
  rewrite Nat.min_r in Hlen by lia. fold count in Hlen, Hfew.
  destruct (Query.recentOf u 7 st) as [|r0 sel] eqn:Hsel.
  - cbn [length] in Hlen. rewrite <- Hlen. cbn [fst snd].
    rewrite dbOperation_ai, dbOperation_store. repeat split.
  - replace (length (r0 :: sel) <? 3)%nat with true
      by (symmetry; apply Nat.ltb_lt; lia).
    cbn [fst snd]. rewrite dbOperation_ai, dbOperation_store. rewrite Hlen.
    destruct count as [|[|[|count]]]; [discriminate Hlen| | |lia];
      repeat split.
Qed.

Lemma weekly_route_needs_three_reflections_witness :
  let st := Scenario.server (Scenario.replying "{}") Library.shelf in
  let a := ReadsAudio.analyzeWeekly (engine := referencePlatform) (Some "user-a") st in
  let b := ReadsText.analyzeWeekly (engine := referencePlatform) (Some "user-a") st in
  fst a = Returned (Query.mkResponse 200
            (Query.NotEnoughJson
               (Some "Need at least 3 reflections for analysis. Currently have 2.")
               (Some 2%nat)))
  /\ fst b = Returned (Query.mkResponse 200 (Query.NotEnoughJson None (Some 2%nat)))
  /\ Server.ai (snd a) = Server.ai st
  /\ Server.ai (snd b) = Server.ai st
  /\ Server.store (snd a) = Server.store st
  /\ Server.store (snd b) = Server.store st.
Proof.
  apply (weekly_route_needs_three_reflections referencePlatform (Some "user-a") "user-a"
           (Scenario.server (Scenario.replying "{}") Library.shelf)).
  - reflexivity.
  - reflexivity.
  - vm_compute. lia.
Defined.

Section WeeklyRouteFacts.
Import Retrier Model Server.
Context {engine : Platform}.

Lemma liftAi_ai {A} (m : Task (Retrier.World Transport) A) (st : State) :
  ai (snd (liftAi m st)) = snd (m (ai st)) /\ fst (liftAi m st) = fst (m (ai st)).
Proof. unfold liftAi. destruct (m (ai st)); split; reflexivity. Qed.

Lemma readError_inner label failure e (st : State) :
  inner (ai (snd (ReadsAudio.onRouteError label failure e st))) = inner (ai st).
Proof. destruct e; reflexivity. Qed.

Lemma readError_response label failure e (st : State) :
  forall resp,
    fst (ReadsAudio.onRouteError label failure e st) = Returned resp ->
    exists details, resp = Query.mkResponse 500 (Query.ErrorJson failure details).
Proof.
  intros resp. destruct e as [|m]; cbn; [discriminate|].
  intros H. injection H as <-. exists m. reflexivity.
Qed.

(** What the weekly handlers send to the model and answer, from three
    reflections on. *)
Lemma weekly_text_enough requester u (st : State) :
  truthy requester = Some u ->
  dbFault st (dbOps st) = None ->
  (3 <= length (Query.recentOf u 7 st))%nat ->
  let sel := Query.recentOf u 7 st in
  let r := ReadsText.analyzeWeekly requester st in
  requests (inner (ai (snd r)))
  = requests (inner (ai st))
    ++ [[Text (TextOnlyWeeklyPrompt (JArray (map GeminiText.summarize sel)))]]
  /\ forall resp, fst r = Returned resp -> Query.status resp = 200 ->
       exists data, Query.body resp = Query.WeeklyJson (length sel) data None.
Proof.
  intros Hu Hdb Hlen sel r. subst r.
  rewrite (weekly_text_ok requester u st Hu Hdb). cbv zeta. fold sel.
  fold sel in Hlen.
  destruct sel as [|r0 rest] eqn:Hsel; [cbn in Hlen; lia|].
  replace (length (r0 :: rest) <? 3)%nat with false
    by (symmetry; apply Nat.ltb_ge; exact Hlen).
  destruct (liftAi_ai (GeminiText.analyzeWeeklyPatterns (Some (r0 :: rest)))
              (snd (dbOperation st))) as [Hai _].
  pose proof (textOnly_weekly_sends (r0 :: rest) (ai (snd (dbOperation st))) Hlen)
    as Hsent.
  unfold GeminiText.World in Hsent.
  rewrite <- Hai, dbOperation_ai in Hsent.
  destruct (liftAi (GeminiText.analyzeWeeklyPatterns (Some (r0 :: rest)))
              (snd (dbOperation st))) as [[a|e] st2]; cbn [fst snd] in *.
  - split; [exact Hsent|].
    intros resp H. injection H as <-.
    destruct (negb (success a)); cbn; [discriminate|].
    intros _. eexists; reflexivity.
  - split; [exact Hsent|].
    intros resp H. injection H as <-. cbn. discriminate.
Qed.

Lemma weekly_audio_enough requester u (st : State) summary :
  truthy requester = Some u ->
  dbFault st (dbOps st) = None ->
  (3 <= length (Query.recentOf u 7 st))%nat ->
  GeminiAudio.summarizeAll (Query.recentOf u 7 st) = Returned summary ->
  let sel := Query.recentOf u 7 st in
  let r := ReadsAudio.analyzeWeekly requester st in
  (exists k,
     requests (inner (ai (snd r)))
     = requests (inner (ai st))
       ++ repeat [Text (WeeklyPrompt (length sel) (JArray summary))] (S k))
  /\ forall resp, fst r = Returned resp -> Query.status resp = 200 ->
       exists data,
         Query.body resp
         = Query.WeeklyJson (length sel) data (Some (map ReadsAudio.brief sel)).
Proof.
  intros Hu Hdb Hlen Hsum sel r. subst r.
  rewrite (weekly_audio_ok requester u st Hu Hdb). cbv zeta. fold sel.
  fold sel in Hlen, Hsum.
  destruct sel as [|r0 rest] eqn:Hsel; [cbn in Hlen; lia|].
  replace (length (r0 :: rest) <? 3)%nat with false
    by (symmetry; apply Nat.ltb_ge; exact Hlen).
  destruct (liftAi_ai (GeminiAudio.analyzeWeeklyPatterns (Some (r0 :: rest)))
              (snd (dbOperation st))) as [Hai _].
  assert (Hsent : exists k,
            requests (inner (snd (GeminiAudio.analyzeWeeklyPatterns
                                    (Some (r0 :: rest)) (ai (snd (dbOperation st))))))
            = requests (inner (ai st))
              ++ repeat [Text (WeeklyPrompt (length (r0 :: rest)) (JArray summary))]
                        (S k)).
  { unfold GeminiAudio.analyzeWeeklyPatterns, bind, ofOutcome. rewrite Hsum.
    destruct (gateway_sends "Weekly analysis error:"
                [Text (WeeklyPrompt (length (r0 :: rest)) (JArray summary))]
                (ai (snd (dbOperation st)))) as [k Hk].
    exists k. rewrite Hk, dbOperation_ai. reflexivity. }
  destruct Hsent as [k Hsent]. unfold GeminiAudio.World in Hsent.
  rewrite <- Hai in Hsent.
  destruct (liftAi (GeminiAudio.analyzeWeeklyPatterns (Some (r0 :: rest)))
              (snd (dbOperation st))) as [[a|e] st2]; cbn [fst snd] in *.
  - split; [exists k; exact Hsent|].
    intros resp H. injection H as <-.
    destruct (negb (success a)); cbn; [discriminate|].
    intros _. eexists; reflexivity.
  - split; [exists k; rewrite readError_inner; exact Hsent|].
    intros resp H Hstatus.
    destruct (readError_response _ _ _ _ _ H) as [details ->]. discriminate Hstatus.
Qed.

End WeeklyRouteFacts.

(** X13. [POST /analyze-weekly] from three reflections on, when the store
    answers the query. The reflections handed to the analysis number
    between three and seven, each is a document of the collection, and each
    carries the [userId] of the request: no other user's reflection reaches
    the model. The second backend sends one prompt, built from these
    reflections; the first sends its prompt, built from them, at least
    once. An answer of 200 reports their number. *)
Theorem weekly_route_analyses_the_users_reflections :
  forall (P : Platform) (requester : option string) (u : string) (st : Server.State),
    Server.truthy requester = Some u ->
    Server.dbFault st (Server.dbOps st) = None ->
    (3 <= length (Query.datedOf u st))%nat ->
    let sel := Query.recentOf u 7 st in
    let a := ReadsAudio.analyzeWeekly requester st in
    let b := ReadsText.analyzeWeekly requester st in
    (3 <= length sel <= 7)%nat
    /\ (forall r, In r sel ->
          Server.store st !! id r = Some (fields r) /\ userId (fields r) = Some u)
    /\ Model.requests (Retrier.inner (Server.ai (snd b)))
       = Model.requests (Retrier.inner (Server.ai st))
         ++ [[Model.Text (Model.TextOnlyWeeklyPrompt
                            (JArray (map GeminiText.summarize sel)))]]
    /\ (forall resp, fst b = Returned resp -> Query.status resp = 200 ->
          exists data, Query.body resp = Query.WeeklyJson (length sel) data None)
    /\ (forall summary,
          GeminiAudio.summarizeAll sel = Returned summary ->
          (exists k,
             Model.requests (Retrier.inner (Server.ai (snd a)))
             = Model.requests (Retrier.inner (Server.ai st))
               ++ repeat [Model.Text (Model.WeeklyPrompt (length sel) (JArray summary))]
                         (S k))
          /\ forall resp, fst a = Returned resp -> Query.status resp = 200 ->
               exists data,
                 Query.body resp
                 = Query.WeeklyJson (length sel) data (Some (map ReadsAudio.brief sel))).
Proof.
  intros P requester u st Hu Hdb Hmany sel a b. subst a b.
  destruct (recentOf_spec u 7 st) as [Hlen Hown]. fold sel in Hlen, Hown.
  assert (Hsel : (3 <= length sel <= 7)%nat) by lia.
  split; [exact Hsel|]. split; [exact Hown|].
  destruct (weekly_text_enough requester u st Hu Hdb ltac:(apply Hsel)) as [Hb Hb'].
  split; [exact Hb|]. split; [exact Hb'|].
  intros summary Hsum.
  exact (weekly_audio_enough requester u st summary Hu Hdb ltac:(apply Hsel) Hsum).
Qed.

Lemma weekly_route_analyses_the_users_reflections_witness :
  let st := Scenario.server (Scenario.replying "{}") Library.shelf in
  let sel := Query.recentOf "user-b" 7 st in
  (3 <= length sel <= 7)%nat
  /\ (forall r, In r sel ->
        Server.store st !! id r = Some (fields r) /\ userId (fields r) = Some "user-b")
  /\ Model.requests (Retrier.inner (Server.ai (snd
       (ReadsText.analyzeWeekly (engine := referencePlatform) (Some "user-b") st))))
     = Model.requests (Retrier.inner (Server.ai st))
       ++ [[Model.Text (Model.TextOnlyWeeklyPrompt
                          (JArray (map GeminiText.summarize sel)))]].
Proof.
  destruct (weekly_route_analyses_the_users_reflections referencePlatform
              (Some "user-b") "user-b"
              (Scenario.server (Scenario.replying "{}") Library.shelf))
    as (H1 & H2 & H3 & _).
  - reflexivity.
  - reflexivity.
  - vm_compute. lia.
  - split; [exact H1|]. split; [exact H2|exact H3].
Defined.

(** X14. The reading routes never write: whatever the request, the
    store's behaviour and the model's, [GET /reflection/:userId/:date] and
    both [POST /analyze-weekly] handlers leave the collection as they found
    it. *)
Theorem reading_routes_keep_the_collection :
  forall (P : Platform) (requester : option string) (u d : string) (st : Server.State),
    Server.store (snd (ReadsAudio.getReflection u d st)) = Server.store st
    /\ Server.store (snd (ReadsAudio.analyzeWeekly requester st)) = Server.store st
    /\ Server.store (snd (ReadsText.analyzeWeekly requester st)) = Server.store st.
Proof.
  intros P requester u d st.
  split; [apply keepsStore_getReflection|].
  split; [apply keepsStore_weekly_audio|apply keepsStore_weekly_text].
Qed.

(** ** The store at fault, and what a delete touches *)

Section OutageFacts.
Import Retrier Model Server.
Context {engine : Platform}.

Lemma delete_outage id requester (st : State) message :
  dbFault st (dbOps st) = Some message ->
  RoutesAudio.deleteReflection id requester st
  = (Returned (mkResponse 500
                 (ErrorJson "Failed to delete reflection" (Some message))),
     snd (consoleError "Delete error:" (Some message) (snd (dbOperation st)))).
Proof.
  intros H. unfold RoutesAudio.deleteReflection, tryCatch, docGet.
  unfold bind at 1. unfold bind at 1.
  rewrite (dbOperation_fault st message H). reflexivity.
Qed.

Lemma getReflection_outage u d (st : State) message :
  dbFault st (dbOps st) = Some message ->
  ReadsAudio.getReflection u d st
  = (Returned (Query.mkResponse 500
                 (Query.ErrorJson "Failed to fetch reflection" (Some message))),
     snd (consoleError "Fetch error:" (Some message) (snd (dbOperation st)))).
Proof.
  intros H. unfold ReadsAudio.getReflection, tryCatch, Query.getOnDate.
  unfold bind at 1. unfold bind at 1.
  rewrite (dbOperation_fault st message H). reflexivity.
Qed.

Lemma weekly_audio_outage requester u (st : State) message :
  truthy requester = Some u ->
  dbFault st (dbOps st) = Some message ->
  ReadsAudio.analyzeWeekly requester st
  = (Returned (Query.mkResponse 500
                 (Query.ErrorJson "Failed to analyze weekly patterns" (Some message))),
     snd (consoleError "Weekly analysis error:" (Some message) (snd (dbOperation st)))).
Proof.
  intros Hu H. unfold ReadsAudio.analyzeWeekly. rewrite Hu.
  unfold tryCatch, Query.getRecent.
  unfold bind at 1. unfold bind at 1.
  rewrite (dbOperation_fault st message H). reflexivity.
Qed.

Lemma weekly_text_outage requester u (st : State) message :
  truthy requester = Some u ->
  dbFault st (dbOps st) = Some message ->
  ReadsText.analyzeWeekly requester st
  = (Returned (Query.mkResponse 500
                 (Query.FailureJson (Some "Weekly analysis failed"))),
     snd (consoleError "WEEKLY ANALYSIS ROUTE ERROR:" (Some message)
            (snd (dbOperation st)))).
Proof.
  intros Hu H. unfold ReadsText.analyzeWeekly. rewrite Hu.
  unfold tryCatch, Query.getRecent.
  unfold bind at 1. unfold bind at 1.
  rewrite (dbOperation_fault st message H). reflexivity.
Qed.

Lemma consoleError_after_operation label payload (st : State) :
  store (snd (consoleError label payload (snd (dbOperation st)))) = store st
  /\ ai (snd (consoleError label payload (snd (dbOperation st))))
     = consoleWrite (LogLine label payload) (ai st).
Proof.
  unfold consoleError, consoleEntry. cbn [snd setAi store ai].
  rewrite dbOperation_store, dbOperation_ai. split; reflexivity.
Qed.

(** Every way [DELETE /reflection/:id] can end. *)
Lemma delete_cases id requester (st : State) :
  let r := RoutesAudio.deleteReflection id requester st in
  (store (snd r) = store st
   /\ forall resp, fst r = Returned resp -> status resp <> 200)
  \/ (fst r = Returned (mkResponse 200 DeletedJson)
      /\ store (snd r) = delete id (store st)
      /\ exists f, store st !! id = Some f /\ userId f = requester).
Proof.
  intros r. subst r.
  destruct (dbFault st (dbOps st)) as [message|] eqn:Hdb.
  { left. rewrite (delete_outage id requester st message Hdb). cbn [fst snd].
    split; [apply consoleError_after_operation|].
    intros resp H. injection H as <-. cbn. discriminate. }
  destruct (store st !! id) as [f|] eqn:Hdoc.
  2: { left. rewrite (delete_missing id requester st Hdb Hdoc). cbn [fst snd].
       split; [apply dbOperation_store|].
       intros resp H. injection H as <-. cbn. discriminate. }
  destruct (decide (userId f = requester)) as [Hown|Hother].
  2: { left. rewrite (delete_foreign id requester st f Hdb Hdoc Hother). cbn [fst snd].
       split; [apply dbOperation_store|].
       intros resp H. injection H as <-. cbn. discriminate. }
  rewrite (delete_owned id requester st f Hdb Hdoc Hown).
  destruct (dbFault st (S (dbOps st))) as [message|].
  - left. cbn [RoutesAudio.onRouteError]. unfold bind, consoleError, consoleEntry, respond, ret.
    cbn [fst snd setAi store]. rewrite !dbOperation_store.
    split; [reflexivity|].
    intros resp H. injection H as <-. cbn. discriminate.
  - right. cbn [fst snd setStore store].
    split; [reflexivity|]. split; [reflexivity|].
    exists f. split; [reflexivity|exact Hown].
Qed.

End OutageFacts.

(** X15. When the store rejects the read, no route reaches the model or
    changes the collection: [DELETE /reflection/:id],
    [GET /reflection/:userId/:date] and the weekly handler of the first
    backend answer 500 with their own error text and the store's message
    as [details]; the weekly handler of the second backend answers 500
    with "Weekly analysis failed" and keeps the message to the log. *)
Theorem store_outage_answers_500 :
  forall (P : Platform) (id u d : string) (requester : option string)
         (message : string) (st : Server.State),
    Server.dbFault st (Server.dbOps st) = Some message ->
    Server.truthy requester = Some u ->
    let logged (label : string) (st' : Server.State) :=
      Server.store st' = Server.store st
      /\ Server.ai st'
         = Retrier.consoleWrite (LogLine label (Some message)) (Server.ai st) in
    let deleted := RoutesAudio.deleteReflection id requester st in
    let fetched := ReadsAudio.getReflection u d st in
    let a := ReadsAudio.analyzeWeekly requester st in
    let b := ReadsText.analyzeWeekly requester st in
    (fst deleted
     = Returned (Server.mkResponse 500
                   (Server.ErrorJson "Failed to delete reflection" (Some message)))
     /\ logged "Delete error:" (snd deleted))
    /\ (fst fetched
        = Returned (Query.mkResponse 500
                      (Query.ErrorJson "Failed to fetch reflection" (Some message)))
        /\ logged "Fetch error:" (snd fetched))
    /\ (fst a
        = Returned (Query.mkResponse 500
                      (Query.ErrorJson "Failed to analyze weekly patterns" (Some message)))
        /\ logged "Weekly analysis error:" (snd a))
    /\ (fst b
        = Returned (Query.mkResponse 500
                      (Query.FailureJson (Some "Weekly analysis failed")))
        /\ logged "WEEKLY ANALYSIS ROUTE ERROR:" (snd b)).
Proof.
  intros P id u d requester message st Hdb Hu logged deleted fetched a b.
  subst logged deleted fetched a b. cbv beta.
  rewrite (delete_outage id requester st message Hdb),
    (getReflection_outage u d st message Hdb),
    (weekly_audio_outage requester u st message Hu Hdb),
    (weekly_text_outage requester u st message Hu Hdb).
  cbn [fst snd].
  repeat split; apply consoleError_after_operation.
Qed.

Lemma store_outage_answers_500_witness :
  let st := Server.mkState (Scenario.fresh (Scenario.replying "{}")) Library.shelf
              (fun _ => Some "UNAVAILABLE: the service is down") 0%nat
              (fun _ => "auto") 0%nat (fun _ => Scenario.clockAt) 0%nat in
  fst (RoutesAudio.deleteReflection "a1" (Some "user-a") st)
  = Returned (Server.mkResponse 500
                (Server.ErrorJson "Failed to delete reflection"
                   (Some "UNAVAILABLE: the service is down")))
  /\ fst (ReadsText.analyzeWeekly (engine := referencePlatform) (Some "user-a") st)
     = Returned (Query.mkResponse 500
                   (Query.FailureJson (Some "Weekly analysis failed"))).
Proof.
  destruct (store_outage_answers_500 referencePlatform "a1" "user-a" "2024-05-10"
              (Some "user-a") "UNAVAILABLE: the service is down"
              (Server.mkState (Scenario.fresh (Scenario.replying "{}")) Library.shelf
                 (fun _ => Some "UNAVAILABLE: the service is down") 0%nat
                 (fun _ => "auto") 0%nat (fun _ => Scenario.clockAt) 0%nat))
    as ((Hd & _) & _ & _ & (Hb & _)).
  - reflexivity.
  - reflexivity.
  - split; [exact Hd|exact Hb].
Defined.

(** X16. [DELETE /reflection/:id] touches one document at most. However
    the request ends, every other document is as it was; and unless the
    answer is 200, so is the document itself. An answer of 200 means the
    document was there, carried the requester's [userId], and is gone. *)
Theorem delete_touches_one_document :
  forall (id : string) (requester : option string) (st : Server.State),
    let r := RoutesAudio.deleteReflection id requester st in
    (forall other, other <> id ->
       Server.store (snd r) !! other = Server.store st !! other)
    /\ (forall resp, fst r = Returned resp -> Server.status resp <> 200 ->
          Server.store (snd r) = Server.store st)
    /\ (forall e, fst r = Threw e -> Server.store (snd r) = Server.store st)
    /\ (forall resp, fst r = Returned resp -> Server.status resp = 200 ->
          Server.store (snd r) !! id = None
          /\ exists f, Server.store st !! id = Some f /\ userId f = requester).
Proof.
  intros id requester st r.
  destruct (delete_cases id requester st) as [[Hsame Hno] | (Hok & Hgone & Hwas)];
    fold r in Hsame, Hno || fold r in Hok, Hgone.
  - split; [intros other _; rewrite Hsame; reflexivity|].
    split; [intros; exact Hsame|].
    split; [intros; exact Hsame|].
    intros resp Hresp Hstatus. exfalso. exact (Hno resp Hresp Hstatus).
  - split.
    { intros other Hne. rewrite Hgone. apply lookup_delete_ne. congruence. }
    split.
    { intros resp Hresp Hstatus. rewrite Hok in Hresp. injection Hresp as <-.
      exfalso. apply Hstatus. reflexivity. }
    split.
    { intros e He. rewrite Hok in He. discriminate. }
    intros resp _ _. split; [rewrite Hgone; apply lookup_delete_eq|exact Hwas].
Qed.

(** X17. Deleting twice: after a delete that answered 200, a second
    delete of the same id, by anyone, answers 404 when the store answers
    the read, and changes nothing. *)
Theorem second_delete_finds_nothing :
  forall (id : string) (requester again : option string) (st : Server.State),
    let first := RoutesAudio.deleteReflection id requester st in
    fst first = Returned (Server.mkResponse 200 Server.DeletedJson) ->
    Server.dbFault (snd first) (Server.dbOps (snd first)) = None ->
    let second := RoutesAudio.deleteReflection id again (snd first) in
    fst second
    = Returned (Server.mkResponse 404 (Server.ErrorJson "Reflection not found" None))
    /\ Server.store (snd second) = Server.store (snd first).
Proof.
  intros id requester again st first Hok Hdb second.
  assert (Hgone : Server.store (snd first) !! id = None).
  { destruct (delete_cases id requester st) as [[_ Hno] | (_ & Hgone & _)].
    - exfalso. apply (Hno _ Hok). reflexivity.
    - fold first in Hgone. rewrite Hgone. apply lookup_delete_eq. }
  subst second.
  rewrite (delete_missing id again (snd first) Hdb Hgone). cbn [fst snd].
  split; [reflexivity|apply dbOperation_store].
Qed.

Lemma second_delete_finds_nothing_witness :
  let st := Scenario.server (Scenario.replying "{}") Library.shelf in
  let first := RoutesAudio.deleteReflection "a1" (Some "user-a") st in
  fst (RoutesAudio.deleteReflection "a1" (Some "user-a") (snd first))
  = Returned (Server.mkResponse 404 (Server.ErrorJson "Reflection not found" None))
  /\ Server.store (snd (RoutesAudio.deleteReflection "a1" (Some "user-a") (snd first)))
     = Server.store (snd first).
Proof.
  apply (second_delete_finds_nothing "a1" (Some "user-a") (Some "user-a")
           (Scenario.server (Scenario.replying "{}") Library.shelf)).
  - vm_compute. reflexivity.
  - reflexivity.
Defined.

(** ** A reflection from its creation on *)

Section CreatedFacts.
Import Retrier Model Server.
Context {engine : Platform}.

Lemma truthy_some field u : truthy field = Some u -> field = Some u.
Proof. destruct field as [[|c s]|]; cbn; congruence. Qed.

(** A 200 of [/analyze-daily] in the first backend: the record is new in
    the collection and carries the user of the request and the effective
    date. *)
Lemma analyzeDaily_audio_created (req : DailyRequest) (st : State) newId fields :
  fst (RoutesAudio.analyzeDaily req st)
  = Returned (mkResponse 200 (CreatedJson newId fields)) ->
  exists u,
    reqUserId req = Some u
    /\ userId fields = Some u
    /\ date fields = Some (effectiveDate (reqDate req) st)
    /\ store st !! newId = None
    /\ store (snd (RoutesAudio.analyzeDaily req st)) = <[newId := fields]> (store st).
Proof.
  intros Hcreated.
  destruct (analyzeDaily_audio_paths req st) as (dateStr & st1 & Hdate & Hpath).
  destruct (dateOrToday_spec (reqDate req) st) as (st1' & Hdate' & Hst1 & _).
  rewrite Hdate in Hdate'. inversion Hdate'; subst dateStr st1'. clear Hdate'.
  destruct (truthy (reqUserId req)) as [u|] eqn:Hu.
  2: { rewrite Hpath in Hcreated. discriminate. }
  destruct (RoutesAudio.inputAnalysis req) as [run|] eqn:Hin.
  2: { rewrite Hpath in Hcreated. discriminate. }
  pose proof (inputAnalysis_keepsStore req run Hin st1) as Hrun.
  destruct (run st1) as [[a|e] st2] eqn:Erun; cbn [snd] in Hrun.
  2: { rewrite Hpath in Hcreated.
       destruct (onRouteError_spec "Analysis error:" "Failed to analyze reflection" e st2)
         as [_ Hr].
       destruct (Hr _ Hcreated) as [details Hd]. discriminate. }
  pose proof (saveAnalysis_spec (fun a => ErrorJson "Analysis failed" (error a))
                u (effectiveDate (reqDate req) st) a st2) as Hsave.
  destruct (saveAnalysis _ u (effectiveDate (reqDate req) st) a st2) as [[resp|e] st3].
  - rewrite Hpath in Hcreated |- *. cbn [fst snd] in Hcreated |- *.
    injection Hcreated as ->.
    destruct Hsave as [(_ & Hresp & _) | (_ & newId' & fields' & Hresp & Hu' & Hd & Hfree & Hst)].
    + discriminate.
    + injection Hresp as <- <-.
      exists u. split; [exact (truthy_some _ _ Hu)|].
      split; [exact Hu'|]. split; [exact Hd|].
      rewrite Hrun, Hst1 in Hfree. split; [exact Hfree|].
      rewrite Hst, Hrun, Hst1. reflexivity.
  - rewrite Hpath in Hcreated.
    destruct (onRouteError_spec "Analysis error:" "Failed to analyze reflection" e st3)
      as [_ Hr].
    destruct (Hr _ Hcreated) as [details Hd]. discriminate.
Qed.

End CreatedFacts.

(** X18. Create, then delete. After [/analyze-daily] answered 200 with a
    new record, a delete of the returned id by the same [userId] answers
    200 when the store accepts the read and the delete, and the collection
    is again what it was before the record was created. *)
Theorem create_then_delete_restores_the_collection :
  forall (P : Platform) (req : Server.DailyRequest) (st : Server.State)
         (newId : string) (fields : ReflectionData),
    let created := RoutesAudio.analyzeDaily req st in
    fst created = Returned (Server.mkResponse 200 (Server.CreatedJson newId fields)) ->
    Server.dbFault (snd created) (Server.dbOps (snd created)) = None ->
    Server.dbFault (snd created) (S (Server.dbOps (snd created))) = None ->
    let deleted := RoutesAudio.deleteReflection newId (Server.reqUserId req) (snd created) in
    fst deleted = Returned (Server.mkResponse 200 Server.DeletedJson)
    /\ Server.store (snd deleted) = Server.store st.
Proof.
  intros P req st newId fields created Hcreated Hread Hdelete deleted.
  destruct (analyzeDaily_audio_created req st newId fields Hcreated)
    as (u & Hreq & Hu & _ & Hfree & Hstore).
  fold created in Hstore.
  assert (Hdoc : Server.store (snd created) !! newId = Some fields)
    by (rewrite Hstore; apply lookup_insert_eq).
  assert (Hown : userId fields = Server.reqUserId req) by congruence.
  subst deleted.
  rewrite (delete_owned newId (Server.reqUserId req) (snd created) fields Hread Hdoc Hown).
  rewrite Hdelete. cbn [fst snd Server.setStore Server.store].
  split; [reflexivity|].
  rewrite Hstore. apply delete_insert_id. exact Hfree.
Qed.

Lemma create_then_delete_restores_the_collection_witness :
  let st := Scenario.server (Scenario.replying Scenario.sampleJson) Library.shelf in
  let created := RoutesAudio.analyzeDaily (engine := referencePlatform)
                   Scenario.textRequest st in
  let deleted := RoutesAudio.deleteReflection "auto-000" (Some "user-a") (snd created) in
  fst deleted = Returned (Server.mkResponse 200 Server.DeletedJson)
  /\ Server.store (snd deleted) = Server.store st.
Proof.
  apply (create_then_delete_restores_the_collection referencePlatform
           Scenario.textRequest
           (Scenario.server (Scenario.replying Scenario.sampleJson) Library.shelf)
           "auto-000" Scenario.savedRecord).
  - vm_compute. reflexivity.
  - reflexivity.
  - reflexivity.
Defined.

(** X19. Create, then read. After [/analyze-daily] answered 200 for a
    user, [GET /reflection/:userId/:date] for that user and the effective
    date of the request answers 200 when the store answers the query, with
    a document of that user and that date; it is the new record itself
    when the user had no reflection for that date before. *)
Theorem created_reflection_is_found_by_its_date :
  forall (P : Platform) (req : Server.DailyRequest) (st : Server.State)
         (newId u : string) (record : ReflectionData),
    let created := RoutesAudio.analyzeDaily req st in
    let d := Server.effectiveDate (Server.reqDate req) st in
    fst created = Returned (Server.mkResponse 200 (Server.CreatedJson newId record)) ->
    Server.reqUserId req = Some u ->
    Server.dbFault (snd created) (Server.dbOps (snd created)) = None ->
    exists doc,
      fst (ReadsAudio.getReflection u d (snd created))
      = Returned (Query.mkResponse 200 (Query.FoundJson doc))
      /\ userId (fields doc) = Some u
      /\ date (fields doc) = Some d
      /\ ((forall i f, Server.store st !! i = Some f ->
                       ~ (userId f = Some u /\ date f = Some d)) ->
          doc = mkReflection newId record).
Proof.
  intros P req st newId u record created d Hcreated Hreq Hdb.
  destruct (analyzeDaily_audio_created req st newId record Hcreated)
    as (u' & Hreq' & Hu & Hd & Hfree & Hstore).
  assert (u' = u) by congruence. subst u'.
  fold created in Hstore. fold d in Hd.
  rewrite (getReflection_ok u d (snd created) Hdb). cbn [fst].
  pose proof (onDate_spec u d (snd created)) as Hsel.
  destruct (Query.onDate u d (snd created)) as [|doc rest].
  - exfalso.
    assert (Hin : In (mkReflection newId record) (Query.ofDay u d (snd created))).
    { apply ofDay_spec. cbn [id fields]. rewrite Hstore.
      split; [apply lookup_insert_eq|]. split; assumption. }
    rewrite Hsel in Hin. destruct Hin.
  - destruct Hsel as [_ Hin]. apply ofDay_spec in Hin.
    destruct Hin as (Hdoc & Hdu & Hdd).
    exists doc. split; [reflexivity|]. split; [exact Hdu|]. split; [exact Hdd|].
    intros Hnone. rewrite Hstore in Hdoc.
    destruct (decide (newId = id doc)) as [Heq|Hne].
    + rewrite Heq, lookup_insert_eq in Hdoc. injection Hdoc as Hf.
      destruct doc as [i f]. cbn [id fields] in *. congruence.
    + rewrite lookup_insert_ne in Hdoc by exact Hne.
      exfalso. apply (Hnone _ _ Hdoc). split; assumption.
Qed.

Lemma created_reflection_is_found_by_its_date_witness :
  let st := Scenario.server (Scenario.replying Scenario.sampleJson) Library.shelf in
  let created := RoutesAudio.analyzeDaily (engine := referencePlatform)
                   Scenario.textRequest st in
  exists doc,
    fst (ReadsAudio.getReflection "user-a" "2024-05-17" (snd created))
    = Returned (Query.mkResponse 200 (Query.FoundJson doc))
    /\ userId (fields doc) = Some "user-a"
    /\ date (fields doc) = Some "2024-05-17"
    /\ ((forall i f, Server.store st !! i = Some f ->
                     ~ (userId f = Some "user-a" /\ date f = Some "2024-05-17")) ->
        doc = mkReflection "auto-000" Scenario.savedRecord).
Proof.
  apply (created_reflection_is_found_by_its_date referencePlatform
           Scenario.textRequest
           (Scenario.server (Scenario.replying Scenario.sampleJson) Library.shelf)
           "auto-000" "user-a" Scenario.savedRecord).
  - vm_compute. reflexivity.
  - reflexivity.
  - reflexivity.
Defined.

Section BusyRouteFacts.
Import Retrier Model Server.
Context {engine : Platform}.

Lemma liftAi_busy label request (st : State) :
  (forall n, exists m,
     behaviour (inner (ai st)) (length (requests (inner (ai st))) + n)
     = Threw (ThrowError m)
     /\ GeminiAudio.quotaSignal m = true) ->
  exists st2,
    liftAi (tryCatch (GeminiAudio.attempt request) (GeminiAudio.onError label)) st
    = (Returned GeminiAudio.rateLimitedResult, st2)
    /\ store st2 = store st
    /\ slept (ai st2) = slept (ai st) ++ [2000; 4000]
    /\ requests (inner (ai st2))
       = requests (inner (ai st)) ++ [request; request; request].
Proof.
  intros Hbusy.
  destruct (gateway_busy label request (ai st) Hbusy) as (Hr & Hslept & Hreq).
  unfold liftAi.
  destruct (tryCatch (GeminiAudio.attempt request) (GeminiAudio.onError label) (ai st))
    as [o w']. cbn [fst snd] in Hr, Hslept, Hreq. subst o.
  eexists. split; [reflexivity|]. cbn [setAi store ai]. repeat split; assumption.
Qed.

End BusyRouteFacts.

(** X20. A busy model service at the daily route of the first backend.
    When the request names a user and carries audio or text, and the
    service rejects every call with "429" or "RESOURCE_EXHAUSTED" in the
    message, the route answers 500 "Analysis failed" with the busy message
    as [details], after three requests and sleeps of 2000 and 4000 ms, and
    stores nothing. *)
Theorem busy_service_fails_the_daily_route :
  forall (P : Platform) (req : Server.DailyRequest) (u : string) (st : Server.State),
    Server.truthy (Server.reqUserId req) = Some u ->
    RoutesAudio.inputAnalysis req <> None ->
    (forall n, exists m,
       Model.behaviour (Retrier.inner (Server.ai st))
         (length (Model.requests (Retrier.inner (Server.ai st))) + n)
       = Threw (ThrowError m)
       /\ GeminiAudio.quotaSignal m = true) ->
    let r := RoutesAudio.analyzeDaily req st in
    fst r = Returned (Server.mkResponse 500
                        (Server.ErrorJson "Analysis failed"
                           (Some GeminiAudio.busyMessage)))
    /\ Server.store (snd r) = Server.store st
    /\ Retrier.slept (Server.ai (snd r)) = Retrier.slept (Server.ai st) ++ [2000; 4000]
    /\ length (Model.requests (Retrier.inner (Server.ai (snd r))))
       = (length (Model.requests (Retrier.inner (Server.ai st))) + 3)%nat.
Proof.
  intros P req u st Hu Hinput Hbusy r.
  destruct (analyzeDaily_audio_paths req st) as (dateStr & st1 & Hdate & Hpath).
  destruct (dateOrToday_spec (Server.reqDate req) st) as (st1' & Hdate' & Hst1 & Hai1).
  rewrite Hdate in Hdate'. inversion Hdate'; subst dateStr st1'. clear Hdate'.
  fold r in Hpath. rewrite Hu in Hpath.
  assert (Hbusy1 : forall n, exists m,
            Model.behaviour (Retrier.inner (Server.ai st1))
              (length (Model.requests (Retrier.inner (Server.ai st1))) + n)
            = Threw (ThrowError m)
            /\ GeminiAudio.quotaSignal m = true)
    by (rewrite Hai1; exact Hbusy).
  assert (Hrun : forall run, RoutesAudio.inputAnalysis req = Some run ->
            exists st2 request,
              run st1 = (Returned GeminiAudio.rateLimitedResult, st2)
              /\ Server.store st2 = Server.store st1
              /\ Retrier.slept (Server.ai st2)
                 = Retrier.slept (Server.ai st1) ++ [2000; 4000]
              /\ Model.requests (Retrier.inner (Server.ai st2))
                 = Model.requests (Retrier.inner (Server.ai st1))
                   ++ [request; request; request]).
  { intros run Hin. unfold RoutesAudio.inputAnalysis in Hin.
    destruct (Server.reqFile req) as [file|].
    - injection Hin as <-.
      destruct (liftAi_busy "Gemini analysis error:"
                  [Model.InlineData (Server.mimetype file) (Server.buffer file);
                   Model.Text Model.AudioPrompt] st1 Hbusy1) as (st2 & H).
      exists st2. eexists. exact H.
    - destruct (Server.truthy (Server.reqTextInput req)) as [textInput|];
        [|discriminate].
      injection Hin as <-.
      destruct (liftAi_busy "Text analysis error:"
                  [Model.Text (Model.TextPrompt textInput)] st1 Hbusy1) as (st2 & H).
      exists st2. eexists. exact H. }
  destruct (RoutesAudio.inputAnalysis req) as [run|]; [|congruence].
  destruct (Hrun run eq_refl) as (st2 & request & Erun & Hstore & Hslept & Hreq).
  rewrite Erun in Hpath.
  cbn [Server.saveAnalysis Model.success GeminiAudio.rateLimitedResult negb
       Server.respond ret Model.error] in Hpath.
  rewrite Hpath. cbn [fst snd].
  split; [reflexivity|].
  split; [rewrite Hstore, Hst1; reflexivity|].
  split; [rewrite Hslept, Hai1; reflexivity|].
  rewrite Hreq, Hai1, length_app. reflexivity.
Qed.

Lemma busy_service_fails_the_daily_route_witness :
  let st := Scenario.server (Scenario.rejecting "RESOURCE_EXHAUSTED: quota") Library.shelf in
  let r := RoutesAudio.analyzeDaily (engine := referencePlatform)
             Scenario.textAndAudioRequest st in
  fst r = Returned (Server.mkResponse 500
                      (Server.ErrorJson "Analysis failed" (Some GeminiAudio.busyMessage)))
  /\ Server.store (snd r) = Server.store st
  /\ Retrier.slept (Server.ai (snd r)) = Retrier.slept (Server.ai st) ++ [2000; 4000]
  /\ length (Model.requests (Retrier.inner (Server.ai (snd r))))
     = (length (Model.requests (Retrier.inner (Server.ai st))) + 3)%nat.
Proof.
  apply (busy_service_fails_the_daily_route referencePlatform
           Scenario.textAndAudioRequest "user-a"
           (Scenario.server (Scenario.rejecting "RESOURCE_EXHAUSTED: quota")
              Library.shelf)).
  - reflexivity.
  - discriminate.
  - intros n. eexists. split; [reflexivity|vm_compute; reflexivity].
Defined.

(** ** The allowed origins *)

Section CorsFacts.
Import JsString.

Lemma digitsToEnd_spec : forall s,
  Cors.digitsToEnd s = true
  <-> s <> EmptyString /\ forallb Json.isDigit (list_ascii_of_string s) = true.
Proof.
  induction s as [|c s IH].
  - cbn. split; [discriminate|]. intros [H _]. exfalso. apply H. reflexivity.
  - destruct s as [|c' s'].
    + cbn. rewrite andb_true_r. split; [intros H; split; [discriminate|exact H]|tauto].
    + change (Cors.digitsToEnd (String c (String c' s')))
        with (Json.isDigit c && Cors.digitsToEnd (String c' s')).
      change (forallb Json.isDigit (list_ascii_of_string (String c (String c' s'))))
        with (Json.isDigit c
              && forallb Json.isDigit (list_ascii_of_string (String c' s'))).
      rewrite !andb_true_iff, IH. split.
      * intros (Hc & _ & Hs). split; [discriminate|]. split; assumption.
      * intros (_ & Hc & Hs). split; [exact Hc|]. split; [discriminate|exact Hs].
Qed.

Lemma stripPrefix_spec p : forall s r,
  stripPrefix p s = Some r <-> s = p +:+ r.
Proof.
  induction p as [|a p IH]; intros s r.
  - change (EmptyString +:+ r) with r. cbn [stripPrefix]. split; congruence.
  - destruct s as [|b s]; cbn [stripPrefix].
    + split; [discriminate|]. intros H. discriminate H.
    + change (String a p +:+ r) with (String a (p +:+ r)).
      destruct (Ascii.eqb a b) eqn:E.
      * apply Ascii.eqb_eq in E. subst b. rewrite IH.
        split; [intros ->; reflexivity|intros H; injection H as ->; reflexivity].
      * split; [discriminate|]. intros H. injection H as Hb _.
        subst b. rewrite Ascii.eqb_refl in E. discriminate.
Qed.

Lemma isLocalhost_spec origin :
  Cors.isLocalhost origin = true
  <-> exists port,
        origin = "http://localhost:" +:+ port
        /\ port <> EmptyString
        /\ forallb Json.isDigit (list_ascii_of_string port) = true.
Proof.
  unfold Cors.isLocalhost.
  destruct (stripPrefix "http://localhost:" origin) as [port|] eqn:E.
  - apply stripPrefix_spec in E. rewrite digitsToEnd_spec. split.
    + intros [Hne Hd]. exists port. repeat split; assumption.
    + intros (port' & Ho & Hne & Hd).
      assert (port' = port).
      { rewrite E in Ho. apply stripPrefix_spec in Ho.
        assert (Hs : stripPrefix "http://localhost:" ("http://localhost:" +:+ port)
                     = Some port) by (apply stripPrefix_spec; reflexivity).
        rewrite Hs in Ho. congruence. }
      subst port'. split; assumption.
  - split; [discriminate|].
    intros (port & Ho & _). apply stripPrefix_spec in Ho. congruence.
Qed.

End CorsFacts.

(** X21. The CORS policy of the server. A request is let through exactly
    when it carries no origin (or an empty one), when its origin is
    [http://localhost:] followed by one decimal digit or more and nothing
    else, or when its origin is the configured frontend URL; every other
    origin is refused with the error "Not allowed by CORS". *)
Theorem cors_allows_localhost_and_the_frontend :
  forall (frontendUrl origin : option string),
    (Cors.checkOrigin frontendUrl origin = Returned tt
     <-> origin = None \/ origin = Some EmptyString
         \/ (exists port,
               origin = Some ("http://localhost:" +:+ port)
               /\ port <> EmptyString
               /\ forallb Json.isDigit (list_ascii_of_string port) = true)
         \/ origin = frontendUrl)
    /\ (Cors.checkOrigin frontendUrl origin = Returned tt
        \/ Cors.checkOrigin frontendUrl origin
           = Threw (ThrowError (Some "Not allowed by CORS"))).
Proof.
  intros frontendUrl origin.
  destruct origin as [[|c o]|].
  - split; [|left; reflexivity]. split; [intros _; right; left; reflexivity|reflexivity].
  - cbn [Cors.checkOrigin].
    pose proof (isLocalhost_spec (String c o)) as Hlocal.
    destruct (Cors.isLocalhost (String c o)).
    + split; [|left; reflexivity].
      split; [|reflexivity]. intros _. right. right. left.
      destruct (proj1 Hlocal eq_refl) as (port & Ho & Hp).
      exists port. rewrite Ho. split; [reflexivity|exact Hp].
    + destruct (bool_decide (Some (String c o) = frontendUrl)) eqn:Hf.
      * apply bool_decide_eq_true in Hf.
        split; [|left; reflexivity].
        split; [|reflexivity]. intros _. right. right. right. exact Hf.
      * apply bool_decide_eq_false in Hf.
        split; [|right; reflexivity].
        split; [discriminate|].
        intros [H | [H | [(port & Ho & Hp) | H]]]; try discriminate.
        -- assert (Hs : String c o = "http://localhost:" +:+ port) by congruence.
           assert (false = true); [|discriminate].
           apply Hlocal. exists port. split; [exact Hs|exact Hp].
        -- contradiction.
  - split; [|left; reflexivity]. split; [intros _; left; reflexivity|reflexivity].
Qed.

(** ** What a daily analysis stores *)

Section SaveFacts.
Import JsString Retrier Model Fence Server.
Context {engine : Platform}.

Lemma reflectionData_object u d (a : AnalysisResult) members (st : State) :
  data a = Some (JObject members) ->
  reflectionData u d a st
  = (Returned (Saved.recordOf u d members (clock st (ticks st))), snd (newDate st)).
Proof.
  intros Hdata. unfold reflectionData, dataField. rewrite Hdata. reflexivity.
Qed.

(** The end of the [try] block for an analysis that succeeded with an
    object. *)
Lemma saveAnalysis_object failure u d (a : AnalysisResult) members (st : State) :
  success a = true ->
  data a = Some (JObject members) ->
  let record := Saved.recordOf u d members (clock st (ticks st)) in
  let newId := autoId st (idsDrawn st) in
  let r := saveAnalysis failure u d a st in
  fst r = match dbFault st (dbOps st), store st !! newId with
          | Some message, _ => Threw (ThrowError (Some message))
          | None, Some _ =>
              Threw (ThrowError (Some "ALREADY_EXISTS: Document already exists"))
          | None, None => Returned (mkResponse 200 (CreatedJson newId record))
          end
  /\ store (snd r) = match dbFault st (dbOps st), store st !! newId with
                     | None, None => <[newId := record]> (store st)
                     | _, _ => store st
                     end
  /\ ai (snd r) = ai st.
Proof.
  intros Hok Hdata record newId r. subst r.
  assert (Hrun : saveAnalysis failure u d a st
                 = bind (collectionAdd record)
                     (fun docId => respond 200 (CreatedJson docId record))
                     (snd (newDate st))).
  { unfold saveAnalysis. rewrite Hok. cbn [negb].
    unfold bind at 1. rewrite (reflectionData_object u d a members st Hdata).
    reflexivity. }
  rewrite Hrun. clear Hrun.
  unfold bind, collectionAdd, bind, dbOperation, newDate, respond, ret.
  cbn [fst snd dbFault dbOps store autoId idsDrawn ai clock ticks].
  fold newId.
  destruct (dbFault st (dbOps st)) as [message|]; [repeat split|].
  cbn [fst snd dbFault dbOps store autoId idsDrawn ai clock ticks].
  fold newId.
  destruct (store st !! newId); repeat split.
Qed.

Lemma dateOrToday_state d (st : State) :
  dateOrToday d st
  = (Returned (effectiveDate d st),
     mkState (ai st) (store st) (dbFault st) (dbOps st) (autoId st) (idsDrawn st)
             (clock st) (ticks st + match truthy d with Some _ => 0 | None => 1 end)).
Proof.
  unfold dateOrToday, effectiveDate.
  destruct (truthy d) as [day|].
  - rewrite Nat.add_0_r. destruct st; reflexivity.
  - rewrite Nat.add_1_r. reflexivity.
Qed.

(** The first backend's daily route when the model answers [text] and
    [JSON.parse] gives an object: the analysis succeeds at the first
    request, and the handler goes on to save it. *)
Lemma analyzeDaily_audio_answered (req : DailyRequest) u (st : State) text members :
  truthy (reqUserId req) = Some u ->
  RoutesAudio.inputAnalysis req <> None ->
  nextReply (ai st) = Returned (ReplyText text) ->
  JSON_parse (trim (unfenced matchSpaced text)) = inl (JObject members) ->
  exists w2,
    let st2 := mkState w2 (store st) (dbFault st) (dbOps st) (autoId st) (idsDrawn st)
                       (clock st) (ticks st + match truthy (reqDate req) with
                                             | Some _ => 0
                                             | None => 1
                                             end) in
    RoutesAudio.analyzeDaily req st
    = match saveAnalysis (fun a => ErrorJson "Analysis failed" (error a)) u
              (effectiveDate (reqDate req) st) (succeeded (JObject members)) st2 with
      | (Returned resp, st3) => (Returned resp, st3)
      | (Threw e, st3) =>
          RoutesAudio.onRouteError "Analysis error:" "Failed to analyze reflection" e st3
      end.
Proof.
  intros Hu Hinput Hreply Hparse.
  destruct (analyzeDaily_audio_paths req st) as (dateStr & st1 & Hdate & Hpath).
  rewrite (dateOrToday_state (reqDate req) st) in Hdate.
  injection Hdate as <- <-. rewrite Hu in Hpath.
  destruct (RoutesAudio.inputAnalysis req) as [run|] eqn:Hin; [|congruence].
  unfold RoutesAudio.inputAnalysis in Hin.
  destruct (reqFile req) as [file|].
  - injection Hin as <-. unfold liftAi in Hpath. cbn [ai] in Hpath.
    rewrite (analyzeAudioReflection_reply _ _ _ text Hreply), Hparse in Hpath.
    unfold setAi in Hpath.
    cbn [ai store dbFault dbOps autoId idsDrawn clock ticks] in Hpath.
    match type of Hpath with
    | context [saveAnalysis _ _ _ _ (mkState ?w _ _ _ _ _ _ _)] => exists w
    end.
    cbv zeta.
    destruct (saveAnalysis _ _ _ _ _) as [[resp|e] st3]; exact Hpath.
  - destruct (truthy (reqTextInput req)) as [textInput|]; [|discriminate].
    injection Hin as <-. unfold liftAi in Hpath. cbn [ai] in Hpath.
    rewrite (analyzeTextReflection_reply _ _ text Hreply), Hparse in Hpath.
    unfold setAi in Hpath.
    cbn [ai store dbFault dbOps autoId idsDrawn clock ticks] in Hpath.
    match type of Hpath with
    | context [saveAnalysis _ _ _ _ (mkState ?w _ _ _ _ _ _ _)] => exists w
    end.
    cbv zeta.
    destruct (saveAnalysis _ _ _ _ _) as [[resp|e] st3]; exact Hpath.
Qed.

End SaveFacts.

(** X22. What the daily route of the first backend stores. When the
    request names a user and carries audio or text, the model answers at
    the first request, [JSON.parse] gives an object, and the store accepts
    the new document, the route answers 200 with the generated id, and the
    record stored under it carries the user, the effective date, the clock's
    reading, and for each analysis field the member of that name of the
    model's object: the transcript stored is the model's, and a field the
    model left out is absent. *)
Theorem daily_route_stores_the_models_answer :
  forall (P : Platform) (req : Server.DailyRequest) (u text : string)
         (members : list (string * json)) (st : Server.State),
    Server.truthy (Server.reqUserId req) = Some u ->
    RoutesAudio.inputAnalysis req <> None ->
    Model.nextReply (Server.ai st) = Returned (Model.ReplyText text) ->
    JSON_parse (JsString.trim (Fence.unfenced Fence.matchSpaced text))
    = inl (JObject members) ->
    Server.dbFault st (Server.dbOps st) = None ->
    Server.store st !! Server.autoId st (Server.idsDrawn st) = None ->
    let r := RoutesAudio.analyzeDaily req st in
    let newId := Server.autoId st (Server.idsDrawn st) in
    let now := Server.clock st
                 (Server.ticks st + match Server.truthy (Server.reqDate req) with
                                    | Some _ => 0
                                    | None => 1
                                    end) in
    let record := Saved.recordOf u (Server.effectiveDate (Server.reqDate req) st)
                    members now in
    fst r = Returned (Server.mkResponse 200 (Server.CreatedJson newId record))
    /\ Server.store (snd r) = <[newId := record]> (Server.store st)
    /\ transcript record = Json.member "transcript" members.
Proof.
  intros P req u text members st Hu Hinput Hreply Hparse Hdb Hfree r newId now record.
  destruct (analyzeDaily_audio_answered req u st text members Hu Hinput Hreply Hparse)
    as [w2 Hroute].
  cbv zeta in Hroute. fold r in Hroute.
  match type of Hroute with
  | context [Server.saveAnalysis ?f ?u' ?d ?a ?st2] =>
      destruct (saveAnalysis_object f u' d a members st2 eq_refl eq_refl)
        as (Hres & Hstore & _);
      destruct (Server.saveAnalysis f u' d a st2) as [[resp|e] st3]
  end; cbn [fst snd Server.dbFault Server.dbOps Server.store Server.autoId
            Server.idsDrawn Server.clock Server.ticks] in Hres, Hstore;
    rewrite Hdb, Hfree in Hres; rewrite Hdb, Hfree in Hstore.
  - injection Hres as ->. rewrite Hroute. cbn [fst snd].
    split; [reflexivity|]. split; [exact Hstore|reflexivity].
  - discriminate Hres.
Qed.

Lemma daily_route_stores_the_models_answer_witness :
  let st := Scenario.server (Scenario.replying Scenario.sampleJson) Library.shelf in
  let r := RoutesAudio.analyzeDaily (engine := referencePlatform) Scenario.textRequest st in
  fst r = Returned (Server.mkResponse 200
                      (Server.CreatedJson "auto-000" Scenario.savedRecord))
  /\ Server.store (snd r) = <["auto-000" := Scenario.savedRecord]> (Server.store st)
  /\ transcript Scenario.savedRecord = Some (JString "I felt calm today").
Proof.
  apply (daily_route_stores_the_models_answer referencePlatform Scenario.textRequest
           "user-a" Scenario.sampleJson
           [("transcript", JString "I felt calm today");
            ("primaryEmotion", JString "calm");
            ("secondaryEmotion", JNull);
            ("theme", JString "self");
            ("emotionalIntensity", JString "low");
            ("dailyInsight", JString "You noticed a quiet day.")]
           (Scenario.server (Scenario.replying Scenario.sampleJson) Library.shelf)).
  - reflexivity.
  - discriminate.
  - reflexivity.
  - vm_compute. reflexivity.
  - reflexivity.
  - vm_compute. reflexivity.
Defined.

(** X23. A store that fails after the analysis. Under the same conditions
    on the request and the model, when the store rejects the new document,
    the analysis is lost: the route answers 500 "Failed to analyze
    reflection" with the store's message as [details], and the collection
    is as it was. *)
Theorem store_failure_loses_the_analysis :
  forall (P : Platform) (req : Server.DailyRequest) (u text message : string)
         (members : list (string * json)) (st : Server.State),
    Server.truthy (Server.reqUserId req) = Some u ->
    RoutesAudio.inputAnalysis req <> None ->
    Model.nextReply (Server.ai st) = Returned (Model.ReplyText text) ->
    JSON_parse (JsString.trim (Fence.unfenced Fence.matchSpaced text))
    = inl (JObject members) ->
    Server.dbFault st (Server.dbOps st) = Some message ->
    let r := RoutesAudio.analyzeDaily req st in
    fst r = Returned (Server.mkResponse 500
                        (Server.ErrorJson "Failed to analyze reflection" (Some message)))
    /\ Server.store (snd r) = Server.store st.
Proof.
  intros P req u text message members st Hu Hinput Hreply Hparse Hdb r.
  destruct (analyzeDaily_audio_answered req u st text members Hu Hinput Hreply Hparse)
    as [w2 Hroute].
  cbv zeta in Hroute. fold r in Hroute.
  match type of Hroute with
  | context [Server.saveAnalysis ?f ?u' ?d ?a ?st2] =>
      destruct (saveAnalysis_object f u' d a members st2 eq_refl eq_refl)
        as (Hres & Hstore & _);
      destruct (Server.saveAnalysis f u' d a st2) as [[resp|e] st3]
  end; cbn [fst snd Server.dbFault Server.dbOps Server.store Server.autoId
            Server.idsDrawn Server.clock Server.ticks] in Hres, Hstore;
    rewrite Hdb in Hres; rewrite Hdb in Hstore.
  - discriminate Hres.
  - injection Hres as ->. rewrite Hroute.
    split; [reflexivity|].
    destruct (onRouteError_spec "Analysis error:" "Failed to analyze reflection"
                (ThrowError (Some message)) st3) as [Hs _].
    rewrite Hs. exact Hstore.
Qed.

Lemma store_failure_loses_the_analysis_witness :
  let st := Server.mkState (Scenario.fresh (Scenario.replying Scenario.sampleJson))
              Library.shelf (fun _ => Some "UNAVAILABLE: the service is down") 0%nat
              (fun _ => "auto") 0%nat (fun _ => Scenario.clockAt) 0%nat in
  let r := RoutesAudio.analyzeDaily (engine := referencePlatform) Scenario.textRequest st in
  fst r = Returned (Server.mkResponse 500
                      (Server.ErrorJson "Failed to analyze reflection"
                         (Some "UNAVAILABLE: the service is down")))
  /\ Server.store (snd r) = Server.store st.
Proof.
  apply (store_failure_loses_the_analysis referencePlatform Scenario.textRequest
           "user-a" Scenario.sampleJson "UNAVAILABLE: the service is down"
           [("transcript", JString "I felt calm today");
            ("primaryEmotion", JString "calm");
            ("secondaryEmotion", JNull);
            ("theme", JString "self");
            ("emotionalIntensity", JString "low");
            ("dailyInsight", JString "You noticed a quiet day.")]
           (Server.mkState (Scenario.fresh (Scenario.replying Scenario.sampleJson))
              Library.shelf (fun _ => Some "UNAVAILABLE: the service is down") 0%nat
              (fun _ => "auto") 0%nat (fun _ => Scenario.clockAt) 0%nat)).
  - reflexivity.
  - discriminate.
  - reflexivity.
  - vm_compute. reflexivity.
  - reflexivity.
Defined.


(** ** The daily route of the text-only backend *)

Section TextRouteFacts.
Import JsString Retrier Model Fence Server.
Context {engine : Platform}.

Lemma liftAi_eq {A} (m : Task (Retrier.World Transport) A) (st : State) :
  liftAi m st = (fst (m (ai st)), setAi (snd (m (ai st))) st).
Proof. unfold liftAi. destruct (m (ai st)); reflexivity. Qed.

(** The text-only daily analysis when the call of the service rejects. *)
Lemma textOnly_analyzeTextReflection_rejected textInput (w : Retrier.World Transport) m :
  nextReply w = Threw (ThrowError m) ->
  fst (GeminiText.analyzeTextReflection textInput w) = Returned (failed m).
Proof.
  intros Hreply. unfold nextReply in Hreply.
  unfold GeminiText.analyzeTextReflection, tryCatch, bind, GeminiText.callGemini,
    bind, GeminiText.callModel, generateContent.
  rewrite Hreply. reflexivity.
Qed.

(** The handler up to the end of the analysis, for a request with a user
    and a text: the state the analysis leaves differs from the first one
    in the model's world and the clock's ticks only. *)
Lemma analyzeDaily_text_analysed (req : DailyRequest) u textInput (st : State) :
  truthy (reqUserId req) = Some u ->
  truthy (reqTextInput req) = Some textInput ->
  let w1 := ai (RoutesText.received req st) in
  let run := GeminiText.analyzeTextReflection textInput w1 in
  let st2 := mkState (snd run) (store st) (dbFault st) (dbOps st) (autoId st)
                     (idsDrawn st) (clock st)
                     (ticks st + match truthy (reqDate req) with
                                 | Some _ => 0
                                 | None => 1
                                 end) in
  nextReply w1 = nextReply (ai st)
  /\ match fst run with
     | Returned a =>
         match saveAnalysis (fun a => FailureJson (error a)) u
                 (effectiveDate (reqDate req) st) a st2 with
         | (Returned resp, st3) => RoutesText.analyzeDaily req st = (Returned resp, st3)
         | (Threw e, st3) =>
             fst (RoutesText.analyzeDaily req st)
             = Returned (mkResponse 500 (FailureJson (Some "Failed to analyze reflection")))
             /\ store (snd (RoutesText.analyzeDaily req st)) = store st3
         end
     | Threw e =>
         fst (RoutesText.analyzeDaily req st)
         = Returned (mkResponse 500 (FailureJson (Some "Failed to analyze reflection")))
         /\ store (snd (RoutesText.analyzeDaily req st)) = store st
     end.
Proof.
  intros Hu Htext w1 run st2.
  split; [reflexivity|].
  destruct (analyzeDaily_text_paths req st) as (st1 & Hdate & Hpath).
  cbv zeta in Hpath. rewrite Hu, Htext in Hpath.
  rewrite (dateOrToday_state (reqDate req) (RoutesText.received req st)) in Hdate.
  injection Hdate as <-.
  rewrite liftAi_eq in Hpath.
  subst run st2 w1.
  unfold RoutesText.received, RoutesText.logBody, consoleEntry, setAi in *.
  cbn [snd ai store dbFault dbOps autoId idsDrawn clock ticks] in *.
  destruct (GeminiText.analyzeTextReflection textInput _) as [[a|e] w2];
    cbn [fst snd] in *.
  - destruct (saveAnalysis _ u (effectiveDate (reqDate req) st) a _)
      as [[resp|e] st3].
    + exact Hpath.
    + rewrite Hpath. cbn [fst snd]. split; [reflexivity|].
      apply keepsStore_consoleError.
  - rewrite Hpath. cbn [fst snd]. split; [reflexivity|].
    match goal with
    | |- store (snd (consoleError ?l ?p ?s)) = _ =>
        rewrite (keepsStore_consoleError l p s)
    end.
    reflexivity.
Qed.

End TextRouteFacts.

(** X24. The daily route of the text-only backend, for a request with a
    user and a text. When the call of the model rejects with a message,
    the route answers 500 with that message as [error] and stores nothing.
    When the model answers, [JSON.parse] gives an object and the store
    accepts the new document, the route answers 200 with the generated id,
    and the record stored under it carries the user, the effective date,
    the clock's reading, and for each analysis field the member of that
    name of the model's object. *)
Theorem text_backend_daily_route :
  forall (P : Platform) (req : Server.DailyRequest) (u textInput : string)
         (st : Server.State),
    Server.truthy (Server.reqUserId req) = Some u ->
    Server.truthy (Server.reqTextInput req) = Some textInput ->
    let r := RoutesText.analyzeDaily req st in
    (forall m,
       Model.nextReply (Server.ai st) = Threw (ThrowError m) ->
       fst r = Returned (Server.mkResponse 500 (Server.FailureJson m))
       /\ Server.store (snd r) = Server.store st)
    /\ (forall text members,
          Model.nextReply (Server.ai st) = Returned (Model.ReplyText text) ->
          JSON_parse (JsString.trim (Fence.unfenced Fence.matchPlain text))
          = inl (JObject members) ->
          Server.dbFault st (Server.dbOps st) = None ->
          Server.store st !! Server.autoId st (Server.idsDrawn st) = None ->
          let newId := Server.autoId st (Server.idsDrawn st) in
          let now := Server.clock st
                       (Server.ticks st + match Server.truthy (Server.reqDate req) with
                                          | Some _ => 0
                                          | None => 1
                                          end) in
          let record := Saved.recordOf u (Server.effectiveDate (Server.reqDate req) st)
                          members now in
          fst r = Returned (Server.mkResponse 200 (Server.CreatedJson newId record))
          /\ Server.store (snd r) = <[newId := record]> (Server.store st)).
Proof.
  intros P req u textInput st Hu Htext r.
  destruct (analyzeDaily_text_analysed req u textInput st Hu Htext) as [Hnext Hroute].
  cbv zeta in Hroute. fold r in Hroute.
  split.
  - intros m Hreply. rewrite <- Hnext in Hreply.
    rewrite (textOnly_analyzeTextReflection_rejected textInput _ m Hreply) in Hroute.
    cbn [Server.saveAnalysis Model.success Model.failed negb Server.respond ret
         Model.error] in Hroute.
    rewrite Hroute. cbn [fst snd Server.store]. split; reflexivity.
  - intros text members Hreply Hparse Hdb Hfree newId now record.
    rewrite <- Hnext in Hreply.
    pose proof (textOnly_analyzeTextReflection_reply textInput _ text Hreply) as Hrun.
    rewrite Hparse in Hrun. rewrite Hrun in Hroute.
    match type of Hroute with
    | context [Server.saveAnalysis ?f ?u' ?d ?a ?st2] =>
        destruct (saveAnalysis_object f u' d a members st2 eq_refl eq_refl)
          as (Hres & Hstore & _);
        destruct (Server.saveAnalysis f u' d a st2) as [[resp|e] st3]
    end; cbn [fst snd Server.dbFault Server.dbOps Server.store Server.autoId
              Server.idsDrawn Server.clock Server.ticks] in Hres, Hstore;
      rewrite Hdb, Hfree in Hres; rewrite Hdb, Hfree in Hstore.
    + injection Hres as ->. rewrite Hroute. cbn [fst snd].
      split; [reflexivity|exact Hstore].
    + discriminate Hres.
Qed.

Lemma text_backend_daily_route_witness :
  let busy := Scenario.server (Scenario.rejecting "[503 Service Unavailable]")
                Library.shelf in
  let st := Scenario.server (Scenario.replying Scenario.sampleJson) Library.shelf in
  fst (RoutesText.analyzeDaily (engine := referencePlatform) Scenario.textRequest busy)
  = Returned (Server.mkResponse 500
                (Server.FailureJson (Some "[503 Service Unavailable]")))
  /\ fst (RoutesText.analyzeDaily (engine := referencePlatform) Scenario.textRequest st)
     = Returned (Server.mkResponse 200
                   (Server.CreatedJson "auto-000" Scenario.savedRecord)).
Proof.
  split.
  - destruct (text_backend_daily_route referencePlatform Scenario.textRequest
                "user-a" "I felt calm today"
                (Scenario.server (Scenario.rejecting "[503 Service Unavailable]")
                   Library.shelf) eq_refl eq_refl) as [Hbusy _].
    apply (Hbusy (Some "[503 Service Unavailable]")). reflexivity.
  - destruct (text_backend_daily_route referencePlatform Scenario.textRequest
                "user-a" "I felt calm today"
                (Scenario.server (Scenario.replying Scenario.sampleJson)
                   Library.shelf) eq_refl eq_refl) as [_ Hok].
    apply (Hok Scenario.sampleJson
             [("transcript", JString "I felt calm today");
              ("primaryEmotion", JString "calm");
              ("secondaryEmotion", JNull);
              ("theme", JString "self");
              ("emotionalIntensity", JString "low");
              ("dailyInsight", JString "You noticed a quiet day.")]).
    + reflexivity.
    + vm_compute. reflexivity.
    + reflexivity.
    + vm_compute. reflexivity.
Defined.

(** ** A stored transcript that is no string *)

Section OddTranscriptFacts.
Import Retrier Model Server.
Context {engine : Platform}.

Lemma summarizeAll_thrown : forall rs e,
  GeminiAudio.summarizeAll rs = Threw e ->
  e = ThrowError (Some "r.transcript?.substring is not a function").
Proof.
  induction rs as [|r rs IH]; intros e H; cbn [GeminiAudio.summarizeAll] in H.
  - discriminate.
  - unfold GeminiAudio.summarize in H.
    destruct (transcript (fields r)) as [[| | | | |]|]; cbn [GeminiAudio.excerpt] in H;
      try (injection H as <-; reflexivity);
      (destruct (GeminiAudio.summarizeAll rs) as [js|e'];
       [discriminate|injection H as <-; apply IH; reflexivity]).
Qed.

End OddTranscriptFacts.

(** X25. One stored transcript that is neither a string nor [null], among
    the reflections the weekly query selects, fails the weekly route of
    the first backend: the summary cannot be built, the route answers 500
    "Failed to analyze weekly patterns" with the TypeError's message as
    [details], and the model is not called. *)
Theorem odd_transcript_fails_the_weekly_route :
  forall (P : Platform) (requester : option string) (u : string) (st : Server.State)
         (r : Reflection) (j : json),
    Server.truthy requester = Some u ->
    Server.dbFault st (Server.dbOps st) = None ->
    (3 <= length (Query.datedOf u st))%nat ->
    In r (Query.recentOf u 7 st) ->
    transcript (fields r) = Some j ->
    j <> JNull ->
    (forall s, j <> JString s) ->
    let a := ReadsAudio.analyzeWeekly requester st in
    (exists details,
       fst a = Returned (Query.mkResponse 500
                           (Query.ErrorJson "Failed to analyze weekly patterns"
                              (Some details))))
    /\ Model.requests (Retrier.inner (Server.ai (snd a)))
       = Model.requests (Retrier.inner (Server.ai st))
    /\ Server.store (snd a) = Server.store st.
Proof.
  intros P requester u st r j Hu Hdb Hmany Hin Ht Hnull Hstring a. subst a.
  assert (He : exists e, GeminiAudio.excerpt (transcript (fields r)) = Threw e).
  { rewrite Ht. destruct j; try (eexists; reflexivity).
    - congruence.
    - exfalso. exact (Hstring s eq_refl). }
  destruct He as [e He].
  destruct (summarizeAll_throws _ r e Hin He) as [e' Hsum].
  pose proof (summarizeAll_thrown _ _ Hsum) as ->.
  destruct (recentOf_spec u 7 st) as [Hlen _].
  rewrite (weekly_audio_ok requester u st Hu Hdb). cbv zeta.
  destruct (Query.recentOf u 7 st) as [|r0 sel] eqn:Hsel; [destruct Hin|].
  replace (length (r0 :: sel) <? 3)%nat with false
    by (symmetry; apply Nat.ltb_ge; lia).
  unfold Server.liftAi, GeminiAudio.analyzeWeeklyPatterns, bind, ofOutcome.
  rewrite Hsum.
  cbn [fst snd ReadsAudio.onRouteError].
  unfold bind, Server.consoleError, Server.consoleEntry, Query.respond, ret.
  cbn [fst snd Server.setAi Server.ai Server.store Retrier.consoleWrite Retrier.inner].
  rewrite dbOperation_ai, dbOperation_store.
  split; [eexists; reflexivity|]. split; reflexivity.
Qed.

Lemma odd_transcript_fails_the_weekly_route_witness :
  let odd := mkReflectionData (Some "user-b") (Some "2024-05-15") (Some (JBool true))
               (Some (JString "calm")) None None None None
               (Some (mkDateTime 2024 5 15 20 0 0 0)) in
  let st := Scenario.server (Scenario.replying "{}") (<["b5" := odd]> Library.shelf) in
  let a := ReadsAudio.analyzeWeekly (engine := referencePlatform) (Some "user-b") st in
  (exists details,
     fst a = Returned (Query.mkResponse 500
                         (Query.ErrorJson "Failed to analyze weekly patterns"
                            (Some details))))
  /\ Model.requests (Retrier.inner (Server.ai (snd a)))
     = Model.requests (Retrier.inner (Server.ai st))
  /\ Server.store (snd a) = Server.store st.
Proof.
  apply (odd_transcript_fails_the_weekly_route referencePlatform (Some "user-b") "user-b"
           (Scenario.server (Scenario.replying "{}")
              (<["b5" := mkReflectionData (Some "user-b") (Some "2024-05-15")
                           (Some (JBool true)) (Some (JString "calm"))
                           None None None None
                           (Some (mkDateTime 2024 5 15 20 0 0 0))]> Library.shelf))
           (mkReflection "b5"
              (mkReflectionData (Some "user-b") (Some "2024-05-15")
                 (Some (JBool true)) (Some (JString "calm"))
                 None None None None
                 (Some (mkDateTime 2024 5 15 20 0 0 0))))
           (JBool true)).
  - reflexivity.
  - reflexivity.
  - vm_compute. lia.
  - vm_compute. tauto.
  - reflexivity.
  - discriminate.
  - intros s. discriminate.
Defined.
